(** * pywinwatcher: the native file and registry monitors

    A shallow embedding of [pywinwatcher/filemon.py] and
    [pywinwatcher/regmon.py] (classes [FileMonitor], [FileMonitorAPI],
    [RegistryMonitor], [RegistryMonitorAPI]).

    The monitors are stateful objects talking to the Win32 API through
    pywin32.  A method is modelled as a computation over the pair of
    the object ([self]) and the log of the Win32 calls issued so far;
    what a call answers is decided by an arbitrary operating system
    (class [Win32]), a function of that log.  All general theorems are
    stated for every such operating system. *)

From Stdlib Require Import ZArith Lia.
From stdpp Require Import gmap strings list fin_maps pretty.

Local Open Scope Z_scope.
Local Open Scope string_scope.
Local Open Scope list_scope.

(** ** Python values and exceptions *)

(** The values stored in keyword arguments, in the event dictionary and
    passed to [win32api.CloseHandle]. *)
Inductive pyval : Type :=
| PNone
| PStr (s : string)
| PDatetime (t : Z)
| PyHANDLE (h : Z).

#[global] Instance pyval_eq_dec : EqDecision pyval.
Proof. solve_decision. Defined.

(** The exceptions that can leave a method.  The two monitor errors carry
    the message they were built with ([None] for [FileMonitorError()]). *)
Inductive exn : Type :=
| FileMonitorError (args : option string)
| RegistryMonitorError (args : option string)
| KeyError (key : string)
| IndexError
| TypeError
| pywintypes_error (winerror : Z).

#[global] Instance exn_eq_dec : EqDecision exn.
Proof. solve_decision. Defined.

(** What a pywin32 function can raise: [pywintypes.error] with the error
    code of the failed Win32 call, or [TypeError] for an argument it
    cannot convert. *)
Inductive pywin32_error : Type :=
| api_error (winerror : Z)
| bad_argument.

Definition exn_of (e : pywin32_error) : exn :=
  match e with
  | api_error w => pywintypes_error w
  | bad_argument => TypeError
  end.

(** ** The Win32 calls and the operating system *)

Inductive Call : Type :=
| CreateFile (fileName : string) (desiredAccess shareMode : Z)
    (creationDisposition flagsAndAttributes : Z)
| CreateEvent (bManualReset bInitialState : bool)
| AllocateReadBuffer (size : Z)
| ReadDirectoryChangesW (handle : Z) (bWatchSubtree : bool)
    (dwNotifyFilter : option Z) (hEvent : Z)
| WaitForSingleObject (hHandle : Z) (milliseconds : Z)
| GetOverlappedResult (hFile : Z) (hEvent : Z) (bWait : bool)
| GetFinalPathNameByHandle (hFile : Z) (flags : Z)
| FILE_NOTIFY_INFORMATION (size : Z)
| CloseHandle (object : pyval)
| RegOpenKeyEx (key : option Z) (subKey : string) (reserved sam : Z)
| RegNotifyChangeKeyValue (key : Z) (bWatchSubTree : bool)
    (dwNotifyFilter : option Z) (hEvent : Z) (fAsynchronous : bool)
| RegCloseKey (key : Z)
| utcnow.

#[global] Instance Call_eq_dec : EqDecision Call.
Proof. solve_decision. Defined.

(** The log of the calls issued so far, oldest first. *)
Abbreviation Trace := (list Call).

(** The constants of [win32con], [winnt] and [win32api] the two modules
    use, and the answer of every call.  An answer is a function of the
    log up to and including the call answered, so an operating system is
    any deterministic environment; a call either raises ([inl]) or
    returns ([inr]). *)
Class Win32 : Type := {
  FILE_LIST_DIRECTORY : Z;
  FILE_SHARE_READ : Z;
  FILE_SHARE_WRITE : Z;
  OPEN_EXISTING : Z;
  FILE_FLAG_BACKUP_SEMANTICS : Z;
  FILE_FLAG_OVERLAPPED : Z;
  FILE_NAME_NORMALIZED : Z;
  FILE_NOTIFY_CHANGE_FILE_NAME : Z;
  FILE_NOTIFY_CHANGE_DIR_NAME : Z;
  FILE_NOTIFY_CHANGE_LAST_WRITE : Z;
  WAIT_OBJECT_0 : Z;
  WAIT_FAILED : Z;
  KEY_NOTIFY : Z;
  REG_NOTIFY_CHANGE_NAME : Z;
  REG_NOTIFY_CHANGE_LAST_SET : Z;
  HKEY_CLASSES_ROOT : Z;
  HKEY_CURRENT_USER : Z;
  HKEY_LOCAL_MACHINE : Z;
  HKEY_USERS : Z;
  HKEY_CURRENT_CONFIG : Z;
  answer_handle : Trace → pywin32_error + Z;
  answer_none : Trace → pywin32_error + unit;
  answer_int : Trace → pywin32_error + Z;
  answer_str : Trace → pywin32_error + string;
  answer_records : Trace → pywin32_error + list (Z * string)
}.

(** ** Computations over an object and the call log *)

Inductive outcome (A : Type) : Type :=
| Ret (a : A)
| Raise (e : exn)
| Spin.
Arguments Ret {A} a.
Arguments Raise {A} e.
Arguments Spin {A}.

(** [Spin] stands for a [while True] loop that has not left yet when the
    fuel given to it is used up. *)
Definition M (S A : Type) : Type := S * Trace → outcome A * (S * Trace).

Definition ret {S A} (a : A) : M S A := λ σ, (Ret a, σ).
Definition raise {S A} (e : exn) : M S A := λ σ, (Raise e, σ).
Definition spin {S A} : M S A := λ σ, (Spin, σ).

Definition bind {S A B} (m : M S A) (k : A → M S B) : M S B :=
  λ σ, match m σ with
       | (Ret a, σ') => k a σ'
       | (Raise e, σ') => (Raise e, σ')
       | (Spin, σ') => (Spin, σ')
       end.

Notation "x <- m ;; k" := (bind m (λ x, k))
  (at level 100, m at next level, right associativity,
   format "'[v' x  <-  m  ;;  '/' k ']'").
Notation "m ;;; k" := (bind m (λ _, k))
  (at level 100, right associativity,
   format "'[v' m  ;;;  '/' k ']'").

Definition get_self {S} : M S S := λ σ, (Ret σ.1, σ).
Definition modify_self {S} (f : S → S) : M S unit := λ σ, (Ret (), (f σ.1, σ.2)).

(** Lifting of a pure result that may raise. *)
Definition lift {S A} (r : exn + A) : M S A :=
  match r with inl e => raise e | inr a => ret a end.

(** Issue a Win32 call: log it, then return or raise what the operating
    system answers. *)
Definition oscall {S A} (c : Call) (answer : Trace → pywin32_error + A)
  : M S A :=
  λ σ, let t := σ.2 ++ [c] in
       match answer t with
       | inl e => (Raise (exn_of e), (σ.1, t))
       | inr a => (Ret a, (σ.1, t))
       end.

(** [try: m except pywintypes.error as err: raise h(err.winerror)] *)
Definition try_except_pywintypes {S A} (m : M S A) (h : Z → exn) : M S A :=
  λ σ, match m σ with
       | (Raise (pywintypes_error w), σ') => (Raise (h w), σ')
       | r => r
       end.

(** Run a method of a freshly built object from inside a constructor. *)
Definition on_object {S S' A} (o : S') (m : M S' A) : M S (A * S') :=
  λ σ, match m (o, σ.2) with
       | (Ret a, (o', t)) => (Ret (a, o'), (σ.1, t))
       | (Raise e, (_, t)) => (Raise e, (σ.1, t))
       | (Spin, (_, t)) => (Spin, (σ.1, t))
       end.

(** Keyword arguments, in the order the caller gave them. *)
Abbreviation kwargs_t := (list (string * string)).

(** [kwargs[key]] *)
Fixpoint kwargs_get (kwargs : kwargs_t) (key : string) : exn + string :=
  match kwargs with
  | [] => inl (KeyError key)
  | (k, v) :: rest => if decide (k = key) then inr v else kwargs_get rest key
  end.

(** [for key in kwargs: if key not in valid: raise e] *)
Fixpoint check_kwargs (valid : list string) (kwargs : kwargs_t) (e : exn)
  : exn + unit :=
  match kwargs with
  | [] => inr ()
  | (key, _) :: rest =>
      if decide (key ∈ valid) then check_kwargs valid rest e else inl e
  end.

(** The double-quote character of the messages. *)
Definition dquote : string := String (Ascii.ascii_of_nat 34) EmptyString.

(** ** filemon.py *)

Module filemon.

(** The attributes of a [FileMonitorAPI] object.  [_overlapped_hEvent] is
    [self._overlapped.hEvent]; the read buffer lives with the operating
    system and is only seen through [FILE_NOTIFY_INFORMATION]. *)
Record FileMonitorAPI : Type := {
  _notify_filter : string;
  _kwargs : kwargs_t;
  _event_properties : gmap string pyval;
  _directory : Z;
  _overlapped_hEvent : Z;
  _num_bytes_returned : Z
}.

Definition set_event_property (key : string) (v : pyval)
    (self : FileMonitorAPI) : FileMonitorAPI :=
  {| _notify_filter := _notify_filter self;
     _kwargs := _kwargs self;
     _event_properties := <[key := v]> (_event_properties self);
     _directory := _directory self;
     _overlapped_hEvent := _overlapped_hEvent self;
     _num_bytes_returned := _num_bytes_returned self |}.

Definition set_num_bytes_returned (n : Z)
    (self : FileMonitorAPI) : FileMonitorAPI :=
  {| _notify_filter := _notify_filter self;
     _kwargs := _kwargs self;
     _event_properties := _event_properties self;
     _directory := _directory self;
     _overlapped_hEvent := _overlapped_hEvent self;
     _num_bytes_returned := n |}.

Definition valid_kwargs : list string :=
  ["Drive"; "Path"; "FileName"; "Extension"].

Definition valid_notify_filter : list string :=
  ["FileNameChange"; "DirNameChange"; "LastWriteChange"; "UnionChange"].

Definition invalid_kwargs_error : exn :=
  FileMonitorError (Some
    ("Watcher installation error." +:+
     "Invalid parameters of the file access.")).

Definition invalid_notify_filter_error (notify_filter : string) : exn :=
  FileMonitorError (Some
    ("Watcher installation error." +:+
     "The notify_filter value cannot be: " +:+ dquote +:+ notify_filter
       +:+ dquote +:+ ".")).

(** What [FileMonitor.__init__] leaves in the object. *)
Record FileMonitor : Type := {
  base_notify_filter : string;
  base_kwargs : kwargs_t;
  base_event_properties : gmap string pyval
}.

Definition initial_event_properties : gmap string pyval :=
  <["EventType" := PNone]> (<["Timestamp" := PNone]> (<["Extension" := PNone]>
  (<["FileName" := PNone]> (<["Path" := PNone]> (<["Drive" := PNone]> ∅))))).

Definition FileMonitor__init__ (notify_filter : string) (kwargs : kwargs_t)
  : exn + FileMonitor :=
  match check_kwargs valid_kwargs kwargs invalid_kwargs_error with
  | inl e => inl e
  | inr _ =>
      inr {| base_notify_filter := notify_filter;
             base_kwargs := kwargs;
             base_event_properties := initial_event_properties |}
  end.

(** [FileMonitorAPI._ACTIONS] *)
Definition _ACTIONS : gmap Z string :=
  <[5 := "Renamed to file or directory"]>
  (<[4 := "Renamed from file or directory"]>
  (<[3 := "Modified"]> (<[2 := "Removed"]> (<[1 := "Added"]>
  (<[0 := "Unknown action"]> ∅))))).

(** [d.get(key, default)] *)
Definition dict_get {V} (d : gmap Z V) (key : Z) (default : V) : V :=
  match d !! key with Some v => v | None => default end.

(** [_ACTIONS.get(code, 'Uncnown')], by cases on the code. *)
Definition action_label (code : Z) : string :=
  match code with
  | 0 => "Unknown action"
  | 1 => "Added"
  | 2 => "Removed"
  | 3 => "Modified"
  | 4 => "Renamed from file or directory"
  | 5 => "Renamed to file or directory"
  | _ => "Uncnown"
  end.

(** [l[0]] *)
Definition first_item {S A} (l : list A) : M S A :=
  match l with
  | [] => raise IndexError
  | x :: _ => ret x
  end.

Section methods.
Context {os : Win32}.

(** [self._notify_filter] is all the method reads of the object. *)
Definition _get_notify_filter_const (notify_filter : string) : option Z :=
  if decide (notify_filter = "FileNameChange") then
    Some FILE_NOTIFY_CHANGE_FILE_NAME
  else if decide (notify_filter = "DirNameChange") then
    Some FILE_NOTIFY_CHANGE_DIR_NAME
  else if decide (notify_filter = "LastWriteChange") then
    Some FILE_NOTIFY_CHANGE_LAST_WRITE
  else if decide (notify_filter = "UnionChange") then
    Some (Z.lor (Z.lor FILE_NOTIFY_CHANGE_FILE_NAME
                       FILE_NOTIFY_CHANGE_DIR_NAME)
                FILE_NOTIFY_CHANGE_LAST_WRITE)
  else None.

(** The watch request [_set_watcher] issues: the call that arms the
    notification. *)
Definition watch_request (self : FileMonitorAPI) : Call :=
  ReadDirectoryChangesW (_directory self) true
    (_get_notify_filter_const (_notify_filter self))
    (_overlapped_hEvent self).

Definition _set_watcher : M FileMonitorAPI unit :=
  self <- get_self ;;
  oscall (watch_request self) answer_none.

Definition _get_event_type : M FileMonitorAPI string :=
  self <- get_self ;;
  if decide (_num_bytes_returned self ≠ 0) then
    records <- oscall (FILE_NOTIFY_INFORMATION (_num_bytes_returned self))
                 answer_records ;;
    record <- first_item records ;;
    ret (dict_get _ACTIONS record.1 "Uncnown")
  else ret "".

Definition _get_path : M FileMonitorAPI string :=
  self <- get_self ;;
  if decide (_num_bytes_returned self ≠ 0) then
    oscall (GetFinalPathNameByHandle (_directory self) FILE_NAME_NORMALIZED)
      answer_str
  else ret "".

Definition _get_file_name : M FileMonitorAPI string :=
  self <- get_self ;;
  if decide (_num_bytes_returned self ≠ 0) then
    records <- oscall (FILE_NOTIFY_INFORMATION (_num_bytes_returned self))
                 answer_records ;;
    record <- first_item records ;;
    ret record.2
  else ret "".

Definition close : M FileMonitorAPI unit :=
  self <- get_self ;;
  path <- lift (kwargs_get (_kwargs self) "Path") ;;
  (oscall (CloseHandle (PStr path)) answer_none ;;;
   oscall (CloseHandle (PyHANDLE (_overlapped_hEvent self))) answer_none).

(** [update]: the branch [if result == win32con.WAIT_OBJECT_0]. *)
Definition update_signaled : M FileMonitorAPI unit :=
  self <- get_self ;;
  n <- oscall (GetOverlappedResult (_directory self)
                 (_overlapped_hEvent self) true) answer_int ;;
  (modify_self (set_num_bytes_returned n) ;;;
   timestamp <- oscall utcnow answer_int ;;
   path <- _get_path ;;
   (modify_self (set_event_property "Path" (PStr path)) ;;;
    file_name <- _get_file_name ;;
    (modify_self (set_event_property "FileName" (PStr file_name)) ;;;
     modify_self (set_event_property "Timestamp" (PDatetime timestamp)) ;;;
     event_type <- _get_event_type ;;
     (modify_self (set_event_property "EventType" (PStr event_type)) ;;;
      _set_watcher)))).

(** [update]: the branch [if result == win32con.WAIT_FAILED]. *)
Definition update_failed : M FileMonitorAPI unit :=
  (close ;;; raise (FileMonitorError None)).

(** One turn of [while True] in [update], given the turns that follow. *)
Definition update_body (continue : M FileMonitorAPI unit)
  : M FileMonitorAPI unit :=
  self <- get_self ;;
  result <- oscall (WaitForSingleObject (_overlapped_hEvent self) 0)
              answer_int ;;
  if decide (result = WAIT_OBJECT_0) then update_signaled
  else if decide (result = WAIT_FAILED) then update_failed
  else continue.

Fixpoint update (fuel : nat) : M FileMonitorAPI unit :=
  match fuel with
  | O => spin
  | S fuel' => update_body (update fuel')
  end.

Definition FileMonitorAPI__init__ (notify_filter : string) (kwargs : kwargs_t)
  : M unit FileMonitorAPI :=
  base <- lift (FileMonitor__init__ notify_filter kwargs) ;;
  if decide (base_notify_filter base ∈ valid_notify_filter) then
    directory <-
      try_except_pywintypes
        (path <- lift (kwargs_get (base_kwargs base) "Path") ;;
         oscall (CreateFile path FILE_LIST_DIRECTORY
                   (Z.lor FILE_SHARE_READ FILE_SHARE_WRITE)
                   OPEN_EXISTING
                   (Z.lor FILE_FLAG_BACKUP_SEMANTICS FILE_FLAG_OVERLAPPED))
                answer_handle)
        (λ winerror, FileMonitorError (Some
           ("Failed to open directory. Error code: " +:+ pretty winerror
              +:+ "."))) ;;
    hEvent <- oscall (CreateEvent false false) answer_handle ;;
    if decide (hEvent = 0) then
      raise (FileMonitorError (Some
        ("Failed to create event. Error code: " +:+ pretty hEvent +:+ ".")))
    else
      (oscall (AllocateReadBuffer 1024) answer_none ;;;
       r <- on_object
              {| _notify_filter := base_notify_filter base;
                 _kwargs := base_kwargs base;
                 _event_properties := base_event_properties base;
                 _directory := directory;
                 _overlapped_hEvent := hEvent;
                 _num_bytes_returned := 0 |}
              _set_watcher ;;
       ret r.2)
  else raise (invalid_notify_filter_error (base_notify_filter base)).

End methods.
End filemon.

(** ** regmon.py *)

Module regmon.

Record RegistryMonitorAPI : Type := {
  _notify_filter : string;
  _kwargs : kwargs_t;
  _event_properties : gmap string pyval;
  _event : Z;
  _key : Z
}.

Definition set_event_property (key : string) (v : pyval)
    (self : RegistryMonitorAPI) : RegistryMonitorAPI :=
  {| _notify_filter := _notify_filter self;
     _kwargs := _kwargs self;
     _event_properties := <[key := v]> (_event_properties self);
     _event := _event self;
     _key := _key self |}.

Definition valid_kwargs : list string :=
  ["Hive"; "RootPath"; "KeyPath"; "ValueName"].

Definition valid_notify_filter : list string :=
  ["NameChange"; "LastSetChange"; "UnionChange"].

Definition invalid_kwargs_error : exn :=
  RegistryMonitorError (Some
    ("Watcher installation error." +:+
     "Invalid parameters of the registry access.")).

Definition invalid_notify_filter_error (notify_filter : string) : exn :=
  RegistryMonitorError (Some
    ("Watcher installation error." +:+
     "The notify_filter value cannot be: " +:+ dquote +:+ notify_filter
       +:+ dquote +:+ ".")).

(** What [RegistryMonitor.__init__] leaves in the object. *)
Record RegistryMonitor : Type := {
  base_notify_filter : string;
  base_kwargs : kwargs_t;
  base_event_properties : gmap string pyval
}.

Definition initial_event_properties : gmap string pyval :=
  <["EventType" := PNone]> (<["Timestamp" := PNone]> (<["ValueName" := PNone]>
  (<["KeyPath" := PNone]> (<["RootPath" := PNone]> (<["Hive" := PNone]> ∅))))).

Definition RegistryMonitor__init__ (notify_filter : string) (kwargs : kwargs_t)
  : exn + RegistryMonitor :=
  match check_kwargs valid_kwargs kwargs invalid_kwargs_error with
  | inl e => inl e
  | inr _ =>
      inr {| base_notify_filter := notify_filter;
             base_kwargs := kwargs;
             base_event_properties := initial_event_properties |}
  end.

(** [str] of a [PyHANDLE]. *)
Definition format_PyHANDLE (h : Z) : string :=
  "<PyHANDLE:" +:+ pretty h +:+ ">".

Section methods.
Context {os : Win32}.

Definition _get_notify_filter_const (notify_filter : string) : option Z :=
  if decide (notify_filter = "NameChange") then
    Some REG_NOTIFY_CHANGE_NAME
  else if decide (notify_filter = "LastSetChange") then
    Some REG_NOTIFY_CHANGE_LAST_SET
  else if decide (notify_filter = "UnionChange") then
    Some (Z.lor REG_NOTIFY_CHANGE_NAME REG_NOTIFY_CHANGE_LAST_SET)
  else None.

(** [self._notify_filter] is all [_get_notify_filter_const] reads of the
    object, and [self._kwargs] all [_get_hive_const] reads.
    Each comparison looks [self._kwargs['Hive']] up again; the first
    lookup already raises when the key is missing. *)
Definition _get_hive_const {S} (kwargs : kwargs_t) : M S (option Z) :=
  hive <- lift (kwargs_get kwargs "Hive") ;;
  if decide (hive = "HKEY_CLASSES_ROOT") then ret (Some HKEY_CLASSES_ROOT)
  else if decide (hive = "HKEY_CURRENT_USER") then ret (Some HKEY_CURRENT_USER)
  else if decide (hive = "HKEY_LOCAL_MACHINE") then
    ret (Some HKEY_LOCAL_MACHINE)
  else if decide (hive = "HKEY_USERS") then ret (Some HKEY_USERS)
  else if decide (hive = "HKEY_CURRENT_CONFIG") then
    ret (Some HKEY_CURRENT_CONFIG)
  else ret None.

(** The watch request [_set_watcher] issues: the call that arms the
    notification. *)
Definition watch_request (self : RegistryMonitorAPI) : Call :=
  RegNotifyChangeKeyValue (_key self) true
    (_get_notify_filter_const (_notify_filter self)) (_event self) true.

Definition _set_watcher : M RegistryMonitorAPI unit :=
  self <- get_self ;;
  try_except_pywintypes
    (oscall (watch_request self) answer_none)
    (λ winerror, RegistryMonitorError (Some
       ("Watcher installation error." +:+
        "Invalid parameters. Error code: " +:+ pretty winerror +:+ "."))).

Definition close : M RegistryMonitorAPI unit :=
  self <- get_self ;;
  (oscall (RegCloseKey (_key self)) answer_none ;;;
   oscall (CloseHandle (PyHANDLE (_event self))) answer_none).

(** [update]: the branch [if result == win32con.WAIT_OBJECT_0]. *)
Definition update_signaled : M RegistryMonitorAPI unit :=
  self <- get_self ;;
  timestamp <- oscall utcnow answer_int ;;
  hive <- lift (kwargs_get (_kwargs self) "Hive") ;;
  (modify_self (set_event_property "Hive" (PStr hive)) ;;;
   key_path <- lift (kwargs_get (_kwargs self) "KeyPath") ;;
   (modify_self (set_event_property "KeyPath" (PStr key_path)) ;;;
    modify_self (set_event_property "Timestamp" (PDatetime timestamp)) ;;;
    modify_self (set_event_property "EventType"
                   (PStr (_notify_filter self))) ;;;
    _set_watcher)).

(** [update]: the branch [if result == win32con.WAIT_FAILED]. *)
Definition update_failed : M RegistryMonitorAPI unit :=
  (close ;;; raise (RegistryMonitorError None)).

(** One turn of [while True] in [update], given the turns that follow. *)
Definition update_body (continue : M RegistryMonitorAPI unit)
  : M RegistryMonitorAPI unit :=
  self <- get_self ;;
  result <- oscall (WaitForSingleObject (_event self) 0) answer_int ;;
  if decide (result = WAIT_OBJECT_0) then update_signaled
  else if decide (result = WAIT_FAILED) then update_failed
  else continue.

Fixpoint update (fuel : nat) : M RegistryMonitorAPI unit :=
  match fuel with
  | O => spin
  | S fuel' => update_body (update fuel')
  end.

Definition RegistryMonitorAPI__init__ (notify_filter : string)
    (kwargs : kwargs_t) : M unit RegistryMonitorAPI :=
  base <- lift (RegistryMonitor__init__ notify_filter kwargs) ;;
  if decide (base_notify_filter base ∈ valid_notify_filter) then
    event <- oscall (CreateEvent false false) answer_handle ;;
    if decide (event = 0) then
      raise (RegistryMonitorError (Some
        ("Watcher installation error." +:+
         "Failed to create event. Error code: " +:+ format_PyHANDLE event
           +:+ ".")))
    else
      key <-
        try_except_pywintypes
          (hive <- _get_hive_const (base_kwargs base) ;;
           key_path <- lift (kwargs_get (base_kwargs base) "KeyPath") ;;
           oscall (RegOpenKeyEx hive key_path 0 KEY_NOTIFY) answer_handle)
          (λ winerror, RegistryMonitorError (Some
             ("Watcher installation error." +:+
              "Failed to open key. Error code: " +:+ pretty winerror
                +:+ "."))) ;;
      r <- on_object
             {| _notify_filter := base_notify_filter base;
                _kwargs := base_kwargs base;
                _event_properties := base_event_properties base;
                _event := event;
                _key := key |}
             _set_watcher ;;
      ret r.2
  else raise (invalid_notify_filter_error (base_notify_filter base)).

End methods.
End regmon.

(** ** A sample operating system

    Used to run the monitors on concrete inputs.  It hands out the
    handles 100 (directory), 200 (event) and 300 (registry key), answers
    the [i]-th wait of a run with the [i]-th element of [waits] (258,
    [WAIT_TIMEOUT], once the list is used up), reports [nbytes]
    transferred bytes and the change records [records], and, as pywin32
    does, refuses with [TypeError] to close an object that is not a
    handle. *)

Definition is_wait (c : Call) : bool :=
  match c with WaitForSingleObject _ _ => true | _ => false end.

Definition is_CreateEvent (c : Call) : bool :=
  match c with CreateEvent _ _ => true | _ => false end.

Definition sample_os (waits : list Z) (nbytes : Z)
    (records : list (Z * string)) : Win32 := {|
  FILE_LIST_DIRECTORY := 1;
  FILE_SHARE_READ := 1;
  FILE_SHARE_WRITE := 2;
  OPEN_EXISTING := 3;
  FILE_FLAG_BACKUP_SEMANTICS := 33554432;
  FILE_FLAG_OVERLAPPED := 1073741824;
  FILE_NAME_NORMALIZED := 0;
  FILE_NOTIFY_CHANGE_FILE_NAME := 1;
  FILE_NOTIFY_CHANGE_DIR_NAME := 2;
  FILE_NOTIFY_CHANGE_LAST_WRITE := 16;
  WAIT_OBJECT_0 := 0;
  WAIT_FAILED := 4294967295;
  KEY_NOTIFY := 16;
  REG_NOTIFY_CHANGE_NAME := 1;
  REG_NOTIFY_CHANGE_LAST_SET := 4;
  HKEY_CLASSES_ROOT := 2147483648;
  HKEY_CURRENT_USER := 2147483649;
  HKEY_LOCAL_MACHINE := 2147483650;
  HKEY_USERS := 2147483651;
  HKEY_CURRENT_CONFIG := 2147483653;
  answer_handle := λ t,
    match last t with
    | Some (CreateFile _ _ _ _ _) => inr 100
    | Some (CreateEvent _ _) => inr 200
    | Some (RegOpenKeyEx (Some _) _ _ _) => inr 300
    | _ => inl bad_argument
    end;
  answer_none := λ t,
    match last t with
    | Some (CloseHandle (PyHANDLE _)) => inr ()
    | Some (CloseHandle _) => inl bad_argument
    | Some (ReadDirectoryChangesW _ _ None _) => inl bad_argument
    | Some (RegNotifyChangeKeyValue _ _ None _ _) => inl bad_argument
    | _ => inr ()
    end;
  answer_int := λ t,
    match last t with
    | Some (WaitForSingleObject _ _) =>
        inr (nth (Nat.pred (length (filter is_wait t))) waits 258)
    | Some (GetOverlappedResult _ _ _) => inr nbytes
    | Some utcnow => inr (1700000000 + Z.of_nat (length t))
    | _ => inl bad_argument
    end;
  answer_str := λ _, inr "C:\watched";
  answer_records := λ _, inr records
|}.

(** A file monitor on [C:\watched] as construction leaves it, with an
    event of an earlier update stored. *)
Definition sample_file_monitor : filemon.FileMonitorAPI := {|
  filemon._notify_filter := "UnionChange";
  filemon._kwargs := [("Path", "C:\watched")];
  filemon._event_properties :=
    <["EventType" := PStr "Added"]> (<["Timestamp" := PDatetime 1700000000]>
    (<["FileName" := PStr "note.txt"]> (<["Path" := PStr "C:\watched"]>
    filemon.initial_event_properties)));
  filemon._directory := 100;
  filemon._overlapped_hEvent := 200;
  filemon._num_bytes_returned := 28
|}.

(** The file monitor on [C:\watched] as construction leaves it. *)
Definition fresh_file_monitor : filemon.FileMonitorAPI := {|
  filemon._notify_filter := "UnionChange";
  filemon._kwargs := [("Path", "C:\watched")];
  filemon._event_properties := filemon.initial_event_properties;
  filemon._directory := 100;
  filemon._overlapped_hEvent := 200;
  filemon._num_bytes_returned := 0
|}.

(** One quiet poll, then the event is found signaled; a transfer of zero
    bytes. *)
Definition os_quiet_then_signaled : Win32 := sample_os [258; 0] 0 [].

(** One quiet poll, then the wait fails. *)
Definition os_quiet_then_failed : Win32 := sample_os [258; 4294967295] 28 [].

(** The event is signaled at once; the first change record of the
    transfer carries the action [code] for the file [x.txt]. *)
Definition os_change_record (code : Z) : Win32 :=
  sample_os [0] 28 [(code, "x.txt")].

(** A registry monitor on [HKEY_CURRENT_USER\Software\TestApp] as
    construction leaves it. *)
Definition sample_registry_monitor : regmon.RegistryMonitorAPI := {|
  regmon._notify_filter := "LastSetChange";
  regmon._kwargs := [("Hive", "HKEY_CURRENT_USER"); ("KeyPath", "Software\TestApp")];
  regmon._event_properties := regmon.initial_event_properties;
  regmon._event := 200;
  regmon._key := 300
|}.

(** ** Vocabulary of the properties *)

(** A call log only grows: what a computation added to it. *)
Definition issued (before after : Trace) : Trace := drop (length before) after.

(** [k] turns of a polling loop on the handle [h]. *)
Definition polls (h : Z) (k : nat) : Trace := repeat (WaitForSingleObject h 0) k.

Section vocabulary.
Context {os : Win32}.

(** A wait result that makes [update] go round its loop again. *)
Definition quiet (r : pywin32_error + Z) : Prop :=
  match r with
  | inr r => r ≠ WAIT_OBJECT_0 ∧ r ≠ WAIT_FAILED
  | inl _ => False
  end.

#[global] Instance quiet_dec r : Decision (quiet r).
Proof. destruct r; simpl; apply _. Defined.

(** Starting from the log [t], the first [k] polls of [h] are quiet. *)
Definition quiet_until (t : Trace) (h : Z) (k : nat) : Prop :=
  Forall (λ i, quiet (answer_int (t ++ polls h (S i)))) (seq 0 k).

(** The errors construction raises for a keyword argument or a filter
    outside the allowed sets. *)
Definition is_validation_error (e : exn) : Prop :=
  e = filemon.invalid_kwargs_error ∨
  (∃ f, e = filemon.invalid_notify_filter_error f) ∨
  e = regmon.invalid_kwargs_error ∨
  (∃ f, e = regmon.invalid_notify_filter_error f).

(** The keys of the event dictionary [RegistryMonitorAPI.update] assigns. *)
Definition registry_written_keys : list string :=
  ["Hive"; "KeyPath"; "Timestamp"; "EventType"].

(** The states a registry monitor goes through in its lifetime: built by
    the constructor from the log [t0], then used through [update] and
    [close], whatever these return or raise. *)
Inductive alive (notify_filter : string) (kwargs : kwargs_t) (t0 : Trace)
  : regmon.RegistryMonitorAPI * Trace → Prop :=
| alive_init self t :
    regmon.RegistryMonitorAPI__init__ notify_filter kwargs ((), t0)
      = (Ret self, ((), t)) →
    alive notify_filter kwargs t0 (self, t)
| alive_update fuel σ o σ' :
    alive notify_filter kwargs t0 σ →
    regmon.update fuel σ = (o, σ') →
    alive notify_filter kwargs t0 σ'
| alive_close σ o σ' :
    alive notify_filter kwargs t0 σ →
    regmon.close σ = (o, σ') →
    alive notify_filter kwargs t0 σ'.

End vocabulary.

(** The reading of C3 refuted below: a returning [update] of the registry
    monitor has issued exactly one wait, with a timeout other than zero. *)
Definition registry_update_blocks_on_one_wait : Prop :=
  ∀ (os : Win32) fuel self t self' t',
    regmon.update fuel (self, t) = (Ret (), (self', t')) →
    ∃ ms, ms ≠ 0 ∧
      filter is_wait (issued t t') =
        [WaitForSingleObject (regmon._event self) ms].

(** The reading of C4 refuted below: a successful construction of the
    file monitor has created a manual-reset event. *)
Definition file_monitor_event_is_manual_reset : Prop :=
  ∀ (os : Win32) notify_filter kwargs t self t',
    filemon.FileMonitorAPI__init__ notify_filter kwargs ((), t)
      = (Ret self, ((), t')) →
    ∃ bInitialState, CreateEvent true bInitialState ∈ issued t t'.




(** ** The read-only properties of the monitors *)

(** [self._event_properties[key]], the body of every property of
    [FileMonitor] and [RegistryMonitor]. *)
Definition event_property {V} (props : gmap string V) (key : string)
  : exn + V :=
  match props !! key with
  | Some v => inr v
  | None => inl (KeyError key)
  end.

(** The properties of [FileMonitor]; all they read of the object is its
    event dictionary, whatever the type [V] of the values in it. *)
Module FileMonitor.
Definition drive {V} (props : gmap string V) := event_property props "Drive".
Definition path {V} (props : gmap string V) := event_property props "Path".
Definition file_name {V} (props : gmap string V) :=
  event_property props "FileName".
Definition extension {V} (props : gmap string V) :=
  event_property props "Extension".
Definition timestamp {V} (props : gmap string V) :=
  event_property props "Timestamp".
Definition event_type {V} (props : gmap string V) :=
  event_property props "EventType".
End FileMonitor.

(** The properties of [RegistryMonitor]. *)
Module RegistryMonitor.
Definition hive {V} (props : gmap string V) := event_property props "Hive".
Definition root_path {V} (props : gmap string V) :=
  event_property props "RootPath".
Definition key_path {V} (props : gmap string V) :=
  event_property props "KeyPath".
Definition value_name {V} (props : gmap string V) :=
  event_property props "ValueName".
Definition timestamp {V} (props : gmap string V) :=
  event_property props "Timestamp".
Definition event_type {V} (props : gmap string V) :=
  event_property props "EventType".
End RegistryMonitor.

(** The states a file monitor goes through in its lifetime: built by the
    constructor from the log [t0], then used through [update] and
    [close], whatever these return or raise. *)
Inductive file_alive {os : Win32} (notify_filter : string)
    (kwargs : kwargs_t) (t0 : Trace)
  : filemon.FileMonitorAPI * Trace → Prop :=
| file_alive_init self t :
    filemon.FileMonitorAPI__init__ notify_filter kwargs ((), t0)
      = (Ret self, ((), t)) →
    file_alive notify_filter kwargs t0 (self, t)
| file_alive_update fuel σ o σ' :
    file_alive notify_filter kwargs t0 σ →
    filemon.update fuel σ = (o, σ') →
    file_alive notify_filter kwargs t0 σ'
| file_alive_close σ o σ' :
    file_alive notify_filter kwargs t0 σ →
    filemon.close σ = (o, σ') →
    file_alive notify_filter kwargs t0 σ'.

(** A call that releases a handle. *)
Definition is_close (c : Call) : bool :=
  match c with
  | CloseHandle _ | RegCloseKey _ => true
  | _ => false
  end.

(** ** The monitors built on the wmi package *)

(** The values of the attributes of a WMI event, which the monitors
    store as they are. *)
Inductive wmival : Type :=
| WNone
| WStr (s : string)
| WInt (n : Z)
| WBool (b : bool)
| WDatetime (t : Z).

#[global] Instance wmival_eq_dec : EqDecision wmival.
Proof. solve_decision. Defined.

(** The exceptions of this side of the package: those of [exn], the
    [x_wmi] of the wmi package with the [hresult] of its COM error,
    [AttributeError] for an attribute an event does not have, and the
    error of [procmon.py]. *)
Inductive wexn : Type :=
| Py (e : exn)
| x_wmi (hresult : Z)
| AttributeError (name : string)
| ProcMonitorError (args : option string).

(** The calls into the wmi package: [wmi.WMI(namespace=...)],
    [wmi_obj.<class>.watch_for(notification_type, **where_clause)] and
    the call [self._watcher()] that waits for the next event. *)
Inductive WmiCall : Type :=
| WMI (namespace : option string)
| watch_for (wmi_class : string) (notification_type : option string)
    (where_clause : kwargs_t)
| next_event.

(** What the watcher call does: it delivers an event, seen through the
    attributes it has, raises [x_wmi], or waits for ever. *)
Inductive watcher_answer : Type :=
| Event (attributes : gmap string wmival)
| Fails (hresult : Z)
| Never.

(** The wmi package and the WMI service behind it: an answer is a
    function of the log of calls up to and including the call answered
    ([inl hresult] for a raised [x_wmi]).  [from_1601] is
    [wmi.from_1601]. *)
Class Wmi : Type := {
  answer_WMI : list WmiCall → Z + unit;
  answer_watch_for : list WmiCall → Z + unit;
  answer_next_event : list WmiCall → watcher_answer;
  from_1601 : wmival → exn + wmival
}.

Inductive woutcome (A : Type) : Type :=
| WRet (a : A)
| WRaise (e : wexn)
| WBlocked.
Arguments WRet {A} a.
Arguments WRaise {A} e.
Arguments WBlocked {A}.

(** Computations over an object and the log of wmi calls. *)
Definition W (S A : Type) : Type :=
  S * list WmiCall → woutcome A * (S * list WmiCall).

Definition wret {S A} (a : A) : W S A := λ σ, (WRet a, σ).
Definition wraise {S A} (e : wexn) : W S A := λ σ, (WRaise e, σ).

Definition wbind {S A B} (m : W S A) (k : A → W S B) : W S B :=
  λ σ, match m σ with
       | (WRet a, σ') => k a σ'
       | (WRaise e, σ') => (WRaise e, σ')
       | (WBlocked, σ') => (WBlocked, σ')
       end.

Notation "x <~ m ;; k" := (wbind m (λ x, k))
  (at level 100, m at next level, right associativity,
   format "'[v' x  <~  m  ;;  '/' k ']'").
Notation "m ;;~ k" := (wbind m (λ _, k))
  (at level 100, right associativity,
   format "'[v' m  ;;~  '/' k ']'").

Definition wget_self {S} : W S S := λ σ, (WRet σ.1, σ).
Definition wmodify_self {S} (f : S → S) : W S unit :=
  λ σ, (WRet (), (f σ.1, σ.2)).

Definition wlift {S A} (r : exn + A) : W S A :=
  match r with inl e => wraise (Py e) | inr a => wret a end.

(** Issue a call that returns nothing or raises [x_wmi]. *)
Definition wcall {S} (c : WmiCall) (answer : list WmiCall → Z + unit)
  : W S unit :=
  λ σ, let t := σ.2 ++ [c] in
       match answer t with
       | inl hresult => (WRaise (x_wmi hresult), (σ.1, t))
       | inr _ => (WRet (), (σ.1, t))
       end.

(** [try: m except wmi.x_wmi as err: raise h(err.com_error.hresult)] *)
Definition try_except_x_wmi {S A} (m : W S A) (h : Z → wexn) : W S A :=
  λ σ, match m σ with
       | (WRaise (x_wmi hresult), σ') => (WRaise (h hresult), σ')
       | r => r
       end.

(** [event.<name>] and [hasattr(event, name)] *)
Definition getattr {S} (event : gmap string wmival) (name : string)
  : W S wmival :=
  match event !! name with
  | Some v => wret v
  | None => wraise (AttributeError name)
  end.

Definition hasattr (event : gmap string wmival) (name : string) : bool :=
  bool_decide (is_Some (event !! name)).

(** ['Watcher installation error. Error code: {}.'.format(
      err.com_error.hresult or 'unknown')] *)
Definition watcher_installation_message (hresult : Z) : string :=
  "Watcher installation error. Error code: " +:+
  (if decide (hresult = 0) then "unknown" else pretty hresult) +:+ ".".

(** ** util.py *)

Module util.

(** A Python string is represented by its characters, one [ascii]
    each.  For an ASCII string, [is_ascii], this is the string itself
    whatever the encoding of the literal, and a CIM date and time is
    such a string; a character outside ASCII would be written as the
    several bytes of its encoding, which Python counts as one, so the
    properties of slicing below are stated for ASCII strings. *)
Definition is_ascii (s : string) : Prop :=
  Forall (λ c, (Ascii.nat_of_ascii c < 128)%nat) (String.list_ascii_of_string s).

#[global] Instance is_ascii_dec s : Decision (is_ascii s).
Proof. unfold is_ascii. apply _. Defined.

(** [s[a:b]] for [0 <= a <= b]: the characters from index [a] up to, not
    including, index [b], as many of them as the string has. *)
Definition slice (s : string) (a b : nat) : string :=
  String.substring a (b - a) s.

(** [date_time_format(date_time)].  Slicing works on a string; [None],
    a number, a truth value and a [datetime] are not subscriptable. *)
Definition date_time_format (date_time : wmival) : exn + string :=
  match date_time with
  | WStr s =>
      let year := slice s 0 4 in
      let month := slice s 4 6 in
      let day := slice s 6 8 in
      let hour := slice s 8 10 in
      let minutes := slice s 10 12 in
      let seconds := slice s 12 14 in
      inr (day +:+ "/" +:+ month +:+ "/" +:+ year +:+ " " +:+ hour
             +:+ ":" +:+ minutes +:+ ":" +:+ seconds)
  | _ => inl TypeError
  end.

End util.

(** The classes [FileMonitorWMI] of [filemon.py], [RegistryMonitorWMI]
    of [regmon.py] and [ProcessMonitor] of [procmon.py]. *)
Module wmimon.

(** The attributes of a [FileMonitorWMI] or [RegistryMonitorWMI] object
    that the methods read and write; the watcher lives with the wmi
    package and is reached through [call_watcher]. *)
Record WmiMonitor : Type := {
  _notify_filter : string;
  _kwargs : kwargs_t;
  _event_properties : gmap string wmival
}.

Definition set_event_property (key : string) (v : wmival)
    (self : WmiMonitor) : WmiMonitor :=
  {| _notify_filter := _notify_filter self;
     _kwargs := _kwargs self;
     _event_properties := <[key := v]> (_event_properties self) |}.

(** [FileMonitor.__init__] and [RegistryMonitor.__init__], run for these
    classes. *)
Definition FileMonitor__init__ (notify_filter : string) (kwargs : kwargs_t)
  : exn + WmiMonitor :=
  match check_kwargs filemon.valid_kwargs kwargs filemon.invalid_kwargs_error
  with
  | inl e => inl e
  | inr _ =>
      inr {| _notify_filter := notify_filter;
             _kwargs := kwargs;
             _event_properties :=
               <["EventType" := WNone]> (<["Timestamp" := WNone]>
               (<["Extension" := WNone]> (<["FileName" := WNone]>
               (<["Path" := WNone]> (<["Drive" := WNone]> ∅))))) |}
  end.

Definition RegistryMonitor__init__ (notify_filter : string) (kwargs : kwargs_t)
  : exn + WmiMonitor :=
  match check_kwargs regmon.valid_kwargs kwargs regmon.invalid_kwargs_error
  with
  | inl e => inl e
  | inr _ =>
      inr {| _notify_filter := notify_filter;
             _kwargs := kwargs;
             _event_properties :=
               <["EventType" := WNone]> (<["Timestamp" := WNone]>
               (<["ValueName" := WNone]> (<["KeyPath" := WNone]>
               (<["RootPath" := WNone]> (<["Hive" := WNone]> ∅))))) |}
  end.

Section wmi_monitors.
Context {wmi : Wmi}.

(** [self._watcher()] *)
Definition call_watcher {S} : W S (gmap string wmival) :=
  λ σ, let t := σ.2 ++ [next_event] in
       match answer_next_event t with
       | Event attributes => (WRet attributes, (σ.1, t))
       | Fails hresult => (WRaise (x_wmi hresult), (σ.1, t))
       | Never => (WBlocked, (σ.1, t))
       end.

(** *** filemon.py: [FileMonitorWMI] *)

Definition FileMonitorWMI_valid_notify_filter : list string :=
  ["Operation"; "Creation"; "Deletion"; "Modification"].

Definition FileMonitorWMI_valid_notify_obj : list string :=
  ["File"; "Directory"].

Definition invalid_notify_obj_error (notify_obj : string) : exn :=
  FileMonitorError (Some
    ("Watcher installation error." +:+
     "The notify_obj value cannot be: " +:+ dquote +:+ notify_obj
       +:+ dquote +:+ ".")).

Definition FileMonitorWMI__init__ (notify_obj notify_filter : string)
    (kwargs : kwargs_t) : W unit WmiMonitor :=
  base <~ wlift (FileMonitor__init__ notify_filter kwargs) ;;
  if decide (_notify_filter base ∈ FileMonitorWMI_valid_notify_filter) then
    if decide (notify_obj ∈ FileMonitorWMI_valid_notify_obj) then
      (wcall (WMI (Some "root/CIMv2")) answer_WMI ;;~
       if decide (notify_obj = "File") then
         (try_except_x_wmi
            (wcall (watch_for "CIM_DataFile"
                      (Some (_notify_filter base)) kwargs)
               answer_watch_for)
            (λ hresult, Py (FileMonitorError (Some
               (watcher_installation_message hresult)))) ;;~
          wret base)
       else if decide (notify_obj = "Directory") then
         (try_except_x_wmi
            (wcall (watch_for "CIM_Directory"
                      (Some (_notify_filter base)) kwargs)
               answer_watch_for)
            (λ hresult, Py (FileMonitorError (Some
               (watcher_installation_message hresult)))) ;;~
          wret base)
       else
         wraise (Py (FileMonitorError (Some "Watcher installation error."))))
    else wraise (Py (invalid_notify_obj_error notify_obj))
  else
    wraise (Py (filemon.invalid_notify_filter_error (_notify_filter base))).

(** [if hasattr(event, name): self._event_properties[name] = event.<name>] *)
Definition copy_if_present (event : gmap string wmival) (name : string)
  : W WmiMonitor unit :=
  if hasattr event name then
    v <~ getattr event name ;;
    wmodify_self (set_event_property name v)
  else wret ().

Definition FileMonitorWMI_update : W WmiMonitor unit :=
  event <~ call_watcher ;;
  timestamp <~ getattr event "timestamp" ;;
  (wmodify_self (set_event_property "Timestamp" timestamp) ;;~
   event_type <~ getattr event "event_type" ;;
   (wmodify_self (set_event_property "EventType" event_type) ;;~
    copy_if_present event "Drive" ;;~
    copy_if_present event "Path" ;;~
    copy_if_present event "FileName" ;;~
    copy_if_present event "Extension")).

(** *** regmon.py: [RegistryMonitorWMI] *)

Definition RegistryMonitorWMI_valid_notify_filter : list string :=
  ["TreeChange"; "KeyChange"; "ValueChange"].

(** [wmi_obj.<class>.watch_for(<key>=self._kwargs[<key>], ...)] inside
    its [try ... except wmi.x_wmi]: the lookups come first, in the order
    of the keywords. *)
Fixpoint lookup_all (kwargs : kwargs_t) (keys : list string)
  : exn + kwargs_t :=
  match keys with
  | [] => inr []
  | key :: keys' =>
      match kwargs_get kwargs key with
      | inl e => inl e
      | inr v =>
          match lookup_all kwargs keys' with
          | inl e => inl e
          | inr rest => inr ((key, v) :: rest)
          end
      end
  end.

Definition watch_registry_event {S} (wmi_class : string)
    (kwargs : kwargs_t) (keys : list string) : W S unit :=
  try_except_x_wmi
    (where_clause <~ wlift (lookup_all kwargs keys) ;;
     wcall (watch_for wmi_class None where_clause) answer_watch_for)
    (λ hresult, Py (RegistryMonitorError (Some
       (watcher_installation_message hresult)))).

Definition RegistryMonitorWMI__init__ (notify_filter : string)
    (kwargs : kwargs_t) : W unit WmiMonitor :=
  base <~ wlift (RegistryMonitor__init__ notify_filter kwargs) ;;
  if decide (_notify_filter base ∈ RegistryMonitorWMI_valid_notify_filter) then
    (wcall (WMI (Some "root/DEFAULT")) answer_WMI ;;~
     if decide (notify_filter = "TreeChange") then
       (watch_registry_event "RegistryTreeChangeEvent"
          (_kwargs base) ["Hive"; "RootPath"] ;;~
        wret base)
     else if decide (notify_filter = "KeyChange") then
       (watch_registry_event "RegistryKeyChangeEvent"
          (_kwargs base) ["Hive"; "KeyPath"] ;;~
        wret base)
     else if decide (notify_filter = "ValueChange") then
       (watch_registry_event "RegistryValueChangeEvent"
          (_kwargs base) ["Hive"; "KeyPath"; "ValueName"] ;;~
        wret base)
     else
       wraise (Py (RegistryMonitorError (Some "Watcher installation error."))))
  else
    wraise (Py (regmon.invalid_notify_filter_error (_notify_filter base))).

Definition RegistryMonitorWMI_update : W WmiMonitor unit :=
  self <~ wget_self ;;
  event <~ call_watcher ;;
  time_created <~ getattr event "TIME_CREATED" ;;
  timestamp <~ wlift (from_1601 time_created) ;;
  (wmodify_self (set_event_property "Timestamp" timestamp) ;;~
   wmodify_self (set_event_property "EventType"
                   (WStr (_notify_filter self))) ;;~
   hive <~ getattr event "Hive" ;;
   (wmodify_self (set_event_property "Hive" hive) ;;~
    copy_if_present event "RootPath" ;;~
    copy_if_present event "KeyPath" ;;~
    copy_if_present event "ValueName")).

(** *** procmon.py: [ProcessMonitor] *)

Definition ProcessMonitor_valid_notify_filter : list string :=
  ["Operation"; "Creation"; "Deletion"; "Modification"].

Definition ProcessMonitor_invalid_notify_filter_error
    (notify_filter : string) : wexn :=
  ProcMonitorError (Some
    ("Watcher installation error." +:+
     "The notify_filter value cannot be: " +:+ dquote +:+ notify_filter
       +:+ dquote +:+ ".")).

(** The keys of [self._process_property], in the order [__init__] writes
    them. *)
Definition process_property_keys : list string :=
  ["EventType"; "Caption"; "CommandLine"; "CreationDate"; "Description";
   "ExecutablePath"; "HandleCount"; "Name"; "ParentProcessId"; "ProcessID";
   "ThreadCount"; "TimeStamp"].

(** The attributes of an event that [update] reads, in the order it
    reads them. *)
Definition process_event_attributes : list string :=
  ["event_type"; "Caption"; "CommandLine"; "CreationDate"; "Description";
   "ExecutablePath"; "HandleCount"; "Name"; "ParentProcessId"; "ProcessID";
   "ThreadCount"; "timestamp"].

Definition initial_process_property : gmap string wmival :=
  foldr (λ key props, <[key := WNone]> props) ∅ process_property_keys.

(** The object is [self._process_property]. *)
Definition ProcessMonitor__init__ (notify_filter : string)
  : W unit (gmap string wmival) :=
  if decide (notify_filter ∈ ProcessMonitor_valid_notify_filter) then
    (wcall (WMI None) answer_WMI ;;~
     wcall (watch_for "Win32_Process" (Some notify_filter) [])
       answer_watch_for ;;~
     wret initial_process_property)
  else wraise (ProcessMonitor_invalid_notify_filter_error notify_filter).

(** [self._process_property[key] = process.<attribute>] *)
Definition copy_attribute (event : gmap string wmival)
    (key attribute : string) : W (gmap string wmival) unit :=
  v <~ getattr event attribute ;;
  wmodify_self (λ props, <[key := v]> props).

Definition ProcessMonitor_update : W (gmap string wmival) unit :=
  process <~ call_watcher ;;
  (copy_attribute process "EventType" "event_type" ;;~
   copy_attribute process "Caption" "Caption" ;;~
   copy_attribute process "CommandLine" "CommandLine" ;;~
   copy_attribute process "CreationDate" "CreationDate" ;;~
   copy_attribute process "Description" "Description" ;;~
   copy_attribute process "ExecutablePath" "ExecutablePath" ;;~
   copy_attribute process "HandleCount" "HandleCount" ;;~
   copy_attribute process "Name" "Name" ;;~
   copy_attribute process "ParentProcessId" "ParentProcessId" ;;~
   copy_attribute process "ProcessID" "ProcessID" ;;~
   copy_attribute process "ThreadCount" "ThreadCount" ;;~
   copy_attribute process "TimeStamp" "timestamp").

End wmi_monitors.
End wmimon.

(** The properties of [ProcessMonitor]. *)
Module ProcessMonitor.
Definition timestamp (props : gmap string wmival) :=
  event_property props "TimeStamp".
Definition event_type (props : gmap string wmival) :=
  event_property props "EventType".
Definition caption (props : gmap string wmival) :=
  event_property props "Caption".
Definition command_line (props : gmap string wmival) :=
  event_property props "CommandLine".
Definition creation_date (props : gmap string wmival) : exn + string :=
  match event_property props "CreationDate" with
  | inl e => inl e
  | inr v => util.date_time_format v
  end.
Definition description (props : gmap string wmival) :=
  event_property props "Description".
Definition executable_path (props : gmap string wmival) :=
  event_property props "ExecutablePath".
Definition handle_count (props : gmap string wmival) :=
  event_property props "HandleCount".
Definition name (props : gmap string wmival) :=
  event_property props "Name".
Definition parent_process_id (props : gmap string wmival) :=
  event_property props "ParentProcessId".
Definition process_id (props : gmap string wmival) :=
  event_property props "ProcessID".
Definition thread_count (props : gmap string wmival) :=
  event_property props "ThreadCount".
End ProcessMonitor.

(** ** Further sample systems

    Used to run the monitors on concrete inputs where a call fails. *)

(** The operating system [base], except that a call for which [handles]
    has an answer gets that answer instead of a handle, and a call
    listed in [refused] fails with its error instead of returning
    nothing or a number. *)
Definition os_with (handles : Call → option (pywin32_error + Z))
    (refused : Call → option pywin32_error) (base : Win32) : Win32 := {|
  FILE_LIST_DIRECTORY := @FILE_LIST_DIRECTORY base;
  FILE_SHARE_READ := @FILE_SHARE_READ base;
  FILE_SHARE_WRITE := @FILE_SHARE_WRITE base;
  OPEN_EXISTING := @OPEN_EXISTING base;
  FILE_FLAG_BACKUP_SEMANTICS := @FILE_FLAG_BACKUP_SEMANTICS base;
  FILE_FLAG_OVERLAPPED := @FILE_FLAG_OVERLAPPED base;
  FILE_NAME_NORMALIZED := @FILE_NAME_NORMALIZED base;
  FILE_NOTIFY_CHANGE_FILE_NAME := @FILE_NOTIFY_CHANGE_FILE_NAME base;
  FILE_NOTIFY_CHANGE_DIR_NAME := @FILE_NOTIFY_CHANGE_DIR_NAME base;
  FILE_NOTIFY_CHANGE_LAST_WRITE := @FILE_NOTIFY_CHANGE_LAST_WRITE base;
  WAIT_OBJECT_0 := @WAIT_OBJECT_0 base;
  WAIT_FAILED := @WAIT_FAILED base;
  KEY_NOTIFY := @KEY_NOTIFY base;
  REG_NOTIFY_CHANGE_NAME := @REG_NOTIFY_CHANGE_NAME base;
  REG_NOTIFY_CHANGE_LAST_SET := @REG_NOTIFY_CHANGE_LAST_SET base;
  HKEY_CLASSES_ROOT := @HKEY_CLASSES_ROOT base;
  HKEY_CURRENT_USER := @HKEY_CURRENT_USER base;
  HKEY_LOCAL_MACHINE := @HKEY_LOCAL_MACHINE base;
  HKEY_USERS := @HKEY_USERS base;
  HKEY_CURRENT_CONFIG := @HKEY_CURRENT_CONFIG base;
  answer_handle := λ t,
    match last t ≫= handles with
    | Some r => r
    | None => @answer_handle base t
    end;
  answer_none := λ t,
    match last t ≫= refused with
    | Some e => inl e
    | None => @answer_none base t
    end;
  answer_int := λ t,
    match last t ≫= refused with
    | Some e => inl e
    | None => @answer_int base t
    end;
  answer_str := @answer_str base;
  answer_records := @answer_records base
|}.

(** Every wait raises the error 6 ([ERROR_INVALID_HANDLE]). *)
Definition os_wait_raises : Win32 :=
  os_with (λ _, None)
    (λ c, if is_wait c then Some (api_error 6) else None)
    os_quiet_then_signaled.

(** Every watch request is refused with the error 5
    ([ERROR_ACCESS_DENIED]). *)
Definition os_watch_refused : Win32 :=
  os_with (λ _, None)
    (λ c, match c with
          | ReadDirectoryChangesW _ _ _ _
          | RegNotifyChangeKeyValue _ _ _ _ _ => Some (api_error 5)
          | _ => None
          end)
    os_quiet_then_signaled.

(** No directory and no key can be opened: error 2
    ([ERROR_FILE_NOT_FOUND]). *)
Definition os_open_refused : Win32 :=
  os_with (λ c, match c with
                | CreateFile _ _ _ _ _
                | RegOpenKeyEx _ _ _ _ => Some (inl (api_error 2))
                | _ => None
                end)
    (λ _, None) os_quiet_then_signaled.

(** [CreateEvent] returns a null handle. *)
Definition os_null_event : Win32 :=
  os_with (λ c, match c with
                | CreateEvent _ _ => Some (inr 0)
                | _ => None
                end)
    (λ _, None) os_quiet_then_signaled.


(** A wmi package that answers every connection with [connect], every
    [watch_for] with [install] and every call of a watcher with
    [answer]; its [from_1601] turns a count of 100 ns intervals into a
    count of microseconds. *)
Definition sample_wmi (connect install : Z + unit) (answer : watcher_answer)
  : Wmi := {|
  answer_WMI := λ _, connect;
  answer_watch_for := λ _, install;
  answer_next_event := λ _, answer;
  from_1601 := λ v,
    match v with
    | WInt n => inr (WDatetime (n / 10))
    | _ => inl TypeError
    end
|}.

(** The creation of the directory [c:\watched\new]: an event of
    [CIM_Directory] has no [FileName] and no [Extension]. *)
Definition sample_directory_event : gmap string wmival :=
  <["timestamp" := WInt 133000000000000000]>
  (<["event_type" := WStr "creation"]>
  (<["Drive" := WStr "c:"]>
  (<["Path" := WStr "\watched\"]> ∅))).

(** A change of a value under [HKEY_LOCAL_MACHINE\Software\TestApp]. *)
Definition sample_value_event : gmap string wmival :=
  <["TIME_CREATED" := WInt 133000000000000000]>
  (<["Hive" := WStr "HKEY_LOCAL_MACHINE"]>
  (<["KeyPath" := WStr "Software\TestApp"]>
  (<["ValueName" := WStr "Version"]> ∅))).

(** The start of [notepad.exe]. *)
Definition sample_process_event : gmap string wmival :=
  <["event_type" := WStr "creation"]>
  (<["Caption" := WStr "notepad.exe"]>
  (<["CommandLine" := WStr "notepad.exe note.txt"]>
  (<["CreationDate" := WStr "20261104123045.500000+060"]>
  (<["Description" := WStr "notepad.exe"]>
  (<["ExecutablePath" := WStr "C:\Windows\notepad.exe"]>
  (<["HandleCount" := WInt 52]>
  (<["Name" := WStr "notepad.exe"]>
  (<["ParentProcessId" := WInt 4012]>
  (<["ProcessID" := WInt 7744]>
  (<["ThreadCount" := WInt 3]>
  (<["timestamp" := WInt 133000000000000000]> ∅))))))))))).

(** A monitor of the files of [c:\watched\] with the event of
    [note.txt] stored, and a monitor of the values of
    [HKEY_LOCAL_MACHINE\Software\TestApp] with an earlier event
    stored. *)
Definition sample_file_monitor_wmi : wmimon.WmiMonitor := {|
  wmimon._notify_filter := "Creation";
  wmimon._kwargs := [("Drive", "c:"); ("Path", "\watched\")];
  wmimon._event_properties :=
    <["EventType" := WStr "creation"]>
    (<["Timestamp" := WInt 132000000000000000]>
    (<["Extension" := WStr "txt"]> (<["FileName" := WStr "note"]>
    (<["Path" := WStr "\watched\"]> (<["Drive" := WStr "c:"]> ∅)))))
|}.

Definition sample_registry_monitor_wmi : wmimon.WmiMonitor := {|
  wmimon._notify_filter := "ValueChange";
  wmimon._kwargs :=
    [("Hive", "HKEY_LOCAL_MACHINE"); ("KeyPath", "Software\TestApp");
     ("ValueName", "Version")];
  wmimon._event_properties :=
    <["EventType" := WStr "ValueChange"]>
    (<["Timestamp" := WDatetime 13200000000000000]>
    (<["ValueName" := WStr "Build"]> (<["KeyPath" := WStr "Software\Old"]>
    (<["RootPath" := WNone]> (<["Hive" := WStr "HKEY_USERS"]> ∅)))))
|}.

(** * Properties *)

Lemma issued_app (t new : Trace) : issued t (t ++ new) = new.
Proof. unfold issued. by rewrite drop_app_length. Qed.

Lemma issued_refl (t : Trace) : issued t t = [].
Proof. unfold issued. by rewrite drop_all. Qed.

(** What a log added to [t] consists of, as an explicit list. *)
Ltac issued_norm :=
  rewrite <- ?app_assoc; first [rewrite issued_app | rewrite issued_refl];
  simpl.

Lemma polls_S (h : Z) (k : nat) (t : Trace) :
  t ++ polls h (S k) = (t ++ [WaitForSingleObject h 0]) ++ polls h k.
Proof. unfold polls. simpl. by rewrite <- app_assoc. Qed.

Lemma polls_snoc (h : Z) (k : nat) (t : Trace) :
  t ++ polls h (S k) = (t ++ polls h k) ++ [WaitForSingleObject h 0].
Proof.
  unfold polls. rewrite <- app_assoc. f_equal.
  change (S k) with (1 + k)%nat. rewrite Nat.add_comm, repeat_app. done.
Qed.

Lemma polls_last (h : Z) (k : nat) :
  polls h (S k) = polls h k ++ [WaitForSingleObject h 0].
Proof.
  unfold polls. change (S k) with (1 + k)%nat.
  by rewrite Nat.add_comm, repeat_app.
Qed.

Lemma elem_of_polls (c : Call) (h : Z) (k : nat) :
  c ∈ polls h k → c = WaitForSingleObject h 0.
Proof. unfold polls. intros Hin. by apply list_elem_of_In, repeat_spec in Hin. Qed.

Lemma polls_0 (h : Z) : polls h 0 = [].
Proof. done. Qed.

(** A call that is none of the calls of an explicit log. *)
Ltac not_in_trace :=
  let Hin := fresh "Hin" in
  intros Hin;
  unfold filemon.valid_notify_filter, filemon.valid_kwargs,
    regmon.valid_notify_filter, regmon.valid_kwargs in Hin;
  simpl in Hin;
  rewrite ?elem_of_app, ?elem_of_cons, ?elem_of_nil in Hin;
  destruct_or?;
  try discriminate; try congruence; try done;
  try (apply elem_of_polls in Hin; discriminate).

(** Equations between call logs, up to the bracketing of [++]. *)
Ltac trace_eq :=
  rewrite ?polls_last; rewrite <- ?app_assoc; rewrite ?issued_app;
  simpl; rewrite <- ?app_assoc; simpl; done.

Lemma quiet_until_S `{Win32} (t : Trace) (h : Z) (k : nat) :
  quiet_until t h (S k) ↔
  quiet (answer_int (t ++ [WaitForSingleObject h 0])) ∧
  quiet_until (t ++ [WaitForSingleObject h 0]) h k.
Proof.
  unfold quiet_until. simpl. rewrite Forall_cons.
  rewrite <- fmap_S_seq, Forall_fmap. unfold polls at 1. simpl.
  apply and_iff_compat_l. apply Forall_iff. intros i. simpl.
  by rewrite <- polls_S.
Qed.

Lemma filter_is_wait_polls (h : Z) (k : nat) (new : Trace) :
  Forall (λ c, is_wait c = false) new →
  filter is_wait (polls h k ++ new) = polls h k.
Proof.
  intros Hnew. rewrite filter_app.
  replace (filter is_wait new) with (@nil Call).
  - rewrite app_nil_r. unfold polls.
    induction k as [|k IH]; [done|]. simpl.
    rewrite filter_cons_True by done. by rewrite IH.
  - induction Hnew as [|c new Hc Hnew IH]; [done|].
    rewrite filter_cons_False; [done|]. rewrite Hc. by intros [].
Qed.

#[local] Opaque polls.

Lemma kwargs_get_missing (kwargs : kwargs_t) (key : string) :
  key ∉ kwargs.*1 → kwargs_get kwargs key = inl (KeyError key).
Proof.
  induction kwargs as [|[k v] rest IH]; simpl; intros Hnot; [done|].
  apply not_elem_of_cons in Hnot as [Hne Hrest].
  destruct (decide (k = key)) as [->|_]; [done|]. by apply IH.
Qed.

Lemma kwargs_get_inl (kwargs : kwargs_t) (key : string) (e : exn) :
  kwargs_get kwargs key = inl e → e = KeyError key.
Proof.
  induction kwargs as [|[k v] rest IH]; simpl; [congruence|].
  destruct (decide (k = key)); [done|apply IH].
Qed.

Lemma kwargs_get_present (kwargs : kwargs_t) (key : string) :
  key ∈ kwargs.*1 → ∃ v, kwargs_get kwargs key = inr v.
Proof.
  induction kwargs as [|[k v] rest IH]; simpl; intros Hin.
  - by apply elem_of_nil in Hin.
  - destruct (decide (k = key)); [by eexists|].
    apply elem_of_cons in Hin as [?|?]; [congruence|by apply IH].
Qed.

Lemma check_kwargs_valid (valid : list string) (kwargs : kwargs_t) (e : exn) :
  Forall (λ key, key ∈ valid) kwargs.*1 → check_kwargs valid kwargs e = inr ().
Proof.
  induction kwargs as [|[k v] rest IH]; simpl; intros Hall; [done|].
  apply Forall_cons in Hall as [Hk Hrest].
  destruct (decide (k ∈ valid)); [by apply IH | done].
Qed.

Lemma check_kwargs_invalid (valid : list string) (kwargs : kwargs_t) (e : exn) :
  ¬ Forall (λ key, key ∈ valid) kwargs.*1 → check_kwargs valid kwargs e = inl e.
Proof.
  induction kwargs as [|[k v] rest IH]; simpl; intros Hall.
  - destruct Hall. constructor.
  - destruct (decide (k ∈ valid)) as [Hk|Hk]; [|done].
    apply IH. intros Hrest. apply Hall. by constructor.
Qed.

Lemma check_kwargs_inl (valid : list string) (kwargs : kwargs_t) (e e' : exn) :
  check_kwargs valid kwargs e = inl e' → e' = e.
Proof.
  induction kwargs as [|[k v] rest IH]; simpl; [done|].
  destruct (decide (k ∈ valid)); [apply IH|congruence].
Qed.

(** Unfolding of the monad, for stepping through a method. *)
Ltac step :=
  unfold bind, get_self, modify_self, ret, raise, spin, lift, oscall,
    try_except_pywintypes, on_object; simpl.

(** Case analysis on what the operating system answers next, on the next
    test of the method and on the next lookup in the keyword arguments. *)
Ltac run_step :=
  match goal with
  | |- context [answer_int ?t] => destruct (answer_int t) eqn:?
  | |- context [answer_none ?t] => destruct (answer_none t) as [?|[]] eqn:?
  | |- context [answer_str ?t] => destruct (answer_str t) eqn:?
  | |- context [answer_handle ?t] => destruct (answer_handle t) eqn:?
  | |- context [answer_records ?t] =>
      destruct (answer_records t) as [?|[|[??]?]] eqn:?
  | |- context [kwargs_get ?k ?s] =>
      let H := fresh "Hget" in
      destruct (kwargs_get k s) eqn:H;
      [pose proof (kwargs_get_inl _ _ _ H) as ->|]
  | |- context [check_kwargs ?v ?k ?e] =>
      let H := fresh "Hcheck" in
      destruct (check_kwargs v k e) as [?|[]] eqn:H;
      [pose proof (check_kwargs_inl _ _ _ _ H) as ->|]
  | |- context [decide ?P] => destruct (decide P)
  end.
Ltac run := simpl; repeat (run_step; simpl).

(** The same, looking also at which error a refused call raised, for
    the methods that catch [pywintypes.error]. *)
Ltac run_catch :=
  simpl;
  repeat (first [ run_step
                | match goal with
                  | |- context [exn_of ?e] => is_var e; destruct e
                  end ]; simpl).

(** An exception that is not one of the validation errors. *)
Ltac refute_validation Hv :=
  repeat match goal with
         | H : kwargs_get _ _ = inl _ |- _ => apply kwargs_get_inl in H; subst
         end;
  unfold is_validation_error, filemon.invalid_kwargs_error,
    filemon.invalid_notify_filter_error, regmon.invalid_kwargs_error,
    regmon.invalid_notify_filter_error in Hv;
  destruct Hv as [Hv|[[? Hv]|[Hv|[? Hv]]]]; simpl in Hv; discriminate Hv.
Ltac not_validation :=
  let Hv := fresh "Hv" in
  intros ? [= <-] Hv; refute_validation Hv.

Section file_monitor.
Context {os : Win32}.
Import filemon.

(** *** The polling loop of [update] *)

Lemma file_update_S_signaled (fuel : nat) (self : FileMonitorAPI) (t : Trace) :
  let t1 := t ++ [WaitForSingleObject (_overlapped_hEvent self) 0] in
  answer_int t1 = inr WAIT_OBJECT_0 →
  update (S fuel) (self, t) = update_signaled (self, t1).
Proof.
  intros t1 Hans. simpl. unfold update_body. step. fold t1. rewrite Hans.
  by destruct (decide (WAIT_OBJECT_0 = WAIT_OBJECT_0)).
Qed.

Lemma file_update_S_failed (fuel : nat) (self : FileMonitorAPI) (t : Trace) :
  let t1 := t ++ [WaitForSingleObject (_overlapped_hEvent self) 0] in
  answer_int t1 = inr WAIT_FAILED → WAIT_FAILED ≠ WAIT_OBJECT_0 →
  update (S fuel) (self, t) = update_failed (self, t1).
Proof.
  intros t1 Hans Hne. simpl. unfold update_body. step. fold t1. rewrite Hans.
  destruct (decide (WAIT_FAILED = WAIT_OBJECT_0)); [done|].
  by destruct (decide (WAIT_FAILED = WAIT_FAILED)).
Qed.

Lemma file_update_S_quiet (fuel : nat) (self : FileMonitorAPI) (t : Trace) :
  let t1 := t ++ [WaitForSingleObject (_overlapped_hEvent self) 0] in
  quiet (answer_int t1) →
  update (S fuel) (self, t) = update fuel (self, t1).
Proof.
  intros t1 Hq. simpl. unfold update_body. step. fold t1.
  destruct (answer_int t1) as [e|r]; [done|]. destruct Hq as [H0 HF].
  destruct (decide (r = WAIT_OBJECT_0)); [done|].
  by destruct (decide (r = WAIT_FAILED)).
Qed.

Lemma file_update_polls (k fuel : nat) (self : FileMonitorAPI) (t : Trace) :
  quiet_until t (_overlapped_hEvent self) k →
  update (k + fuel) (self, t) =
  update fuel (self, t ++ polls (_overlapped_hEvent self) k).
Proof.
  revert t. induction k as [|k IH]; intros t Hq.
  - simpl. by rewrite app_nil_r.
  - apply quiet_until_S in Hq as [Hq Hrest].
    change (S k + fuel)%nat with (S (k + fuel)).
    rewrite file_update_S_quiet by done. rewrite IH by done.
    by rewrite <- polls_S.
Qed.

Lemma file_update_inv (fuel : nat) (self : FileMonitorAPI) (t : Trace) o σ' :
  update fuel (self, t) = (o, σ') →
  ∃ k, (k ≤ fuel)%nat ∧ quiet_until t (_overlapped_hEvent self) k ∧
    let tk := t ++ polls (_overlapped_hEvent self) k in
    let t1 := tk ++ [WaitForSingleObject (_overlapped_hEvent self) 0] in
    (k = fuel ∧ o = Spin ∧ σ' = (self, tk)) ∨
    ((k < fuel)%nat ∧
     ((∃ e, answer_int t1 = inl e ∧ o = Raise (exn_of e) ∧ σ' = (self, t1)) ∨
      (answer_int t1 = inr WAIT_OBJECT_0 ∧ update_signaled (self, t1) = (o, σ')) ∨
      (answer_int t1 = inr WAIT_FAILED ∧ WAIT_FAILED ≠ WAIT_OBJECT_0 ∧
       update_failed (self, t1) = (o, σ')))).
Proof.
  revert t. induction fuel as [|fuel IH]; intros t Hrun.
  - exists 0%nat. split; [done|]. split; [constructor|]. simpl.
    left. rewrite app_nil_r. by inversion Hrun.
  - set (t1 := t ++ [WaitForSingleObject (_overlapped_hEvent self) 0]).
    destruct (answer_int t1) as [e|r] eqn:Hans.
    { exists 0%nat. split; [lia|]. split; [constructor|]. simpl.
      rewrite app_nil_r. fold t1. right. split; [lia|]. left. exists e.
      revert Hrun. simpl. unfold update_body. step. fold t1. rewrite Hans.
      by intros [= <- <-]. }
    destruct (decide (r = WAIT_OBJECT_0)) as [->|Hne0].
    { exists 0%nat. split; [lia|]. split; [constructor|]. simpl.
      rewrite app_nil_r. fold t1. right. split; [lia|]. right. left.
      by rewrite file_update_S_signaled in Hrun. }
    destruct (decide (r = WAIT_FAILED)) as [->|HneF].
    { exists 0%nat. split; [lia|]. split; [constructor|]. simpl.
      rewrite app_nil_r. fold t1. right. split; [lia|]. right. right.
      by rewrite file_update_S_failed in Hrun. }
    assert (quiet (answer_int t1)) as Hq by (by rewrite Hans).
    rewrite file_update_S_quiet in Hrun by done.
    apply IH in Hrun as (k & Hk & Hquiet & Hcases).
    exists (S k). split; [lia|]. split; [by apply quiet_until_S|].
    simpl in Hcases |- *. fold t1 in Hcases. rewrite polls_S. fold t1.
    destruct Hcases as [(-> & -> & ->)|[Hlt Hcases]]; [by left|].
    right. split; [lia|]. done.
Qed.

(** *** The two branches that leave the loop *)

Lemma file_update_signaled_spec (self : FileMonitorAPI) (t : Trace)
    o self' t' :
  update_signaled (self, t) = (o, (self', t')) →
  ∃ new, t' = t ++ new ∧
    Forall (λ c, is_wait c = false) new ∧
    o ≠ Spin ∧
    (o = Ret () → last new = Some (watch_request self)) ∧
    (∀ e, o = Raise e → ¬ is_validation_error e) ∧
    watch_request self' = watch_request self ∧
    _overlapped_hEvent self' = _overlapped_hEvent self.
Proof.
  unfold update_signaled, _get_path, _get_file_name, _get_event_type,
    _set_watcher, first_item, watch_request. step. run_catch.
  all: intros [= <- <- <-]; eexists; (split; [by rewrite <- ?app_assoc|]).
  all: split_and!; try done; try (repeat constructor; done); not_validation.
Qed.

Lemma file_update_failed_spec (self : FileMonitorAPI) (t : Trace)
    o self' t' :
  update_failed (self, t) = (o, (self', t')) →
  self' = self ∧
  ∃ new, t' = t ++ new ∧
    Forall (λ c, is_wait c = false) new ∧
    (∃ e, o = Raise e ∧ ¬ is_validation_error e).
Proof.
  unfold update_failed, close. step. run_catch.
  all: intros [= <- <- <-]; (split; [done|]).
  all: eexists;
    (split; [first [by rewrite <- ?app_assoc|symmetry; apply app_nil_r]|]).
  all: (split; [repeat constructor|]).
  all: eexists; (split; [done|]).
  all: intros Hv; refute_validation Hv.
Qed.

Lemma file_update_failed_run (self : FileMonitorAPI) (t : Trace) (path : string) :
  kwargs_get (_kwargs self) "Path" = inr path →
  let t1 := t ++ [CloseHandle (PStr path)] in
  let t2 := t1 ++ [CloseHandle (PyHANDLE (_overlapped_hEvent self))] in
  update_failed (self, t) =
    match answer_none t1 with
    | inl e => (Raise (exn_of e), (self, t1))
    | inr _ =>
        match answer_none t2 with
        | inl e => (Raise (exn_of e), (self, t2))
        | inr _ => (Raise (FileMonitorError None), (self, t2))
        end
    end.
Proof.
  intros Hpath. unfold update_failed, close. step. rewrite Hpath. by run.
Qed.

Lemma file_update_enough_fuel (k fuel : nat) (self : FileMonitorAPI) (t : Trace) :
  quiet_until t (_overlapped_hEvent self) k → (k < fuel)%nat →
  update fuel (self, t) =
  update_body (update (fuel - S k))
    (self, t ++ polls (_overlapped_hEvent self) k).
Proof.
  intros Hq Hlt. replace fuel with (k + S (fuel - S k))%nat at 1 by lia.
  by rewrite file_update_polls.
Qed.

(** *** Every run of [update] *)

Lemma file_update_spec (fuel : nat) (self : FileMonitorAPI) (t : Trace)
    o self' t' :
  update fuel (self, t) = (o, (self', t')) →
  ∃ n new, t' = t ++ polls (_overlapped_hEvent self) n ++ new ∧
    (n ≤ fuel)%nat ∧
    Forall (λ c, is_wait c = false) new ∧
    (o ≠ Spin → ∃ k, n = S k ∧ quiet_until t (_overlapped_hEvent self) k ∧
       ¬ quiet (answer_int (t ++ polls (_overlapped_hEvent self) (S k)))) ∧
    (o = Ret () →
       answer_int (t ++ polls (_overlapped_hEvent self) n)
         = inr WAIT_OBJECT_0 ∧
       last new = Some (watch_request self)) ∧
    (∀ e, o = Raise e → ¬ is_validation_error e) ∧
    watch_request self' = watch_request self ∧
    _overlapped_hEvent self' = _overlapped_hEvent self.
Proof.
  intros Hrun. apply file_update_inv in Hrun as (k & Hk & Hq & Hcases).
  simpl in Hcases.
  destruct Hcases as [(-> & -> & [= -> ->])|[Hlt Hcases]].
  { exists fuel, []. rewrite app_nil_r. split_and!; try done. }
  exists (S k).
  destruct Hcases
    as [(e & Hans & -> & [= -> ->])|[[Hans Hrun]|(Hans & Hne & Hrun)]].
  - exists []. rewrite app_nil_r, polls_snoc. split_and!; try done.
    + intros _. exists k. split_and!; try done.
      rewrite ?polls_snoc, Hans. by intros [].
    + intros e' [= <-] Hv. destruct e; refute_validation Hv.
  - apply file_update_signaled_spec in Hrun
      as (new & -> & Hnew & Hspin & Hret & Hval & Hw & Hev).
    exists new. split_and!; try done.
    + by rewrite polls_last, <- !app_assoc.
    + intros _. exists k. split_and!; try done.
      rewrite ?polls_snoc, Hans. simpl. by intros [? _].
    + intros ->. rewrite polls_snoc. by split; [|apply Hret].
  - apply file_update_failed_spec in Hrun
      as (-> & new & -> & Hnew & e & -> & Hval).
    exists new. split_and!; try done.
    + by rewrite polls_last, <- !app_assoc.
    + intros _. exists k. split_and!; try done.
      rewrite ?polls_snoc, Hans. simpl. by intros [_ ?].
    + by intros e' [= <-].
Qed.

(** *** The claims on the file monitor *)

(** C7: when the completed directory read transferred zero bytes, the
    decode step yields the empty string for the path and for the file
    name; neither raises, neither calls the operating system, and the
    object is left as it was. *)
Theorem zero_bytes_decode_empty (self : FileMonitorAPI) (t : Trace) :
  _num_bytes_returned self = 0 →
  _get_path (self, t) = (Ret "", (self, t)) ∧
  _get_file_name (self, t) = (Ret "", (self, t)).
Proof.
  intros Hzero. unfold _get_path, _get_file_name. step.
  rewrite Hzero. by destruct (decide (0 ≠ 0)).
Qed.

Lemma _ACTIONS_lookup (code : Z) :
  dict_get _ACTIONS code "Uncnown" = action_label code.
Proof.
  unfold dict_get, _ACTIONS.
  destruct (decide (code = 5)) as [->|?]; [done|].
  destruct (decide (code = 4)) as [->|?]; [done|].
  destruct (decide (code = 3)) as [->|?]; [done|].
  destruct (decide (code = 2)) as [->|?]; [done|].
  destruct (decide (code = 1)) as [->|?]; [done|].
  destruct (decide (code = 0)) as [->|?]; [done|].
  rewrite !lookup_insert_ne, lookup_empty by done.
  destruct code as [|c|c]; try done.
  do 3 (destruct c as [c|c|]; try done).
Qed.

(** C2: decoding of the action code of the first change record.  The
    decoding is a function of the code alone; the codes 1 to 5 get their
    labels and 0 gets the label of the unknown action, but a code outside
    the table gets the default of the lookup, which is the misspelt
    ["Uncnown"] and not the label 0 gets. *)
Theorem action_code_decoding (self : FileMonitorAPI) (t : Trace)
    (code : Z) (name : string) (rest : list (Z * string)) :
  _num_bytes_returned self ≠ 0 →
  answer_records (t ++ [FILE_NOTIFY_INFORMATION (_num_bytes_returned self)])
    = inr ((code, name) :: rest) →
  _get_event_type (self, t) =
    (Ret (action_label code),
     (self, t ++ [FILE_NOTIFY_INFORMATION (_num_bytes_returned self)])) ∧
  action_label 0 = "Unknown action" ∧
  (code ∉ [0; 1; 2; 3; 4; 5] →
   action_label code = "Uncnown" ∧ action_label code ≠ action_label 0).
Proof.
  intros Hn Hrec. split; [|split; [done|]].
  - unfold _get_event_type. step.
    destruct (decide (_num_bytes_returned self ≠ 0)); [|done].
    step. rewrite Hrec. simpl. by rewrite _ACTIONS_lookup.
  - intros Hout. rewrite <- !_ACTIONS_lookup.
    assert (_ACTIONS !! code = None) as Hnone.
    { unfold _ACTIONS. rewrite !lookup_insert_ne, lookup_empty; [done|..];
        intros <-; apply Hout; set_solver. }
    unfold dict_get. rewrite Hnone. done.
Qed.

(** C9: an update that sees the event signaled and a completed transfer
    of zero bytes still overwrites the stored event: the timestamp
    becomes the clock value read during this call, and the path, the
    file name and the event type become empty strings, whatever the
    event stored before was.  The calls issued are the polls, the
    transfer size, the clock and the next watch request. *)
Theorem zero_byte_update_overwrites (self : FileMonitorAPI) (t : Trace)
    (k fuel : nat) (ts : Z) :
  quiet_until t (_overlapped_hEvent self) k →
  answer_int (t ++ polls (_overlapped_hEvent self) (S k)) = inr WAIT_OBJECT_0 →
  answer_int
    ((t ++ polls (_overlapped_hEvent self) (S k)) ++
     [GetOverlappedResult (_directory self) (_overlapped_hEvent self) true])
    = inr 0 →
  answer_int
    (((t ++ polls (_overlapped_hEvent self) (S k)) ++
      [GetOverlappedResult (_directory self) (_overlapped_hEvent self) true])
     ++ [utcnow]) = inr ts →
  (k < fuel)%nat →
  ∃ o self' t',
    update fuel (self, t) = (o, (self', t')) ∧
    o ≠ Spin ∧
    _event_properties self' !! "Timestamp" = Some (PDatetime ts) ∧
    _event_properties self' !! "Path" = Some (PStr "") ∧
    _event_properties self' !! "FileName" = Some (PStr "") ∧
    _event_properties self' !! "EventType" = Some (PStr "") ∧
    issued t t' =
      polls (_overlapped_hEvent self) (S k) ++
      [GetOverlappedResult (_directory self) (_overlapped_hEvent self) true;
       utcnow; watch_request self].
Proof.
  intros Hq Hsig Hzero Hclock Hlt.
  rewrite file_update_enough_fuel with (k := k) by done.
  rewrite polls_snoc in Hsig, Hzero, Hclock.
  unfold update_body. step. rewrite Hsig.
  destruct (decide (WAIT_OBJECT_0 = WAIT_OBJECT_0)); [|done].
  unfold update_signaled, _get_path, _get_file_name, _get_event_type,
    _set_watcher, watch_request. step.
  rewrite Hzero. simpl. rewrite Hclock. simpl.
  destruct (decide (0 ≠ 0)); [done|]. simpl.
  match goal with
  | |- context [answer_none ?l] => destruct (answer_none l) as [refused|[]]
  end.
  all: do 3 eexists; split; [reflexivity|].
  all: split; [done|].
  all: cbn [_event_properties set_event_property set_num_bytes_returned
            fst snd].
  all: split_and!; [by simplify_map_eq.. | ].
  all: trace_eq.
Qed.

(** C1: what [update] does on a failed wait.  [close] hands the path
    string [self._kwargs['Path']] to [CloseHandle], not the directory
    handle [self._directory]: the directory handle is never closed, and
    when the operating system refuses to close a string the exception of
    that refusal leaves [update], with the event handle still open and
    no [FileMonitorError] raised. *)
Theorem failed_wait_closes_path_not_directory (self : FileMonitorAPI)
    (t : Trace) (k fuel : nat) (path : string) :
  quiet_until t (_overlapped_hEvent self) k →
  answer_int (t ++ polls (_overlapped_hEvent self) (S k)) = inr WAIT_FAILED →
  WAIT_FAILED ≠ WAIT_OBJECT_0 →
  (k < fuel)%nat →
  kwargs_get (_kwargs self) "Path" = inr path →
  _directory self ≠ _overlapped_hEvent self →
  ∃ o t',
    update fuel (self, t) = (o, (self, t')) ∧
    (CloseHandle (PyHANDLE (_directory self)) ∉ issued t t') ∧
    (∃ rest, issued t t' =
       polls (_overlapped_hEvent self) (S k) ++
       (CloseHandle (PStr path) :: rest)) ∧
    (∀ e,
       answer_none
         ((t ++ polls (_overlapped_hEvent self) (S k)) ++
          [CloseHandle (PStr path)]) = inl e →
       o = Raise (exn_of e) ∧
       issued t t' =
         polls (_overlapped_hEvent self) (S k) ++ [CloseHandle (PStr path)]).
Proof.
  intros Hq Hfail Hne Hlt Hpath Hdir.
  rewrite file_update_enough_fuel with (k := k) by done.
  rewrite polls_snoc in Hfail |- *.
  unfold update_body. step. rewrite Hfail.
  destruct (decide (WAIT_FAILED = WAIT_OBJECT_0)); [done|].
  destruct (decide (WAIT_FAILED = WAIT_FAILED)); [|done].
  rewrite (file_update_failed_run _ _ path) by done. simpl.
  set (ev := _overlapped_hEvent self) in *.
  set (t1 := (t ++ polls ev k) ++ [WaitForSingleObject ev 0]).
  destruct (answer_none (t1 ++ [CloseHandle (PStr path)]))
    as [refused|[]] eqn:H1;
    [|destruct (answer_none
                  ((t1 ++ [CloseHandle (PStr path)]) ++
                   [CloseHandle (PyHANDLE ev)])) as [refused|[]]].
  all: do 2 eexists; (split; [reflexivity|]); unfold t1.
  all: rewrite polls_last, <- !app_assoc, issued_app; simpl.
  all: split_and!;
    [not_in_trace | eexists; by rewrite <- app_assoc | try done].
  intros e' [= <-]. done.
Qed.

End file_monitor.

Section registry_monitor.
Context {os : Win32}.
Import regmon.

(** *** The polling loop of [update] *)

Lemma reg_update_S_signaled (fuel : nat) (self : RegistryMonitorAPI)
    (t : Trace) :
  let t1 := t ++ [WaitForSingleObject (_event self) 0] in
  answer_int t1 = inr WAIT_OBJECT_0 →
  update (S fuel) (self, t) = update_signaled (self, t1).
Proof.
  intros t1 Hans. simpl. unfold update_body. step. fold t1. rewrite Hans.
  by destruct (decide (WAIT_OBJECT_0 = WAIT_OBJECT_0)).
Qed.

Lemma reg_update_S_failed (fuel : nat) (self : RegistryMonitorAPI)
    (t : Trace) :
  let t1 := t ++ [WaitForSingleObject (_event self) 0] in
  answer_int t1 = inr WAIT_FAILED → WAIT_FAILED ≠ WAIT_OBJECT_0 →
  update (S fuel) (self, t) = update_failed (self, t1).
Proof.
  intros t1 Hans Hne. simpl. unfold update_body. step. fold t1. rewrite Hans.
  destruct (decide (WAIT_FAILED = WAIT_OBJECT_0)); [done|].
  by destruct (decide (WAIT_FAILED = WAIT_FAILED)).
Qed.

Lemma reg_update_S_quiet (fuel : nat) (self : RegistryMonitorAPI)
    (t : Trace) :
  let t1 := t ++ [WaitForSingleObject (_event self) 0] in
  quiet (answer_int t1) →
  update (S fuel) (self, t) = update fuel (self, t1).
Proof.
  intros t1 Hq. simpl. unfold update_body. step. fold t1.
  destruct (answer_int t1) as [e|r]; [done|]. destruct Hq as [H0 HF].
  destruct (decide (r = WAIT_OBJECT_0)); [done|].
  by destruct (decide (r = WAIT_FAILED)).
Qed.

Lemma reg_update_polls (k fuel : nat) (self : RegistryMonitorAPI)
    (t : Trace) :
  quiet_until t (_event self) k →
  update (k + fuel) (self, t) = update fuel (self, t ++ polls (_event self) k).
Proof.
  revert t. induction k as [|k IH]; intros t Hq.
  - simpl. by rewrite polls_0, app_nil_r.
  - apply quiet_until_S in Hq as [Hq Hrest].
    change (S k + fuel)%nat with (S (k + fuel)).
    rewrite reg_update_S_quiet by done. rewrite IH by done.
    by rewrite <- polls_S.
Qed.

Lemma reg_update_enough_fuel (k fuel : nat) (self : RegistryMonitorAPI)
    (t : Trace) :
  quiet_until t (_event self) k → (k < fuel)%nat →
  update fuel (self, t) =
  update_body (update (fuel - S k)) (self, t ++ polls (_event self) k).
Proof.
  intros Hq Hlt. replace fuel with (k + S (fuel - S k))%nat at 1 by lia.
  by rewrite reg_update_polls.
Qed.

Lemma reg_update_inv (fuel : nat) (self : RegistryMonitorAPI) (t : Trace)
    o σ' :
  update fuel (self, t) = (o, σ') →
  ∃ k, (k ≤ fuel)%nat ∧ quiet_until t (_event self) k ∧
    let tk := t ++ polls (_event self) k in
    let t1 := tk ++ [WaitForSingleObject (_event self) 0] in
    (k = fuel ∧ o = Spin ∧ σ' = (self, tk)) ∨
    ((k < fuel)%nat ∧
     ((∃ e, answer_int t1 = inl e ∧ o = Raise (exn_of e) ∧ σ' = (self, t1)) ∨
      (answer_int t1 = inr WAIT_OBJECT_0 ∧ update_signaled (self, t1) = (o, σ')) ∨
      (answer_int t1 = inr WAIT_FAILED ∧ WAIT_FAILED ≠ WAIT_OBJECT_0 ∧
       update_failed (self, t1) = (o, σ')))).
Proof.
  revert t. induction fuel as [|fuel IH]; intros t Hrun.
  - exists 0%nat. split; [done|]. split; [constructor|]. simpl.
    left. rewrite polls_0, app_nil_r. by inversion Hrun.
  - set (t1 := t ++ [WaitForSingleObject (_event self) 0]).
    destruct (answer_int t1) as [e|r] eqn:Hans.
    { exists 0%nat. split; [lia|]. split; [constructor|]. simpl.
      rewrite polls_0, app_nil_r. fold t1. right. split; [lia|]. left.
      exists e. revert Hrun. simpl. unfold update_body. step. fold t1.
      rewrite Hans. by intros [= <- <-]. }
    destruct (decide (r = WAIT_OBJECT_0)) as [->|Hne0].
    { exists 0%nat. split; [lia|]. split; [constructor|]. simpl.
      rewrite polls_0, app_nil_r. fold t1. right. split; [lia|]. right. left.
      by rewrite reg_update_S_signaled in Hrun. }
    destruct (decide (r = WAIT_FAILED)) as [->|HneF].
    { exists 0%nat. split; [lia|]. split; [constructor|]. simpl.
      rewrite polls_0, app_nil_r. fold t1. right. split; [lia|]. right. right.
      by rewrite reg_update_S_failed in Hrun. }
    assert (quiet (answer_int t1)) as Hq by (by rewrite Hans).
    rewrite reg_update_S_quiet in Hrun by done.
    apply IH in Hrun as (k & Hk & Hquiet & Hcases).
    exists (S k). split; [lia|]. split; [by apply quiet_until_S|].
    simpl in Hcases |- *. fold t1 in Hcases. rewrite polls_S. fold t1.
    destruct Hcases as [(-> & -> & ->)|[Hlt Hcases]]; [by left|].
    right. split; [lia|]. done.
Qed.

(** *** The two branches that leave the loop *)

(** Keys that [update] does not assign keep their value. *)
Ltac frame_keys :=
  let key := fresh "key" in
  let Hkey := fresh "Hkey" in
  intros key Hkey; cbn [_event_properties set_event_property];
  rewrite ?lookup_insert_ne; [done|intros <-; apply Hkey; set_solver..].

Lemma reg_update_signaled_spec (self : RegistryMonitorAPI) (t : Trace)
    o self' t' :
  update_signaled (self, t) = (o, (self', t')) →
  ∃ new, t' = t ++ new ∧
    Forall (λ c, is_wait c = false) new ∧
    o ≠ Spin ∧
    (o = Ret () → last new = Some (watch_request self)) ∧
    (∀ e, o = Raise e → ¬ is_validation_error e) ∧
    watch_request self' = watch_request self ∧
    _event self' = _event self ∧
    _kwargs self' = _kwargs self ∧
    (∀ key, key ∉ registry_written_keys →
       _event_properties self' !! key = _event_properties self !! key).
Proof.
  unfold update_signaled, _set_watcher, watch_request. step. run_catch.
  all: intros [= <- <- <-]; eexists; (split; [by rewrite <- ?app_assoc|]).
  all: split_and!; try done; try (repeat constructor; done);
    try frame_keys; not_validation.
Qed.

Lemma reg_update_failed_spec (self : RegistryMonitorAPI) (t : Trace)
    o self' t' :
  update_failed (self, t) = (o, (self', t')) →
  self' = self ∧
  ∃ new, t' = t ++ new ∧
    Forall (λ c, is_wait c = false) new ∧
    (∃ e, o = Raise e ∧ ¬ is_validation_error e).
Proof.
  unfold update_failed, close. step. run_catch.
  all: intros [= <- <- <-]; (split; [done|]).
  all: eexists; (split; [by rewrite <- ?app_assoc|]).
  all: (split; [repeat constructor|]).
  all: eexists; (split; [done|]).
  all: intros Hv; refute_validation Hv.
Qed.

(** *** Every run of [update] *)

Lemma reg_update_spec (fuel : nat) (self : RegistryMonitorAPI) (t : Trace)
    o self' t' :
  update fuel (self, t) = (o, (self', t')) →
  ∃ n new, t' = t ++ polls (_event self) n ++ new ∧ (n ≤ fuel)%nat ∧
    Forall (λ c, is_wait c = false) new ∧
    (o ≠ Spin → ∃ k, n = S k ∧ quiet_until t (_event self) k ∧
       ¬ quiet (answer_int (t ++ polls (_event self) (S k)))) ∧
    (o = Ret () →
       answer_int (t ++ polls (_event self) n) = inr WAIT_OBJECT_0 ∧
       last new = Some (watch_request self)) ∧
    (∀ e, o = Raise e → ¬ is_validation_error e) ∧
    watch_request self' = watch_request self ∧
    _event self' = _event self ∧
    _kwargs self' = _kwargs self ∧
    (∀ key, key ∉ registry_written_keys →
       _event_properties self' !! key = _event_properties self !! key).
Proof.
  intros Hrun. apply reg_update_inv in Hrun as (k & Hk & Hq & Hcases).
  simpl in Hcases.
  destruct Hcases as [(-> & -> & [= -> ->])|[Hlt Hcases]].
  { exists fuel, []. rewrite app_nil_r. split_and!; try done. }
  exists (S k).
  destruct Hcases
    as [(e & Hans & -> & [= -> ->])|[[Hans Hrun]|(Hans & Hne & Hrun)]].
  - exists []. rewrite app_nil_r, polls_snoc. split_and!; try done.
    + intros _. exists k. split_and!; try done.
      rewrite ?polls_snoc, Hans. by intros [].
    + intros e' [= <-] Hv. destruct e; refute_validation Hv.
  - apply reg_update_signaled_spec in Hrun
      as (new & -> & Hnew & Hspin & Hret & Hval & Hw & Hev & Hkw & Hframe).
    exists new. split_and!; try done.
    + by rewrite polls_last, <- !app_assoc.
    + intros _. exists k. split_and!; try done.
      rewrite ?polls_snoc, Hans. simpl. by intros [? _].
    + intros ->. rewrite polls_snoc. by split; [|apply Hret].
  - apply reg_update_failed_spec in Hrun
      as (-> & new & -> & Hnew & e & -> & Hval).
    exists new. split_and!; try done.
    + by rewrite polls_last, <- !app_assoc.
    + intros _. exists k. split_and!; try done.
      rewrite ?polls_snoc, Hans. simpl. by intros [_ ?].
    + by intros e' [= <-].
Qed.

End registry_monitor.

Section construction.
Context {os : Win32}.

Lemma file_init_ret (notify_filter : string) (kwargs : kwargs_t) (t : Trace)
    self t' :
  filemon.FileMonitorAPI__init__ notify_filter kwargs ((), t)
    = (Ret self, ((), t')) →
  ∃ path,
    kwargs_get kwargs "Path" = inr path ∧
    notify_filter ∈ filemon.valid_notify_filter ∧
    issued t t' =
      [CreateFile path FILE_LIST_DIRECTORY
         (Z.lor FILE_SHARE_READ FILE_SHARE_WRITE) OPEN_EXISTING
         (Z.lor FILE_FLAG_BACKUP_SEMANTICS FILE_FLAG_OVERLAPPED);
       CreateEvent false false;
       AllocateReadBuffer 1024;
       filemon.watch_request self] ∧
    filemon._event_properties self = filemon.initial_event_properties ∧
    filemon._kwargs self = kwargs ∧
    filemon._notify_filter self = notify_filter ∧
    filemon._num_bytes_returned self = 0.
Proof.
  unfold filemon.FileMonitorAPI__init__, filemon.FileMonitor__init__,
    filemon._set_watcher, filemon.watch_request.
  step. run_catch; try done.
  intros [= <- <-]. eexists. split; [done|]. split; [done|].
  by issued_norm.
Qed.

Lemma reg_init_ret (notify_filter : string) (kwargs : kwargs_t) (t : Trace)
    self t' :
  regmon.RegistryMonitorAPI__init__ notify_filter kwargs ((), t)
    = (Ret self, ((), t')) →
  ∃ hive key_path root,
    kwargs_get kwargs "Hive" = inr hive ∧
    kwargs_get kwargs "KeyPath" = inr key_path ∧
    notify_filter ∈ regmon.valid_notify_filter ∧
    issued t t' =
      [CreateEvent false false;
       RegOpenKeyEx root key_path 0 KEY_NOTIFY;
       regmon.watch_request self] ∧
    regmon._event_properties self = regmon.initial_event_properties ∧
    regmon._kwargs self = kwargs ∧
    regmon._notify_filter self = notify_filter.
Proof.
  unfold regmon.RegistryMonitorAPI__init__, regmon.RegistryMonitor__init__,
    regmon._set_watcher, regmon._get_hive_const, regmon.watch_request.
  step. run_catch; try done.
  all: intros [= <- <-]; do 3 eexists.
  all: split; [done|]; split; [done|]; split; [done|].
  all: by issued_norm.
Qed.

End construction.

Section registry_claims.
Context {os : Win32}.
Import regmon.

(** C3 (as amended): [update] of the registry monitor polls.  Each turn
    of its loop issues one wait with timeout zero on the notification
    event; when the first [k] polls are quiet and the next one finds the
    event signaled, [update], given enough fuel for [k + 1] turns, leaves
    its loop and the waits it has issued are exactly these [k + 1]
    zero-timeout polls. *)
Theorem registry_update_polls_until_signaled (self : RegistryMonitorAPI)
    (t : Trace) (k fuel : nat) :
  quiet_until t (_event self) k →
  answer_int (t ++ polls (_event self) (S k)) = inr WAIT_OBJECT_0 →
  (k < fuel)%nat →
  ∃ o self' t',
    update fuel (self, t) = (o, (self', t')) ∧
    o ≠ Spin ∧
    filter is_wait (issued t t') = polls (_event self) (S k).
Proof.
  intros Hq Hsig Hlt.
  destruct (update fuel (self, t)) as [o [self' t']] eqn:Hrun.
  exists o, self', t'. split; [done|].
  rewrite reg_update_enough_fuel with (k := k) in Hrun by done.
  rewrite polls_snoc in Hsig. revert Hrun.
  unfold update_body. step. rewrite Hsig.
  destruct (decide (WAIT_OBJECT_0 = WAIT_OBJECT_0)); [|done].
  intros Hrun. apply reg_update_signaled_spec in Hrun
    as (new & -> & Hnew & Hspin & _).
  split; [done|].
  rewrite <- polls_snoc, <- app_assoc, issued_app.
  by apply filter_is_wait_polls.
Qed.

Lemma reg_close_self (self : RegistryMonitorAPI) (t : Trace) o self' t' :
  close (self, t) = (o, (self', t')) → self' = self.
Proof. unfold close. step. run. all: by intros [= <- <- <-]. Qed.

Lemma alive_unwritten (notify_filter : string) (kwargs : kwargs_t)
    (t0 : Trace) σ :
  alive notify_filter kwargs t0 σ →
  ∀ key, key ∉ registry_written_keys →
    _event_properties σ.1 !! key = initial_event_properties !! key.
Proof.
  induction 1 as [self t Hinit|fuel [self t] o [self' t'] _ IH Hrun
                 |[self t] o [self' t'] _ IH Hclose]; intros key Hkey.
  - apply reg_init_ret in Hinit
      as (? & ? & ? & _ & _ & _ & _ & Hprops & _). simpl. by rewrite Hprops.
  - apply reg_update_spec in Hrun
      as (? & ? & _ & _ & _ & _ & _ & _ & _ & _ & _ & Hframe).
    simpl in *. rewrite Hframe by done. by apply IH.
  - apply reg_close_self in Hclose as ->. by apply IH.
Qed.

(** C10: every [update] of the native registry monitor, whatever its
    outcome, leaves all keys of the event dictionary other than [Hive],
    [KeyPath], [Timestamp] and [EventType] as they were; and throughout
    the life of a monitor (construction, then any sequence of [update]
    and [close]) [RootPath] and [ValueName] hold [None]. *)
Theorem registry_update_writes_four_keys (notify_filter : string)
    (kwargs : kwargs_t) (t0 : Trace) σ (fuel : nat) o σ' :
  alive notify_filter kwargs t0 σ →
  update fuel σ = (o, σ') →
  (∀ key, key ∉ ["Hive"; "KeyPath"; "Timestamp"; "EventType"] →
     _event_properties σ'.1 !! key = _event_properties σ.1 !! key) ∧
  _event_properties σ.1 !! "RootPath" = Some PNone ∧
  _event_properties σ.1 !! "ValueName" = Some PNone ∧
  _event_properties σ'.1 !! "RootPath" = Some PNone ∧
  _event_properties σ'.1 !! "ValueName" = Some PNone.
Proof.
  intros Halive Hrun.
  assert (alive notify_filter kwargs t0 σ') as Halive'
    by (by eapply alive_update).
  destruct σ as [self t], σ' as [self' t'].
  apply reg_update_spec in Hrun
    as (? & ? & _ & _ & _ & _ & _ & _ & _ & _ & _ & Hframe).
  split; [done|].
  split_and!.
  all: match goal with
       | |- _ !! ?key = _ =>
           first [rewrite (alive_unwritten _ _ _ _ Halive key)
                 |rewrite (alive_unwritten _ _ _ _ Halive' key)];
           [done|unfold registry_written_keys; not_in_trace]
       end.
Qed.

End registry_claims.

Section both_monitors.
Context {os : Win32}.

Lemma file_init_no_manual_reset (notify_filter : string) (kwargs : kwargs_t)
    (t : Trace) o t' :
  filemon.FileMonitorAPI__init__ notify_filter kwargs ((), t) = (o, ((), t')) →
  ∀ b, CreateEvent true b ∉ issued t t'.
Proof.
  unfold filemon.FileMonitorAPI__init__, filemon.FileMonitor__init__,
    filemon._set_watcher, filemon.watch_request.
  step. run_catch.
  all: intros [= <- <-] b; issued_norm; not_in_trace.
Qed.

Lemma reg_init_no_manual_reset (notify_filter : string) (kwargs : kwargs_t)
    (t : Trace) o t' :
  regmon.RegistryMonitorAPI__init__ notify_filter kwargs ((), t)
    = (o, ((), t')) →
  ∀ b, CreateEvent true b ∉ issued t t'.
Proof.
  unfold regmon.RegistryMonitorAPI__init__, regmon.RegistryMonitor__init__,
    regmon._set_watcher, regmon._get_hive_const, regmon.watch_request.
  step. run_catch.
  all: intros [= <- <-] b; issued_norm; not_in_trace.
Qed.

(** C4 (as amended): both constructors create an auto-reset notification
    event.  No run of either constructor, whatever its outcome, creates
    a manual-reset event, and a construction that succeeds has created
    exactly one event, with [CreateEvent(None, False, False, None)]:
    auto-reset, initially not signaled. *)
Theorem both_monitors_create_auto_reset_event
    (notify_filter : string) (kwargs : kwargs_t) (t : Trace) :
  (∀ o t',
     filemon.FileMonitorAPI__init__ notify_filter kwargs ((), t)
       = (o, ((), t')) →
     (∀ b, CreateEvent true b ∉ issued t t') ∧
     (∀ self, o = Ret self →
        filter is_CreateEvent (issued t t') = [CreateEvent false false])) ∧
  (∀ o t',
     regmon.RegistryMonitorAPI__init__ notify_filter kwargs ((), t)
       = (o, ((), t')) →
     (∀ b, CreateEvent true b ∉ issued t t') ∧
     (∀ self, o = Ret self →
        filter is_CreateEvent (issued t t') = [CreateEvent false false])).
Proof.
  split; intros o t' Hinit.
  - split; [by eapply file_init_no_manual_reset|].
    intros self ->. apply file_init_ret in Hinit as (? & _ & _ & -> & _).
    done.
  - split; [by eapply reg_init_no_manual_reset|].
    intros self ->. apply reg_init_ret in Hinit
      as (? & ? & ? & _ & _ & _ & -> & _).
    done.
Qed.

(** C5: a filter outside the allowed set, or a keyword argument outside
    the allowed keys, makes either constructor raise its validation
    error with the call log unchanged, so before any call to the
    operating system (no directory, key or event is opened); and no run
    of [update] raises a validation error. *)
Theorem validation_errors_only_at_construction
    (notify_filter : string) (kwargs : kwargs_t) (t : Trace) :
  (notify_filter ∉ filemon.valid_notify_filter ∨
   ¬ Forall (λ key, key ∈ filemon.valid_kwargs) kwargs.*1 →
   ∃ e, filemon.FileMonitorAPI__init__ notify_filter kwargs ((), t)
          = (Raise e, ((), t)) ∧ is_validation_error e) ∧
  (notify_filter ∉ regmon.valid_notify_filter ∨
   ¬ Forall (λ key, key ∈ regmon.valid_kwargs) kwargs.*1 →
   ∃ e, regmon.RegistryMonitorAPI__init__ notify_filter kwargs ((), t)
          = (Raise e, ((), t)) ∧ is_validation_error e) ∧
  (∀ fuel σ e σ',
     filemon.update fuel σ = (Raise e, σ') → ¬ is_validation_error e) ∧
  (∀ fuel σ e σ',
     regmon.update fuel σ = (Raise e, σ') → ¬ is_validation_error e).
Proof.
  split_and!.
  - intros Hbad.
    unfold filemon.FileMonitorAPI__init__, filemon.FileMonitor__init__. step.
    destruct (decide (Forall (λ key, key ∈ filemon.valid_kwargs) kwargs.*1))
      as [Hkeys|Hkeys].
    + rewrite check_kwargs_valid by done. simpl.
      destruct (decide (notify_filter ∈ filemon.valid_notify_filter));
        [by destruct Hbad|].
      eexists. split; [done|]. right. left. by eexists.
    + rewrite check_kwargs_invalid by done. simpl.
      eexists. split; [done|]. by left.
  - intros Hbad.
    unfold regmon.RegistryMonitorAPI__init__, regmon.RegistryMonitor__init__.
    step.
    destruct (decide (Forall (λ key, key ∈ regmon.valid_kwargs) kwargs.*1))
      as [Hkeys|Hkeys].
    + rewrite check_kwargs_valid by done. simpl.
      destruct (decide (notify_filter ∈ regmon.valid_notify_filter));
        [by destruct Hbad|].
      eexists. split; [done|]. right. right. right. by eexists.
    + rewrite check_kwargs_invalid by done. simpl.
      eexists. split; [done|]. right. right. by left.
  - intros fuel [self t1] e [self' t'] Hrun.
    apply file_update_spec in Hrun as (? & ? & _ & _ & _ & _ & _ & Hval & _).
    by apply Hval.
  - intros fuel [self t1] e [self' t'] Hrun.
    apply reg_update_spec in Hrun as (? & ? & _ & _ & _ & _ & _ & Hval & _).
    by apply Hval.
Qed.





(** C8: with an allowed filter and allowed keyword arguments, a
    construction that lacks a required key raises the [KeyError] of the
    dictionary lookup, not the module's own error: [KeyError('Path')]
    from [FileMonitorAPI], before any call to the operating system;
    [KeyError('Hive')], or [KeyError('KeyPath')] when only that key is
    missing, from [RegistryMonitorAPI], once its event is created. *)
Theorem missing_key_raises_KeyError
    (notify_filter : string) (kwargs : kwargs_t) (t : Trace) :
  (notify_filter ∈ filemon.valid_notify_filter →
   Forall (λ key, key ∈ filemon.valid_kwargs) kwargs.*1 →
   "Path" ∉ kwargs.*1 →
   filemon.FileMonitorAPI__init__ notify_filter kwargs ((), t)
     = (Raise (KeyError "Path"), ((), t))) ∧
  (∀ event,
     notify_filter ∈ regmon.valid_notify_filter →
     Forall (λ key, key ∈ regmon.valid_kwargs) kwargs.*1 →
     answer_handle (t ++ [CreateEvent false false]) = inr event →
     event ≠ 0 →
     ("Hive" ∉ kwargs.*1 →
      regmon.RegistryMonitorAPI__init__ notify_filter kwargs ((), t)
        = (Raise (KeyError "Hive"), ((), t ++ [CreateEvent false false]))) ∧
     ("Hive" ∈ kwargs.*1 → "KeyPath" ∉ kwargs.*1 →
      regmon.RegistryMonitorAPI__init__ notify_filter kwargs ((), t)
        = (Raise (KeyError "KeyPath"),
           ((), t ++ [CreateEvent false false])))).
Proof.
  split.
  - intros Hfilter Hkeys Hpath.
    unfold filemon.FileMonitorAPI__init__, filemon.FileMonitor__init__. step.
    rewrite check_kwargs_valid by done. simpl.
    destruct (decide (notify_filter ∈ filemon.valid_notify_filter)); [|done].
    step. by rewrite kwargs_get_missing.
  - intros event Hfilter Hkeys Hevent Hnonzero.
    unfold regmon.RegistryMonitorAPI__init__, regmon.RegistryMonitor__init__,
      regmon._get_hive_const.
    step. rewrite check_kwargs_valid by done. simpl.
    destruct (decide (notify_filter ∈ regmon.valid_notify_filter)); [|done].
    step. rewrite Hevent. simpl.
    destruct (decide (event = 0)); [done|]. step.
    split.
    + intros Hhive. by rewrite kwargs_get_missing.
    + intros Hhive Hkeypath.
      apply kwargs_get_present in Hhive as [hive ->].
      rewrite (kwargs_get_missing _ "KeyPath") by done.
      simpl. by run.
Qed.

End both_monitors.

(** ** The claims on concrete runs *)

#[local] Transparent polls.

Lemma zero_bytes_decode_empty_witness :
  filemon._get_path (os := os_quiet_then_signaled) (fresh_file_monitor, [])
    = (Ret "", (fresh_file_monitor, [])) ∧
  filemon._get_file_name (os := os_quiet_then_signaled)
    (fresh_file_monitor, []) = (Ret "", (fresh_file_monitor, [])).
Proof.
  apply (zero_bytes_decode_empty (os := os_quiet_then_signaled)
           fresh_file_monitor []).
  reflexivity.
Defined.

Lemma action_code_decoding_witness :
  filemon._get_event_type (os := os_change_record 6) (sample_file_monitor, [])
    = (Ret "Uncnown", (sample_file_monitor, [FILE_NOTIFY_INFORMATION 28])) ∧
  filemon.action_label 0 = "Unknown action" ∧
  filemon.action_label 6 = "Uncnown" ∧
  filemon.action_label 6 ≠ filemon.action_label 0.
Proof.
  destruct (action_code_decoding (os := os_change_record 6)
              sample_file_monitor [] 6 "x.txt" [])
    as (Hrun & Hzero & Hout).
  - vm_compute. discriminate.
  - reflexivity.
  - split; [exact Hrun|]. split; [exact Hzero|]. apply Hout. not_in_trace.
Defined.

Lemma zero_byte_update_overwrites_witness :
  ∃ o self' t',
    filemon.update (os := os_quiet_then_signaled) 5 (sample_file_monitor, [])
      = (o, (self', t')) ∧
    o ≠ Spin ∧
    filemon._event_properties self' !! "Timestamp"
      = Some (PDatetime 1700000004) ∧
    filemon._event_properties self' !! "Path" = Some (PStr "") ∧
    filemon._event_properties self' !! "FileName" = Some (PStr "") ∧
    filemon._event_properties self' !! "EventType" = Some (PStr "") ∧
    issued [] t' =
      [WaitForSingleObject 200 0; WaitForSingleObject 200 0;
       GetOverlappedResult 100 200 true; utcnow;
       ReadDirectoryChangesW 100 true (Some 19) 200].
Proof.
  apply (zero_byte_update_overwrites (os := os_quiet_then_signaled)
           sample_file_monitor [] 1 5 1700000004).
  - repeat constructor; discriminate.
  - reflexivity.
  - reflexivity.
  - reflexivity.
  - lia.
Defined.

Lemma failed_wait_closes_path_not_directory_witness :
  filemon.update (os := os_quiet_then_failed) 5 (sample_file_monitor, [])
    = (Raise TypeError,
       (sample_file_monitor,
        [WaitForSingleObject 200 0; WaitForSingleObject 200 0;
         CloseHandle (PStr "C:\watched")])) ∧
  ∃ o t',
    filemon.update (os := os_quiet_then_failed) 5 (sample_file_monitor, [])
      = (o, (sample_file_monitor, t')) ∧
    (CloseHandle (PyHANDLE 100) ∉ issued [] t') ∧
    (∃ rest, issued [] t' =
       [WaitForSingleObject 200 0; WaitForSingleObject 200 0] ++
       (CloseHandle (PStr "C:\watched") :: rest)) ∧
    (∀ e,
       answer_none (Win32 := os_quiet_then_failed)
         [WaitForSingleObject 200 0; WaitForSingleObject 200 0;
          CloseHandle (PStr "C:\watched")] = inl e →
       o = Raise (exn_of e) ∧
       issued [] t' =
         [WaitForSingleObject 200 0; WaitForSingleObject 200 0;
          CloseHandle (PStr "C:\watched")]).
Proof.
  split; [reflexivity|].
  apply (failed_wait_closes_path_not_directory (os := os_quiet_then_failed)
           sample_file_monitor [] 1 5 "C:\watched").
  - repeat constructor; discriminate.
  - reflexivity.
  - discriminate.
  - lia.
  - reflexivity.
  - discriminate.
Defined.

(** One update of the sample registry monitor, the event being found
    signaled at the second poll. *)
Lemma registry_update_two_polls :
  regmon.update (os := os_quiet_then_signaled) 5 (sample_registry_monitor, [])
    = (Ret (),
       (regmon.set_event_property "EventType" (PStr "LastSetChange")
          (regmon.set_event_property "Timestamp" (PDatetime 1700000003)
             (regmon.set_event_property "KeyPath" (PStr "Software\TestApp")
                (regmon.set_event_property "Hive" (PStr "HKEY_CURRENT_USER")
                   sample_registry_monitor))),
        [WaitForSingleObject 200 0; WaitForSingleObject 200 0; utcnow;
         RegNotifyChangeKeyValue 300 true (Some 4) 200 true])).
Proof. reflexivity. Qed.

(** C3, counterexample: on an operating system that answers the first
    wait with [WAIT_TIMEOUT] and the second with [WAIT_OBJECT_0], one
    [update] of the registry monitor issues two waits, each with timeout
    zero, not one wait without a timeout. *)
Lemma registry_update_does_not_block_on_one_wait :
  filter is_wait
    (issued []
       (regmon.update (os := os_quiet_then_signaled) 5
          (sample_registry_monitor, [])).2.2)
    = [WaitForSingleObject 200 0; WaitForSingleObject 200 0] ∧
  ¬ registry_update_blocks_on_one_wait.
Proof.
  split; [reflexivity|].
  intros Hclaim.
  destruct (Hclaim os_quiet_then_signaled _ _ _ _ _ registry_update_two_polls)
    as (ms & _ & Hwaits).
  discriminate Hwaits.
Qed.

Lemma registry_update_polls_until_signaled_witness :
  ∃ o self' t',
    regmon.update (os := os_quiet_then_signaled) 5
      (sample_registry_monitor, []) = (o, (self', t')) ∧
    o ≠ Spin ∧
    filter is_wait (issued [] t') =
      [WaitForSingleObject 200 0; WaitForSingleObject 200 0].
Proof.
  apply (registry_update_polls_until_signaled (os := os_quiet_then_signaled)
           sample_registry_monitor [] 1 5).
  - repeat constructor; discriminate.
  - reflexivity.
  - lia.
Defined.

(** The two constructions on the sample operating system. *)
Lemma file_construction_run :
  filemon.FileMonitorAPI__init__ (os := os_quiet_then_signaled)
    "UnionChange" [("Path", "C:\watched")] ((), [])
    = (Ret fresh_file_monitor,
       ((), [CreateFile "C:\watched" 1 3 3 1107296256;
             CreateEvent false false;
             AllocateReadBuffer 1024;
             ReadDirectoryChangesW 100 true (Some 19) 200])).
Proof. reflexivity. Qed.

Lemma registry_construction_run :
  regmon.RegistryMonitorAPI__init__ (os := os_quiet_then_signaled)
    "LastSetChange"
    [("Hive", "HKEY_CURRENT_USER"); ("KeyPath", "Software\TestApp")] ((), [])
    = (Ret sample_registry_monitor,
       ((), [CreateEvent false false;
             RegOpenKeyEx (Some 2147483649) "Software\TestApp" 0 16;
             RegNotifyChangeKeyValue 300 true (Some 4) 200 true])).
Proof. reflexivity. Qed.

(** C4, counterexample: constructing the file monitor on [C:\watched]
    issues [CreateEvent(None, False, False, None)], whose second
    argument makes the event auto-reset; no manual-reset event is
    created. *)
Lemma file_monitor_event_is_not_manual_reset :
  filter is_CreateEvent
    (issued []
       (filemon.FileMonitorAPI__init__ (os := os_quiet_then_signaled)
          "UnionChange" [("Path", "C:\watched")] ((), [])).2.2)
    = [CreateEvent false false] ∧
  ¬ file_monitor_event_is_manual_reset.
Proof.
  split; [reflexivity|].
  intros Hclaim.
  destruct (Hclaim os_quiet_then_signaled _ _ _ _ _ file_construction_run)
    as [b Hin].
  unfold issued in Hin. simpl in Hin. revert Hin. not_in_trace.
Qed.

Lemma both_monitors_create_auto_reset_event_witness :
  filter is_CreateEvent
    (issued []
       [CreateFile "C:\watched" 1 3 3 1107296256; CreateEvent false false;
        AllocateReadBuffer 1024;
        ReadDirectoryChangesW 100 true (Some 19) 200])
    = [CreateEvent false false] ∧
  filter is_CreateEvent
    (issued []
       [CreateEvent false false;
        RegOpenKeyEx (Some 2147483649) "Software\TestApp" 0 16;
        RegNotifyChangeKeyValue 300 true (Some 4) 200 true])
    = [CreateEvent false false].
Proof.
  split.
  - destruct (both_monitors_create_auto_reset_event
                (os := os_quiet_then_signaled)
                "UnionChange" [("Path", "C:\watched")] []) as [Hfile _].
    destruct (Hfile _ _ file_construction_run) as [_ Hone].
    exact (Hone _ eq_refl).
  - destruct (both_monitors_create_auto_reset_event
                (os := os_quiet_then_signaled) "LastSetChange"
                [("Hive", "HKEY_CURRENT_USER");
                 ("KeyPath", "Software\TestApp")] []) as [_ Hreg].
    destruct (Hreg _ _ registry_construction_run) as [_ Hone].
    exact (Hone _ eq_refl).
Defined.


Lemma validation_errors_only_at_construction_witness :
  (∃ e, filemon.FileMonitorAPI__init__ (os := os_quiet_then_signaled)
          "EveryChange" [("Path", "C:\watched")] ((), [])
          = (Raise e, ((), [])) ∧ is_validation_error e) ∧
  (∃ e, regmon.RegistryMonitorAPI__init__ (os := os_quiet_then_signaled)
          "UnionChange" [("Hive", "HKEY_USERS"); ("Key", "Software")] ((), [])
          = (Raise e, ((), [])) ∧ is_validation_error e) ∧
  ¬ is_validation_error TypeError ∧
  ¬ is_validation_error (RegistryMonitorError None).
Proof.
  split_and!.
  - destruct (validation_errors_only_at_construction
                (os := os_quiet_then_signaled)
                "EveryChange" [("Path", "C:\watched")] [])
      as (Hfile & _).
    apply Hfile. left. not_in_trace.
  - destruct (validation_errors_only_at_construction
                (os := os_quiet_then_signaled)
                "UnionChange" [("Hive", "HKEY_USERS"); ("Key", "Software")] [])
      as (_ & Hreg & _).
    apply Hreg. right. intros Hall.
    apply Forall_cons in Hall as [_ Hall].
    apply Forall_cons in Hall as [Hkey _].
    revert Hkey. not_in_trace.
  - destruct (validation_errors_only_at_construction
                (os := os_quiet_then_failed) "" [] [])
      as (_ & _ & Hupdate & _).
    apply (Hupdate 5%nat (sample_file_monitor, []) TypeError
             (sample_file_monitor,
              [WaitForSingleObject 200 0; WaitForSingleObject 200 0;
               CloseHandle (PStr "C:\watched")])).
    reflexivity.
  - destruct (validation_errors_only_at_construction
                (os := os_quiet_then_failed) "" [] [])
      as (_ & _ & _ & Hupdate).
    apply (Hupdate 5%nat (sample_registry_monitor, [])
             (RegistryMonitorError None)
             (sample_registry_monitor,
              [WaitForSingleObject 200 0; WaitForSingleObject 200 0;
               RegCloseKey 300; CloseHandle (PyHANDLE 200)])).
    reflexivity.
Defined.



Lemma missing_key_raises_KeyError_witness :
  filemon.FileMonitorAPI__init__ (os := os_quiet_then_signaled)
    "UnionChange" [] ((), []) = (Raise (KeyError "Path"), ((), [])) ∧
  regmon.RegistryMonitorAPI__init__ (os := os_quiet_then_signaled)
    "UnionChange" [("KeyPath", "Software")] ((), [])
    = (Raise (KeyError "Hive"), ((), [CreateEvent false false])) ∧
  regmon.RegistryMonitorAPI__init__ (os := os_quiet_then_signaled)
    "UnionChange" [("Hive", "HKEY_USERS")] ((), [])
    = (Raise (KeyError "KeyPath"), ((), [CreateEvent false false])).
Proof.
  split_and!.
  - destruct (missing_key_raises_KeyError (os := os_quiet_then_signaled)
                "UnionChange" [] []) as [Hfile _].
    apply Hfile; [by repeat constructor|constructor|not_in_trace].
  - destruct (missing_key_raises_KeyError (os := os_quiet_then_signaled)
                "UnionChange" [("KeyPath", "Software")] []) as [_ Hreg].
    destruct (Hreg 200) as [Hhive _];
      [by repeat constructor|by repeat constructor|reflexivity|discriminate|].
    apply Hhive. not_in_trace.
  - destruct (missing_key_raises_KeyError (os := os_quiet_then_signaled)
                "UnionChange" [("Hive", "HKEY_USERS")] []) as [_ Hreg].
    destruct (Hreg 200) as [_ Hkeypath];
      [by repeat constructor|by repeat constructor|reflexivity|discriminate|].
    apply Hkeypath; [by repeat constructor|not_in_trace].
Defined.

Lemma registry_update_writes_four_keys_witness :
  (∀ key, key ∉ ["Hive"; "KeyPath"; "Timestamp"; "EventType"] →
     regmon._event_properties
       (regmon.update (os := os_quiet_then_signaled) 5
          (sample_registry_monitor,
           [CreateEvent false false;
            RegOpenKeyEx (Some 2147483649) "Software\TestApp" 0 16;
            RegNotifyChangeKeyValue 300 true (Some 4) 200 true])).2.1 !! key
     = regmon._event_properties sample_registry_monitor !! key) ∧
  regmon._event_properties sample_registry_monitor !! "RootPath"
    = Some PNone ∧
  regmon._event_properties sample_registry_monitor !! "ValueName"
    = Some PNone ∧
  regmon._event_properties
    (regmon.update (os := os_quiet_then_signaled) 5
       (sample_registry_monitor,
        [CreateEvent false false;
         RegOpenKeyEx (Some 2147483649) "Software\TestApp" 0 16;
         RegNotifyChangeKeyValue 300 true (Some 4) 200 true])).2.1
    !! "RootPath" = Some PNone ∧
  regmon._event_properties
    (regmon.update (os := os_quiet_then_signaled) 5
       (sample_registry_monitor,
        [CreateEvent false false;
         RegOpenKeyEx (Some 2147483649) "Software\TestApp" 0 16;
         RegNotifyChangeKeyValue 300 true (Some 4) 200 true])).2.1
    !! "ValueName" = Some PNone.
Proof.
  apply (registry_update_writes_four_keys (os := os_quiet_then_signaled)
           "LastSetChange"
           [("Hive", "HKEY_CURRENT_USER"); ("KeyPath", "Software\TestApp")]
           []
           (sample_registry_monitor,
            [CreateEvent false false;
             RegOpenKeyEx (Some 2147483649) "Software\TestApp" 0 16;
             RegNotifyChangeKeyValue 300 true (Some 4) 200 true])
           5
           (regmon.update (os := os_quiet_then_signaled) 5
              (sample_registry_monitor,
               [CreateEvent false false;
                RegOpenKeyEx (Some 2147483649) "Software\TestApp" 0 16;
                RegNotifyChangeKeyValue 300 true (Some 4) 200 true])).1).
  - apply alive_init, registry_construction_run.
  - apply surjective_pairing.
Defined.

(** * Further properties of the native monitors *)

#[local] Opaque polls.

(** Bring a log to the form [t ++ polls h k ++ [c1; ...; cn]]. *)
Ltac flat := simpl; rewrite <- ?app_assoc; simpl.

(** Choose the disjunct an explicit exception belongs to. *)
Ltac pick :=
  first [ solve [ reflexivity
                | exists bad_argument; reflexivity
                | eexists (api_error _); reflexivity
                | eexists; reflexivity ]
        | left; pick
        | right; pick ].

Section native_monitors.
Context {os : Win32}.

(** X1: as long as every wait is answered by something other than
    [WAIT_OBJECT_0] and [WAIT_FAILED] ([WAIT_TIMEOUT], [WAIT_ABANDONED]),
    [update] of either monitor stays in its loop: after [k] turns it has
    issued [k] zero-timeout waits and nothing else, and the object is
    unchanged. *)
Theorem update_keeps_polling_while_quiet (k : nat) (t : Trace)
    (fself : filemon.FileMonitorAPI) (rself : regmon.RegistryMonitorAPI) :
  (quiet_until t (filemon._overlapped_hEvent fself) k →
   filemon.update k (fself, t) =
     (Spin, (fself, t ++ polls (filemon._overlapped_hEvent fself) k))) ∧
  (quiet_until t (regmon._event rself) k →
   regmon.update k (rself, t) =
     (Spin, (rself, t ++ polls (regmon._event rself) k))).
Proof.
  split; intros Hq.
  - replace k with (k + 0)%nat at 1 by lia.
    by rewrite file_update_polls.
  - replace k with (k + 0)%nat at 1 by lia.
    by rewrite reg_update_polls.
Qed.

(** X2: on a failed wait, [update] of the registry monitor closes the
    key with [RegCloseKey] and the event with [CloseHandle], in this
    order, and then raises [RegistryMonitorError()]; the object is
    unchanged. *)
Theorem registry_failed_wait_closes_key_and_event
    (self : regmon.RegistryMonitorAPI) (t : Trace) (k fuel : nat) :
  quiet_until t (regmon._event self) k →
  answer_int (t ++ polls (regmon._event self) (S k)) = inr WAIT_FAILED →
  WAIT_FAILED ≠ WAIT_OBJECT_0 →
  (k < fuel)%nat →
  answer_none
    (t ++ polls (regmon._event self) (S k) ++
     [RegCloseKey (regmon._key self)]) = inr () →
  answer_none
    (t ++ polls (regmon._event self) (S k) ++
     [RegCloseKey (regmon._key self);
      CloseHandle (PyHANDLE (regmon._event self))]) = inr () →
  regmon.update fuel (self, t) =
    (Raise (RegistryMonitorError None),
     (self,
      t ++ polls (regmon._event self) (S k) ++
      [RegCloseKey (regmon._key self);
       CloseHandle (PyHANDLE (regmon._event self))])).
Proof.
  intros Hq Hfail Hne Hlt Hkey Hevent.
  rewrite reg_update_enough_fuel with (k := k) by done.
  unfold regmon.update_body. step. rewrite <- polls_snoc, Hfail.
  destruct (decide (WAIT_FAILED = WAIT_OBJECT_0)); [done|].
  destruct (decide (WAIT_FAILED = WAIT_FAILED)); [|done].
  unfold regmon.update_failed, regmon.close. step.
  flat. rewrite Hkey. flat. rewrite Hevent. by flat.
Qed.

(** X3: when the wait itself raises instead of returning a result,
    [update] of either monitor lets the exception through as it is and
    closes nothing: the only calls it has issued are its polls. *)
Theorem update_propagates_a_raising_wait (k fuel : nat) (t : Trace)
    (e : pywin32_error)
    (fself : filemon.FileMonitorAPI) (rself : regmon.RegistryMonitorAPI) :
  (k < fuel)%nat →
  (quiet_until t (filemon._overlapped_hEvent fself) k →
   answer_int (t ++ polls (filemon._overlapped_hEvent fself) (S k)) = inl e →
   filemon.update fuel (fself, t) =
     (Raise (exn_of e),
      (fself, t ++ polls (filemon._overlapped_hEvent fself) (S k)))) ∧
  (quiet_until t (regmon._event rself) k →
   answer_int (t ++ polls (regmon._event rself) (S k)) = inl e →
   regmon.update fuel (rself, t) =
     (Raise (exn_of e), (rself, t ++ polls (regmon._event rself) (S k)))).
Proof.
  intros Hlt. split; intros Hq Hraise.
  - rewrite file_update_enough_fuel with (k := k) by done.
    unfold filemon.update_body. step. by rewrite <- polls_snoc, Hraise.
  - rewrite reg_update_enough_fuel with (k := k) by done.
    unfold regmon.update_body. step. by rewrite <- polls_snoc, Hraise.
Qed.

(** X4: an update that sees the event signaled and a transfer of [n]
    bytes, [n] not zero, stores the final path name of the directory
    handle as [Path], the name of the first change record as [FileName],
    the label of the action code of the first record as [EventType] and
    the clock value as [Timestamp]; the records after the first are not
    looked at, the buffer is decoded twice, and the other keys keep
    their values. *)
Theorem file_update_stores_first_record (self : filemon.FileMonitorAPI)
    (t : Trace) (k fuel : nat) (n ts : Z) (final_path : string)
    (code1 code2 : Z) (name1 name2 : string) (rest1 rest2 : list (Z * string)) :
  quiet_until t (filemon._overlapped_hEvent self) k →
  (k < fuel)%nat →
  n ≠ 0 →
  answer_int (t ++ polls (filemon._overlapped_hEvent self) (S k))
    = inr WAIT_OBJECT_0 →
  answer_int
    (t ++ polls (filemon._overlapped_hEvent self) (S k) ++
     [GetOverlappedResult (filemon._directory self)
        (filemon._overlapped_hEvent self) true]) = inr n →
  answer_int
    (t ++ polls (filemon._overlapped_hEvent self) (S k) ++
     [GetOverlappedResult (filemon._directory self)
        (filemon._overlapped_hEvent self) true;
      utcnow]) = inr ts →
  answer_str
    (t ++ polls (filemon._overlapped_hEvent self) (S k) ++
     [GetOverlappedResult (filemon._directory self)
        (filemon._overlapped_hEvent self) true;
      utcnow;
      GetFinalPathNameByHandle (filemon._directory self)
        FILE_NAME_NORMALIZED]) = inr final_path →
  answer_records
    (t ++ polls (filemon._overlapped_hEvent self) (S k) ++
     [GetOverlappedResult (filemon._directory self)
        (filemon._overlapped_hEvent self) true;
      utcnow;
      GetFinalPathNameByHandle (filemon._directory self)
        FILE_NAME_NORMALIZED;
      FILE_NOTIFY_INFORMATION n]) = inr ((code1, name1) :: rest1) →
  answer_records
    (t ++ polls (filemon._overlapped_hEvent self) (S k) ++
     [GetOverlappedResult (filemon._directory self)
        (filemon._overlapped_hEvent self) true;
      utcnow;
      GetFinalPathNameByHandle (filemon._directory self)
        FILE_NAME_NORMALIZED;
      FILE_NOTIFY_INFORMATION n;
      FILE_NOTIFY_INFORMATION n]) = inr ((code2, name2) :: rest2) →
  answer_none
    (t ++ polls (filemon._overlapped_hEvent self) (S k) ++
     [GetOverlappedResult (filemon._directory self)
        (filemon._overlapped_hEvent self) true;
      utcnow;
      GetFinalPathNameByHandle (filemon._directory self)
        FILE_NAME_NORMALIZED;
      FILE_NOTIFY_INFORMATION n;
      FILE_NOTIFY_INFORMATION n;
      filemon.watch_request self]) = inr () →
  ∃ self',
    filemon.update fuel (self, t) =
      (Ret (),
       (self',
        t ++ polls (filemon._overlapped_hEvent self) (S k) ++
        [GetOverlappedResult (filemon._directory self)
           (filemon._overlapped_hEvent self) true;
         utcnow;
         GetFinalPathNameByHandle (filemon._directory self)
           FILE_NAME_NORMALIZED;
         FILE_NOTIFY_INFORMATION n;
         FILE_NOTIFY_INFORMATION n;
         filemon.watch_request self])) ∧
    filemon._num_bytes_returned self' = n ∧
    filemon._event_properties self' !! "Path" = Some (PStr final_path) ∧
    filemon._event_properties self' !! "FileName" = Some (PStr name1) ∧
    filemon._event_properties self' !! "EventType"
      = Some (PStr (filemon.action_label code2)) ∧
    filemon._event_properties self' !! "Timestamp" = Some (PDatetime ts) ∧
    (∀ key, key ∉ ["Path"; "FileName"; "Timestamp"; "EventType"] →
       filemon._event_properties self' !! key
         = filemon._event_properties self !! key).
Proof.
  intros Hq Hlt Hn Hsig Hsize Hclock Hpath Hrec1 Hrec2 Harm.
  rewrite file_update_enough_fuel with (k := k) by done.
  unfold filemon.update_body. step. rewrite <- polls_snoc, Hsig.
  destruct (decide (WAIT_OBJECT_0 = WAIT_OBJECT_0)); [|done].
  unfold filemon.update_signaled, filemon._get_path, filemon._get_file_name,
    filemon._get_event_type, filemon._set_watcher, filemon.first_item,
    filemon.watch_request in *.
  step. flat. rewrite Hsize. flat. rewrite Hclock. flat.
  destruct (decide (n ≠ 0)); [|done].
  flat. rewrite Hpath. flat.
  destruct (decide (n ≠ 0)); [|done].
  flat. rewrite Hrec1. flat.
  destruct (decide (n ≠ 0)); [|done].
  flat. rewrite Hrec2. flat.
  rewrite Harm. flat.
  eexists. split; [reflexivity|].
  cbn [filemon._event_properties filemon.set_event_property
         filemon.set_num_bytes_returned filemon._num_bytes_returned].
  rewrite _ACTIONS_lookup.
  split_and!; [done|by simplify_map_eq..|].
  intros key Hkey. rewrite !lookup_insert_ne; [done|..];
    intros <-; apply Hkey; set_solver.
Qed.

(** X5: an update of the registry monitor that sees the event signaled
    stores the configured hive and key path, the configured filter as
    [EventType] and the clock value as [Timestamp]: nothing of what it
    stores comes from the notification itself.  Beside its polls it reads
    the clock and issues the watch request. *)
Theorem registry_update_stores_configuration
    (self : regmon.RegistryMonitorAPI) (t : Trace) (k fuel : nat) (ts : Z)
    (hive key_path : string) :
  quiet_until t (regmon._event self) k →
  (k < fuel)%nat →
  kwargs_get (regmon._kwargs self) "Hive" = inr hive →
  kwargs_get (regmon._kwargs self) "KeyPath" = inr key_path →
  answer_int (t ++ polls (regmon._event self) (S k)) = inr WAIT_OBJECT_0 →
  answer_int (t ++ polls (regmon._event self) (S k) ++ [utcnow]) = inr ts →
  answer_none
    (t ++ polls (regmon._event self) (S k) ++
     [utcnow; regmon.watch_request self]) = inr () →
  ∃ self',
    regmon.update fuel (self, t) =
      (Ret (),
       (self',
        t ++ polls (regmon._event self) (S k) ++
        [utcnow; regmon.watch_request self])) ∧
    regmon._event_properties self' !! "Hive" = Some (PStr hive) ∧
    regmon._event_properties self' !! "KeyPath" = Some (PStr key_path) ∧
    regmon._event_properties self' !! "EventType"
      = Some (PStr (regmon._notify_filter self)) ∧
    regmon._event_properties self' !! "Timestamp" = Some (PDatetime ts).
Proof.
  intros Hq Hlt Hhive Hkeypath Hsig Hclock Harm.
  rewrite reg_update_enough_fuel with (k := k) by done.
  unfold regmon.update_body. step. rewrite <- polls_snoc, Hsig.
  destruct (decide (WAIT_OBJECT_0 = WAIT_OBJECT_0)); [|done].
  unfold regmon.update_signaled, regmon._set_watcher,
    regmon.watch_request in *.
  step. flat. rewrite Hclock. flat. rewrite Hhive. flat.
  rewrite Hkeypath. flat. rewrite Harm. flat.
  eexists. split; [reflexivity|].
  cbn [regmon._event_properties regmon.set_event_property].
  split_and!; by simplify_map_eq.
Qed.

(** X6: when the operating system refuses the watch request of an update
    with the error code [w], [update] of the registry monitor raises
    [RegistryMonitorError] with the installation message carrying [w];
    the event dictionary has by then been overwritten with the new
    event, and the monitor is left without a pending watch request. *)
Theorem registry_update_refused_watch_request
    (self : regmon.RegistryMonitorAPI) (t : Trace) (k fuel : nat) (ts w : Z)
    (hive key_path : string) :
  quiet_until t (regmon._event self) k →
  (k < fuel)%nat →
  kwargs_get (regmon._kwargs self) "Hive" = inr hive →
  kwargs_get (regmon._kwargs self) "KeyPath" = inr key_path →
  answer_int (t ++ polls (regmon._event self) (S k)) = inr WAIT_OBJECT_0 →
  answer_int (t ++ polls (regmon._event self) (S k) ++ [utcnow]) = inr ts →
  answer_none
    (t ++ polls (regmon._event self) (S k) ++
     [utcnow; regmon.watch_request self]) = inl (api_error w) →
  ∃ self',
    regmon.update fuel (self, t) =
      (Raise (RegistryMonitorError (Some
         ("Watcher installation error.Invalid parameters. Error code: "
            +:+ pretty w +:+ "."))),
       (self',
        t ++ polls (regmon._event self) (S k) ++
        [utcnow; regmon.watch_request self])) ∧
    regmon._event_properties self' !! "Hive" = Some (PStr hive) ∧
    regmon._event_properties self' !! "KeyPath" = Some (PStr key_path) ∧
    regmon._event_properties self' !! "EventType"
      = Some (PStr (regmon._notify_filter self)) ∧
    regmon._event_properties self' !! "Timestamp" = Some (PDatetime ts).
Proof.
  intros Hq Hlt Hhive Hkeypath Hsig Hclock Harm.
  rewrite reg_update_enough_fuel with (k := k) by done.
  unfold regmon.update_body. step. rewrite <- polls_snoc, Hsig.
  destruct (decide (WAIT_OBJECT_0 = WAIT_OBJECT_0)); [|done].
  unfold regmon.update_signaled, regmon._set_watcher,
    regmon.watch_request in *.
  step. flat. rewrite Hclock. flat. rewrite Hhive. flat.
  rewrite Hkeypath. flat. rewrite Harm. flat.
  eexists. split; [reflexivity|].
  cbn [regmon._event_properties regmon.set_event_property].
  split_and!; by simplify_map_eq.
Qed.

Lemma file_update_signaled_exn (self : filemon.FileMonitorAPI) (t : Trace)
    e σ' :
  filemon.update_signaled (self, t) = (Raise e, σ') →
  e = IndexError ∨ ∃ e', e = exn_of e'.
Proof.
  unfold filemon.update_signaled, filemon._get_path, filemon._get_file_name,
    filemon._get_event_type, filemon._set_watcher, filemon.first_item.
  step. run_catch. all: intros [= <- <-]; pick.
Qed.

Lemma file_update_failed_exn (self : filemon.FileMonitorAPI) (t : Trace)
    e σ' :
  filemon.update_failed (self, t) = (Raise e, σ') →
  e = FileMonitorError None ∨ e = KeyError "Path" ∨ ∃ e', e = exn_of e'.
Proof.
  unfold filemon.update_failed, filemon.close. step. run_catch.
  all: intros [= <- <-]; pick.
Qed.

(** X7: every exception that leaves [update] of the file monitor is
    [FileMonitorError()] without a message (after a failed wait),
    [KeyError('Path')], [IndexError] (an empty list of change records),
    or an exception of pywin32 as it was raised: [update] never wraps an
    error of the operating system into a [FileMonitorError]. *)
Theorem file_update_exceptions (fuel : nat) σ (e : exn) σ' :
  filemon.update fuel σ = (Raise e, σ') →
  e = FileMonitorError None ∨ e = KeyError "Path" ∨ e = IndexError ∨
  ∃ e', e = exn_of e'.
Proof.
  destruct σ as [self t]. intros Hrun.
  apply file_update_inv in Hrun as (k & _ & _ & Hcases). simpl in Hcases.
  destruct Hcases as [(_ & [=] & _)|[_ Hcases]].
  destruct Hcases as [(e' & _ & [= ->] & _)|[[_ Hrun]|(_ & _ & Hrun)]].
  - eauto.
  - apply file_update_signaled_exn in Hrun as [->|?]; eauto.
  - apply file_update_failed_exn in Hrun as [->|[->|?]]; eauto.
Qed.

Lemma reg_update_signaled_exn (self : regmon.RegistryMonitorAPI) (t : Trace)
    e σ' :
  regmon.update_signaled (self, t) = (Raise e, σ') →
  (∃ w : Z, e = RegistryMonitorError (Some
          ("Watcher installation error.Invalid parameters. Error code: "
             +:+ pretty w +:+ "."))) ∨
  e = KeyError "Hive" ∨ e = KeyError "KeyPath" ∨ ∃ e', e = exn_of e'.
Proof.
  unfold regmon.update_signaled, regmon._set_watcher. step. run_catch.
  all: intros [= <- <-]; pick.
Qed.

Lemma reg_update_failed_exn (self : regmon.RegistryMonitorAPI) (t : Trace)
    e σ' :
  regmon.update_failed (self, t) = (Raise e, σ') →
  e = RegistryMonitorError None ∨ ∃ e', e = exn_of e'.
Proof.
  unfold regmon.update_failed, regmon.close. step. run_catch.
  all: intros [= <- <-]; pick.
Qed.

(** X8: every exception that leaves [update] of the registry monitor is
    [RegistryMonitorError()] without a message (after a failed wait),
    [RegistryMonitorError] with the installation message and the error
    code of a refused watch request, [KeyError('Hive')],
    [KeyError('KeyPath')], or an exception of pywin32 as it was
    raised. *)
Theorem registry_update_exceptions (fuel : nat) σ (e : exn) σ' :
  regmon.update fuel σ = (Raise e, σ') →
  e = RegistryMonitorError None ∨
  (∃ w : Z, e = RegistryMonitorError (Some
          ("Watcher installation error.Invalid parameters. Error code: "
             +:+ pretty w +:+ "."))) ∨
  e = KeyError "Hive" ∨ e = KeyError "KeyPath" ∨ ∃ e', e = exn_of e'.
Proof.
  destruct σ as [self t]. intros Hrun.
  apply reg_update_inv in Hrun as (k & _ & _ & Hcases). simpl in Hcases.
  destruct Hcases as [(_ & [=] & _)|[_ Hcases]].
  destruct Hcases as [(e' & _ & [= ->] & _)|[[_ Hrun]|(_ & _ & Hrun)]].
  - eauto 6.
  - apply reg_update_signaled_exn in Hrun as [?|[->|[->|?]]]; eauto 6.
  - apply reg_update_failed_exn in Hrun as [->|?]; eauto 6.
Qed.

(** X9: neither constructor ever releases a handle.  Whatever its
    outcome, a construction issues no [CloseHandle] and no [RegCloseKey];
    a construction that fails after a handle was opened leaves that
    handle open. *)
Theorem constructors_never_close (notify_filter : string) (kwargs : kwargs_t)
    (t : Trace) :
  (∀ o t',
     filemon.FileMonitorAPI__init__ notify_filter kwargs ((), t)
       = (o, ((), t')) →
     Forall (λ c, is_close c = false) (issued t t')) ∧
  (∀ o t',
     regmon.RegistryMonitorAPI__init__ notify_filter kwargs ((), t)
       = (o, ((), t')) →
     Forall (λ c, is_close c = false) (issued t t')).
Proof.
  split; intros o t'.
  - unfold filemon.FileMonitorAPI__init__, filemon.FileMonitor__init__,
      filemon._set_watcher, filemon.watch_request.
    step. run_catch.
    all: intros [= <- <-]; issued_norm; by repeat constructor.
  - unfold regmon.RegistryMonitorAPI__init__, regmon.RegistryMonitor__init__,
      regmon._set_watcher, regmon._get_hive_const, regmon.watch_request.
    step. run_catch.
    all: intros [= <- <-]; issued_norm; by repeat constructor.
Qed.

(** X10: how a construction of the file monitor with valid arguments
    fails.  A directory that cannot be opened gives [FileMonitorError]
    with the error code, after the single call [CreateFile]; an event
    handle that is null gives [FileMonitorError] with the directory
    already open; a refused first watch request leaves as the
    [pywintypes.error] it is, with directory, event and buffer
    created. *)
Theorem file_construction_failures (notify_filter : string)
    (kwargs : kwargs_t) (t : Trace) (path : string) (w directory hEvent : Z) :
  notify_filter ∈ filemon.valid_notify_filter →
  Forall (λ key, key ∈ filemon.valid_kwargs) kwargs.*1 →
  kwargs_get kwargs "Path" = inr path →
  (answer_handle
     (t ++ [CreateFile path FILE_LIST_DIRECTORY
              (Z.lor FILE_SHARE_READ FILE_SHARE_WRITE) OPEN_EXISTING
              (Z.lor FILE_FLAG_BACKUP_SEMANTICS FILE_FLAG_OVERLAPPED)])
     = inl (api_error w) →
   filemon.FileMonitorAPI__init__ notify_filter kwargs ((), t) =
     (Raise (FileMonitorError (Some
        ("Failed to open directory. Error code: " +:+ pretty w +:+ "."))),
      ((), t ++ [CreateFile path FILE_LIST_DIRECTORY
                   (Z.lor FILE_SHARE_READ FILE_SHARE_WRITE) OPEN_EXISTING
                   (Z.lor FILE_FLAG_BACKUP_SEMANTICS
                      FILE_FLAG_OVERLAPPED)]))) ∧
  (answer_handle
     (t ++ [CreateFile path FILE_LIST_DIRECTORY
              (Z.lor FILE_SHARE_READ FILE_SHARE_WRITE) OPEN_EXISTING
              (Z.lor FILE_FLAG_BACKUP_SEMANTICS FILE_FLAG_OVERLAPPED)])
     = inr directory →
   answer_handle
     (t ++ [CreateFile path FILE_LIST_DIRECTORY
              (Z.lor FILE_SHARE_READ FILE_SHARE_WRITE) OPEN_EXISTING
              (Z.lor FILE_FLAG_BACKUP_SEMANTICS FILE_FLAG_OVERLAPPED);
            CreateEvent false false]) = inr 0 →
   filemon.FileMonitorAPI__init__ notify_filter kwargs ((), t) =
     (Raise (FileMonitorError (Some "Failed to create event. Error code: 0.")),
      ((), t ++ [CreateFile path FILE_LIST_DIRECTORY
                   (Z.lor FILE_SHARE_READ FILE_SHARE_WRITE) OPEN_EXISTING
                   (Z.lor FILE_FLAG_BACKUP_SEMANTICS FILE_FLAG_OVERLAPPED);
                 CreateEvent false false]))) ∧
  (answer_handle
     (t ++ [CreateFile path FILE_LIST_DIRECTORY
              (Z.lor FILE_SHARE_READ FILE_SHARE_WRITE) OPEN_EXISTING
              (Z.lor FILE_FLAG_BACKUP_SEMANTICS FILE_FLAG_OVERLAPPED)])
     = inr directory →
   answer_handle
     (t ++ [CreateFile path FILE_LIST_DIRECTORY
              (Z.lor FILE_SHARE_READ FILE_SHARE_WRITE) OPEN_EXISTING
              (Z.lor FILE_FLAG_BACKUP_SEMANTICS FILE_FLAG_OVERLAPPED);
            CreateEvent false false]) = inr hEvent →
   hEvent ≠ 0 →
   answer_none
     (t ++ [CreateFile path FILE_LIST_DIRECTORY
              (Z.lor FILE_SHARE_READ FILE_SHARE_WRITE) OPEN_EXISTING
              (Z.lor FILE_FLAG_BACKUP_SEMANTICS FILE_FLAG_OVERLAPPED);
            CreateEvent false false;
            AllocateReadBuffer 1024]) = inr () →
   answer_none
     (t ++ [CreateFile path FILE_LIST_DIRECTORY
              (Z.lor FILE_SHARE_READ FILE_SHARE_WRITE) OPEN_EXISTING
              (Z.lor FILE_FLAG_BACKUP_SEMANTICS FILE_FLAG_OVERLAPPED);
            CreateEvent false false;
            AllocateReadBuffer 1024;
            ReadDirectoryChangesW directory true
              (filemon._get_notify_filter_const notify_filter) hEvent])
     = inl (api_error w) →
   filemon.FileMonitorAPI__init__ notify_filter kwargs ((), t) =
     (Raise (pywintypes_error w),
      ((), t ++ [CreateFile path FILE_LIST_DIRECTORY
                   (Z.lor FILE_SHARE_READ FILE_SHARE_WRITE) OPEN_EXISTING
                   (Z.lor FILE_FLAG_BACKUP_SEMANTICS FILE_FLAG_OVERLAPPED);
                 CreateEvent false false;
                 AllocateReadBuffer 1024;
                 ReadDirectoryChangesW directory true
                   (filemon._get_notify_filter_const notify_filter)
                   hEvent]))).
Proof.
  intros Hfilter Hkeys Hpath.
  unfold filemon.FileMonitorAPI__init__, filemon.FileMonitor__init__,
    filemon._set_watcher, filemon.watch_request.
  step. rewrite check_kwargs_valid by done. simpl.
  destruct (decide (notify_filter ∈ filemon.valid_notify_filter)); [|done].
  step. rewrite Hpath. simpl. split_and!.
  - intros ->. done.
  - intros -> Hevent. flat. rewrite Hevent. flat.
    by destruct (decide (0 = 0)).
  - intros -> Hevent Hnonzero Hbuffer Harm. flat. rewrite Hevent. flat.
    destruct (decide (hEvent = 0)); [done|].
    flat. rewrite Hbuffer. flat. rewrite Harm. by flat.
Qed.

(** X11: how a construction of the registry monitor with valid
    arguments fails once its event is created.  A key that cannot be
    opened gives [RegistryMonitorError] with the error code, a refused
    first watch request gives [RegistryMonitorError] with the error
    code; in both cases the event stays open, and in the second the key
    too.  The root key of the call is the constant [_get_hive_const]
    finds for the hive. *)
Theorem registry_construction_failures (notify_filter : string)
    (kwargs : kwargs_t) (t : Trace) (hive key_path : string)
    (w event key : Z) :
  notify_filter ∈ regmon.valid_notify_filter →
  Forall (λ key, key ∈ regmon.valid_kwargs) kwargs.*1 →
  kwargs_get kwargs "Hive" = inr hive →
  kwargs_get kwargs "KeyPath" = inr key_path →
  answer_handle (t ++ [CreateEvent false false]) = inr event →
  event ≠ 0 →
  ∃ root,
    regmon._get_hive_const kwargs ((), t) = (Ret root, ((), t)) ∧
    (answer_handle
       (t ++ [CreateEvent false false;
              RegOpenKeyEx root key_path 0 KEY_NOTIFY]) = inl (api_error w) →
     regmon.RegistryMonitorAPI__init__ notify_filter kwargs ((), t) =
       (Raise (RegistryMonitorError (Some
          ("Watcher installation error.Failed to open key. Error code: "
             +:+ pretty w +:+ "."))),
        ((), t ++ [CreateEvent false false;
                   RegOpenKeyEx root key_path 0 KEY_NOTIFY]))) ∧
    (answer_handle
       (t ++ [CreateEvent false false;
              RegOpenKeyEx root key_path 0 KEY_NOTIFY]) = inr key →
     answer_none
       (t ++ [CreateEvent false false;
              RegOpenKeyEx root key_path 0 KEY_NOTIFY;
              RegNotifyChangeKeyValue key true
                (regmon._get_notify_filter_const notify_filter) event true])
       = inl (api_error w) →
     regmon.RegistryMonitorAPI__init__ notify_filter kwargs ((), t) =
       (Raise (RegistryMonitorError (Some
          ("Watcher installation error.Invalid parameters. Error code: "
             +:+ pretty w +:+ "."))),
        ((), t ++ [CreateEvent false false;
                   RegOpenKeyEx root key_path 0 KEY_NOTIFY;
                   RegNotifyChangeKeyValue key true
                     (regmon._get_notify_filter_const notify_filter)
                     event true]))).
Proof.
  intros Hfilter Hkeys Hhive Hkeypath Hevent Hnonzero.
  unfold regmon.RegistryMonitorAPI__init__, regmon.RegistryMonitor__init__,
    regmon._set_watcher, regmon.watch_request, regmon._get_hive_const.
  step. rewrite check_kwargs_valid by done. simpl.
  destruct (decide (notify_filter ∈ regmon.valid_notify_filter)); [|done].
  step. rewrite Hevent. simpl.
  destruct (decide (event = 0)); [done|].
  step. rewrite Hhive. simpl.
  repeat match goal with
         | |- context [decide (hive = ?name)] =>
             destruct (decide (hive = name))
         end.
  all: simpl; rewrite Hkeypath; simpl; eexists; (split; [reflexivity|split]).
  all: intros Hopen; flat; rewrite Hopen; flat; try done.
  all: intros Harm; rewrite Harm; by flat.
Qed.

(** X12: the hive name is not validated.  With valid arguments and a
    hive name that is none of the five known ones, the constructor
    raises no error of its own: it creates its event and calls
    [RegOpenKeyEx] with [None] for the root key, and what follows is the
    operating system's answer to that call. *)
Theorem unknown_hive_is_passed_as_None (notify_filter : string)
    (kwargs : kwargs_t) (t : Trace) (hive key_path : string) (event : Z) :
  notify_filter ∈ regmon.valid_notify_filter →
  Forall (λ key, key ∈ regmon.valid_kwargs) kwargs.*1 →
  kwargs_get kwargs "Hive" = inr hive →
  kwargs_get kwargs "KeyPath" = inr key_path →
  hive ∉ ["HKEY_CLASSES_ROOT"; "HKEY_CURRENT_USER"; "HKEY_LOCAL_MACHINE";
          "HKEY_USERS"; "HKEY_CURRENT_CONFIG"] →
  answer_handle (t ++ [CreateEvent false false]) = inr event →
  event ≠ 0 →
  ∃ o t' rest,
    regmon.RegistryMonitorAPI__init__ notify_filter kwargs ((), t)
      = (o, ((), t')) ∧
    issued t t' =
      CreateEvent false false :: RegOpenKeyEx None key_path 0 KEY_NOTIFY
        :: rest ∧
    (answer_handle
       (t ++ [CreateEvent false false;
              RegOpenKeyEx None key_path 0 KEY_NOTIFY]) = inl bad_argument →
     o = Raise TypeError ∧ rest = []).
Proof.
  intros Hfilter Hkeys Hhive Hkeypath Hunknown Hevent Hnonzero.
  unfold regmon.RegistryMonitorAPI__init__, regmon.RegistryMonitor__init__,
    regmon._set_watcher, regmon.watch_request, regmon._get_hive_const.
  step. rewrite check_kwargs_valid by done. simpl.
  destruct (decide (notify_filter ∈ regmon.valid_notify_filter)); [|done].
  step. rewrite Hevent. simpl.
  destruct (decide (event = 0)); [done|].
  step. rewrite Hhive. simpl.
  repeat match goal with
         | |- context [decide (hive = ?name)] =>
             destruct (decide (hive = name));
             [exfalso; apply Hunknown; subst hive;
              rewrite !elem_of_cons; tauto|]
         end.
  simpl. rewrite Hkeypath. simpl. flat.
  match goal with
  | |- context [answer_handle ?l] =>
      destruct (answer_handle l) as [[w|]|key] eqn:Hopen
  end; flat.
  - do 3 eexists. split; [reflexivity|]. issued_norm. split; [done|].
    by intros [=].
  - do 3 eexists. split; [reflexivity|]. issued_norm. by split.
  - match goal with
    | |- context [answer_none ?l] =>
        destruct (answer_none l) as [[w|]|[]] eqn:Harm
    end; flat.
    all: do 3 eexists; (split; [reflexivity|]); issued_norm.
    all: split; [done|]; by intros [=].
Qed.

(** *** What a monitor keeps through its life *)

(** A key of the event dictionary stays a key. *)
Ltac keys_kept :=
  let key := fresh "key" in
  let Hkey := fresh "Hkey" in
  intros key Hkey;
  cbn [filemon._event_properties filemon.set_event_property
         filemon.set_num_bytes_returned
         regmon._event_properties regmon.set_event_property];
  repeat (apply lookup_insert_is_Some'; right); exact Hkey.

Lemma file_update_signaled_fields (self : filemon.FileMonitorAPI) (t : Trace)
    o self' t' :
  filemon.update_signaled (self, t) = (o, (self', t')) →
  filemon._notify_filter self' = filemon._notify_filter self ∧
  filemon._kwargs self' = filemon._kwargs self ∧
  filemon._directory self' = filemon._directory self ∧
  filemon._overlapped_hEvent self' = filemon._overlapped_hEvent self ∧
  (∀ key, is_Some (filemon._event_properties self !! key) →
     is_Some (filemon._event_properties self' !! key)).
Proof.
  unfold filemon.update_signaled, filemon._get_path, filemon._get_file_name,
    filemon._get_event_type, filemon._set_watcher, filemon.first_item.
  step. run.
  all: intros [= <- <- <-]; split_and!; try done; keys_kept.
Qed.

Lemma file_close_self (self : filemon.FileMonitorAPI) (t : Trace) o self' t' :
  filemon.close (self, t) = (o, (self', t')) → self' = self.
Proof. unfold filemon.close. step. run. all: by intros [= <- <- <-]. Qed.

Lemma file_update_fields (fuel : nat) (self : filemon.FileMonitorAPI)
    (t : Trace) o self' t' :
  filemon.update fuel (self, t) = (o, (self', t')) →
  filemon._notify_filter self' = filemon._notify_filter self ∧
  filemon._kwargs self' = filemon._kwargs self ∧
  filemon._directory self' = filemon._directory self ∧
  filemon._overlapped_hEvent self' = filemon._overlapped_hEvent self ∧
  (∀ key, is_Some (filemon._event_properties self !! key) →
     is_Some (filemon._event_properties self' !! key)).
Proof.
  intros Hrun. apply file_update_inv in Hrun as (k & _ & _ & Hcases).
  simpl in Hcases.
  destruct Hcases as [(_ & _ & [= -> _])|[_ Hcases]]; [done|].
  destruct Hcases as [(e & _ & _ & [= -> _])|[[_ Hrun]|(_ & _ & Hrun)]].
  - done.
  - by apply file_update_signaled_fields in Hrun.
  - by apply file_update_failed_spec in Hrun as [-> _].
Qed.

Lemma reg_update_signaled_fields (self : regmon.RegistryMonitorAPI)
    (t : Trace) o self' t' :
  regmon.update_signaled (self, t) = (o, (self', t')) →
  regmon._notify_filter self' = regmon._notify_filter self ∧
  regmon._kwargs self' = regmon._kwargs self ∧
  regmon._key self' = regmon._key self ∧
  regmon._event self' = regmon._event self ∧
  (∀ key, is_Some (regmon._event_properties self !! key) →
     is_Some (regmon._event_properties self' !! key)).
Proof.
  unfold regmon.update_signaled, regmon._set_watcher.
  step. run_catch.
  all: intros [= <- <- <-]; split_and!; try done; keys_kept.
Qed.

Lemma reg_update_fields (fuel : nat) (self : regmon.RegistryMonitorAPI)
    (t : Trace) o self' t' :
  regmon.update fuel (self, t) = (o, (self', t')) →
  regmon._notify_filter self' = regmon._notify_filter self ∧
  regmon._kwargs self' = regmon._kwargs self ∧
  regmon._key self' = regmon._key self ∧
  regmon._event self' = regmon._event self ∧
  (∀ key, is_Some (regmon._event_properties self !! key) →
     is_Some (regmon._event_properties self' !! key)).
Proof.
  intros Hrun. apply reg_update_inv in Hrun as (k & _ & _ & Hcases).
  simpl in Hcases.
  destruct Hcases as [(_ & _ & [= -> _])|[_ Hcases]]; [done|].
  destruct Hcases as [(e & _ & _ & [= -> _])|[[_ Hrun]|(_ & _ & Hrun)]].
  - done.
  - by apply reg_update_signaled_fields in Hrun.
  - by apply reg_update_failed_spec in Hrun as [-> _].
Qed.

(** The object of a living file monitor against the one the constructor
    returned. *)
Lemma file_alive_fields (notify_filter : string) (kwargs : kwargs_t)
    (t0 : Trace) σ :
  file_alive notify_filter kwargs t0 σ →
  ∃ self0 t1,
    filemon.FileMonitorAPI__init__ notify_filter kwargs ((), t0)
      = (Ret self0, ((), t1)) ∧
    filemon._notify_filter σ.1 = notify_filter ∧
    filemon._kwargs σ.1 = kwargs ∧
    filemon._directory σ.1 = filemon._directory self0 ∧
    filemon._overlapped_hEvent σ.1 = filemon._overlapped_hEvent self0 ∧
    (∀ key, is_Some (filemon.initial_event_properties !! key) →
       is_Some (filemon._event_properties σ.1 !! key)).
Proof.
  induction 1 as [self t Hinit|fuel [self t] o [self' t'] _ IH Hrun
                 |[self t] o [self' t'] _ IH Hclose].
  - exists self, t. split; [done|].
    apply file_init_ret in Hinit
      as (? & _ & _ & _ & Hprops & Hkw & Hnf & _).
    simpl. by rewrite Hprops.
  - destruct IH as (self0 & t1 & Hinit & Hnf & Hkw & Hdir & Hev & Hkeys).
    apply file_update_fields in Hrun as (Hnf' & Hkw' & Hdir' & Hev' & Hkeys').
    exists self0, t1. simpl in *.
    split_and!; try congruence. intros key Hkey. by apply Hkeys', Hkeys.
  - apply file_close_self in Hclose as ->. done.
Qed.

Lemma reg_alive_fields (notify_filter : string) (kwargs : kwargs_t)
    (t0 : Trace) σ :
  alive notify_filter kwargs t0 σ →
  ∃ self0 t1,
    regmon.RegistryMonitorAPI__init__ notify_filter kwargs ((), t0)
      = (Ret self0, ((), t1)) ∧
    regmon._notify_filter σ.1 = notify_filter ∧
    regmon._kwargs σ.1 = kwargs ∧
    regmon._key σ.1 = regmon._key self0 ∧
    regmon._event σ.1 = regmon._event self0 ∧
    (∀ key, is_Some (regmon.initial_event_properties !! key) →
       is_Some (regmon._event_properties σ.1 !! key)).
Proof.
  induction 1 as [self t Hinit|fuel [self t] o [self' t'] _ IH Hrun
                 |[self t] o [self' t'] _ IH Hclose].
  - exists self, t. split; [done|].
    apply reg_init_ret in Hinit
      as (? & ? & ? & _ & _ & _ & _ & Hprops & Hkw & Hnf).
    simpl. by rewrite Hprops.
  - destruct IH as (self0 & t1 & Hinit & Hnf & Hkw & Hkey & Hev & Hkeys).
    apply reg_update_fields in Hrun as (Hnf' & Hkw' & Hkey' & Hev' & Hkeys').
    exists self0, t1. simpl in *.
    split_and!; try congruence. intros key Hk. by apply Hkeys', Hkeys.
  - apply reg_close_self in Hclose as ->. done.
Qed.

Lemma file_filter_const_valid (notify_filter : string) :
  notify_filter ∈ filemon.valid_notify_filter →
  ∃ c, filemon._get_notify_filter_const notify_filter = Some c.
Proof.
  intros Hin. unfold filemon._get_notify_filter_const.
  repeat (destruct (decide _); [by eexists|]).
  exfalso. revert Hin. not_in_trace.
Qed.

Lemma reg_filter_const_valid (notify_filter : string) :
  notify_filter ∈ regmon.valid_notify_filter →
  ∃ c, regmon._get_notify_filter_const notify_filter = Some c.
Proof.
  intros Hin. unfold regmon._get_notify_filter_const.
  repeat (destruct (decide _); [by eexists|]).
  exfalso. revert Hin. not_in_trace.
Qed.

(** X13: every watch request of a file monitor's life is the one its
    construction issued.  The last call of each returning [update] is
    [ReadDirectoryChangesW] on the directory handle and the event the
    constructor created, for the whole subtree, with the constant of
    the configured filter, which is never [None]. *)
Theorem file_monitor_rearms_as_constructed (notify_filter : string)
    (kwargs : kwargs_t) (t0 : Trace) σ (fuel : nat) σ' :
  file_alive notify_filter kwargs t0 σ →
  filemon.update fuel σ = (Ret (), σ') →
  ∃ self0 t1 c,
    filemon.FileMonitorAPI__init__ notify_filter kwargs ((), t0)
      = (Ret self0, ((), t1)) ∧
    filemon._get_notify_filter_const notify_filter = Some c ∧
    last (issued t0 t1) =
      Some (ReadDirectoryChangesW (filemon._directory self0) true (Some c)
              (filemon._overlapped_hEvent self0)) ∧
    last (issued σ.2 σ'.2) =
      Some (ReadDirectoryChangesW (filemon._directory self0) true (Some c)
              (filemon._overlapped_hEvent self0)).
Proof.
  intros Halive Hrun. destruct σ as [self t], σ' as [self' t'].
  apply file_alive_fields in Halive
    as (self0 & t1 & Hinit & Hnf & Hkw & Hdir & Hev & _).
  simpl in *.
  pose proof Hinit as Hret. apply file_init_ret in Hret
    as (path & _ & Hvalid & Hissued & _ & _ & Hnf0 & _).
  destruct (file_filter_const_valid _ Hvalid) as [c Hc].
  exists self0, t1, c. split; [done|]. split; [done|]. split.
  - rewrite Hissued. unfold filemon.watch_request. simpl.
    by rewrite Hnf0, Hc.
  - apply file_update_spec in Hrun
      as (n & new & -> & _ & _ & _ & Hret & _).
    destruct Hret as [_ Hlast]; [done|].
    rewrite issued_app, last_app, Hlast.
    unfold filemon.watch_request. by rewrite Hnf, Hc, Hdir, Hev.
Qed.

(** X14: every watch request of a registry monitor's life is the one its
    construction issued: the last call of each returning [update] is
    [RegNotifyChangeKeyValue] on the key and the event the constructor
    opened, for the whole subtree, asynchronous, with the constant of
    the configured filter, which is never [None]. *)
Theorem registry_monitor_rearms_as_constructed (notify_filter : string)
    (kwargs : kwargs_t) (t0 : Trace) σ (fuel : nat) σ' :
  alive notify_filter kwargs t0 σ →
  regmon.update fuel σ = (Ret (), σ') →
  ∃ self0 t1 c,
    regmon.RegistryMonitorAPI__init__ notify_filter kwargs ((), t0)
      = (Ret self0, ((), t1)) ∧
    regmon._get_notify_filter_const notify_filter = Some c ∧
    last (issued t0 t1) =
      Some (RegNotifyChangeKeyValue (regmon._key self0) true (Some c)
              (regmon._event self0) true) ∧
    last (issued σ.2 σ'.2) =
      Some (RegNotifyChangeKeyValue (regmon._key self0) true (Some c)
              (regmon._event self0) true).
Proof.
  intros Halive Hrun. destruct σ as [self t], σ' as [self' t'].
  apply reg_alive_fields in Halive
    as (self0 & t1 & Hinit & Hnf & Hkw & Hkey & Hev & _).
  simpl in *.
  pose proof Hinit as Hret. apply reg_init_ret in Hret
    as (? & ? & ? & _ & _ & Hvalid & Hissued & _ & _ & Hnf0).
  destruct (reg_filter_const_valid _ Hvalid) as [c Hc].
  exists self0, t1, c. split; [done|]. split; [done|]. split.
  - rewrite Hissued. unfold regmon.watch_request. simpl.
    by rewrite Hnf0, Hc.
  - apply reg_update_spec in Hrun
      as (n & new & -> & _ & _ & _ & Hret & _).
    destruct Hret as [_ Hlast]; [done|].
    rewrite issued_app, last_app, Hlast.
    unfold regmon.watch_request. by rewrite Hnf, Hc, Hkey, Hev.
Qed.

Lemma reg_update_signaled_no_KeyError (self : regmon.RegistryMonitorAPI)
    (t : Trace) (hive key_path : string) e σ' :
  kwargs_get (regmon._kwargs self) "Hive" = inr hive →
  kwargs_get (regmon._kwargs self) "KeyPath" = inr key_path →
  regmon.update_signaled (self, t) = (Raise e, σ') →
  ∀ key, e ≠ KeyError key.
Proof.
  intros Hhive Hkeypath.
  unfold regmon.update_signaled, regmon._set_watcher.
  step. rewrite Hhive, Hkeypath. run_catch.
  all: by intros [= <- <-].
Qed.

(** X15: a monitor that was constructed never raises [KeyError] from
    [update]: the keys [update] and [close] look up in the keyword
    arguments ([Hive] and [KeyPath], [Path]) were looked up by the
    constructor already, and the keyword arguments never change. *)
Theorem constructed_monitor_update_no_KeyError (notify_filter : string)
    (kwargs : kwargs_t) (t0 : Trace) (fuel : nat) :
  (∀ σ e σ',
     file_alive notify_filter kwargs t0 σ →
     filemon.update fuel σ = (Raise e, σ') → ∀ key, e ≠ KeyError key) ∧
  (∀ σ e σ',
     alive notify_filter kwargs t0 σ →
     regmon.update fuel σ = (Raise e, σ') → ∀ key, e ≠ KeyError key).
Proof.
  split; intros [self t] e σ' Halive Hrun key.
  - apply file_alive_fields in Halive
      as (self0 & t1 & Hinit & _ & Hkw & _).
    apply file_init_ret in Hinit as (path & Hpath & _). simpl in Hkw.
    apply file_update_inv in Hrun as (k & _ & _ & Hcases). simpl in Hcases.
    destruct Hcases as [(_ & [=] & _)|[_ Hcases]].
    destruct Hcases as [(e' & _ & [= ->] & _)|[[_ Hrun]|(_ & _ & Hrun)]].
    + by destruct e'.
    + apply file_update_signaled_exn in Hrun as [->|[e' ->]];
        [done|by destruct e'].
    + revert Hrun. unfold filemon.update_failed, filemon.close. step.
      rewrite Hkw, Hpath. run_catch. all: by intros [= <- <-].
  - apply reg_alive_fields in Halive
      as (self0 & t1 & Hinit & _ & Hkw & _).
    apply reg_init_ret in Hinit as (hive & key_path & ? & Hhive & Hkeypath & _).
    simpl in Hkw. rewrite <- Hkw in Hhive, Hkeypath.
    apply reg_update_inv in Hrun as (k & _ & _ & Hcases). simpl in Hcases.
    destruct Hcases as [(_ & [=] & _)|[_ Hcases]].
    destruct Hcases as [(e' & _ & [= ->] & _)|[[_ Hrun]|(_ & _ & Hrun)]].
    + by destruct e'.
    + by eapply reg_update_signaled_no_KeyError.
    + apply reg_update_failed_exn in Hrun as [->|[e' ->]];
        [done|by destruct e'].
Qed.

(** X16: right after construction every property of a monitor reads
    [None]: the six of the file monitor and the six of the registry
    monitor. *)
Theorem properties_are_None_after_construction (notify_filter : string)
    (kwargs : kwargs_t) (t : Trace) :
  (∀ self t',
     filemon.FileMonitorAPI__init__ notify_filter kwargs ((), t)
       = (Ret self, ((), t')) →
     Forall (λ property, property (filemon._event_properties self) = inr PNone)
       [FileMonitor.drive; FileMonitor.path; FileMonitor.file_name;
        FileMonitor.extension; FileMonitor.timestamp;
        FileMonitor.event_type]) ∧
  (∀ self t',
     regmon.RegistryMonitorAPI__init__ notify_filter kwargs ((), t)
       = (Ret self, ((), t')) →
     Forall (λ property, property (regmon._event_properties self) = inr PNone)
       [RegistryMonitor.hive; RegistryMonitor.root_path;
        RegistryMonitor.key_path; RegistryMonitor.value_name;
        RegistryMonitor.timestamp; RegistryMonitor.event_type]).
Proof.
  split; intros self t' Hinit.
  - apply file_init_ret in Hinit as (? & _ & _ & _ & -> & _).
    by repeat constructor.
  - apply reg_init_ret in Hinit as (? & ? & ? & _ & _ & _ & _ & -> & _).
    by repeat constructor.
Qed.

Lemma event_property_is_Some (props : gmap string pyval) (key : string) :
  is_Some (props !! key) → ∃ v, event_property props key = inr v.
Proof. intros [v Hv]. exists v. unfold event_property. by rewrite Hv. Qed.

(** X17: no property of a constructed monitor ever raises: through
    construction, updates and closes, whatever their outcome, the six
    keys the properties read stay in the event dictionary. *)
Theorem properties_never_raise (notify_filter : string)
    (kwargs : kwargs_t) (t0 : Trace) :
  (∀ σ, file_alive notify_filter kwargs t0 σ →
     Forall (λ property,
               ∃ v, property (filemon._event_properties σ.1) = inr v)
       [FileMonitor.drive; FileMonitor.path; FileMonitor.file_name;
        FileMonitor.extension; FileMonitor.timestamp;
        FileMonitor.event_type]) ∧
  (∀ σ, alive notify_filter kwargs t0 σ →
     Forall (λ property,
               ∃ v, property (regmon._event_properties σ.1) = inr v)
       [RegistryMonitor.hive; RegistryMonitor.root_path;
        RegistryMonitor.key_path; RegistryMonitor.value_name;
        RegistryMonitor.timestamp; RegistryMonitor.event_type]).
Proof.
  split; intros σ Halive.
  - apply file_alive_fields in Halive as (? & ? & _ & _ & _ & _ & _ & Hkeys).
    repeat constructor; apply event_property_is_Some, Hkeys; by eexists.
  - apply reg_alive_fields in Halive as (? & ? & _ & _ & _ & _ & _ & Hkeys).
    repeat constructor; apply event_property_is_Some, Hkeys; by eexists.
Qed.

End native_monitors.

(** * Properties of [util.py] *)

Lemma string_length_app (a b : string) :
  String.length (a +:+ b) = (String.length a + String.length b)%nat.
Proof. induction a as [|c a IH]; simpl; [done|]. by rewrite IH. Qed.

Lemma length_substring (n m : nat) (s : string) :
  String.length (String.substring n m s) = Nat.min m (String.length s - n).
Proof.
  revert n m. induction s as [|c s IH]; intros [|n] [|m]; simpl;
    rewrite ?IH, ?Nat.sub_0_r.
  all: try lia.
  destruct (String.length s - n)%nat; lia.
Qed.

(** Split a string of known length into its characters. *)
Ltac explode_strings :=
  repeat match goal with
         | H : String.length ?s = _ |- _ =>
             is_var s; destruct s; simpl in H;
             [try discriminate H|try discriminate H; try injection H as H]
         end.

(** X18: on a CIM date and time [yyyymmddHHMMSS...] the function
    returns [dd/mm/yyyy HH:MM:SS]: the first fourteen characters,
    regrouped, and nothing of what follows them (the fraction of the
    second and the offset to UTC). *)
Theorem date_time_format_fields
    (year month day hour minutes seconds rest : string) :
  String.length year = 4%nat →
  String.length month = 2%nat →
  String.length day = 2%nat →
  String.length hour = 2%nat →
  String.length minutes = 2%nat →
  String.length seconds = 2%nat →
  util.date_time_format
    (WStr (year +:+ month +:+ day +:+ hour +:+ minutes +:+ seconds +:+ rest))
  = inr (day +:+ "/" +:+ month +:+ "/" +:+ year +:+ " " +:+ hour
           +:+ ":" +:+ minutes +:+ ":" +:+ seconds).
Proof.
  intros Hy Hmo Hd Hh Hmi Hs. explode_strings.
  unfold util.date_time_format, util.slice. simpl.
  by destruct rest.
Qed.

(** X19: the function checks nothing about a string it is given.  On
    an ASCII string, whatever its length and content, it never raises
    and returns the five separators together with as many characters as
    the string has among its first fourteen, so that the result has its
    nineteen characters only from fourteen on; the empty string gives
    just the separators, [// ::]. *)
Theorem date_time_format_length (s : string) :
  util.is_ascii s →
  ∃ formatted,
    util.date_time_format (WStr s) = inr formatted ∧
    String.length formatted = (5 + Nat.min 14 (String.length s))%nat ∧
    (s = "" → formatted = "// ::").
Proof.
  intros _. eexists. split; [reflexivity|]. split.
  - unfold util.slice.
    rewrite !string_length_app, !length_substring. cbn [String.length]. lia.
  - by intros ->.
Qed.

(** * Properties of the monitors built on the wmi package *)

Lemma kwargs_get_inl_missing (kwargs : kwargs_t) (key : string) (e : exn) :
  kwargs_get kwargs key = inl e → key ∉ kwargs.*1.
Proof.
  intros Hget Hin. apply kwargs_get_present in Hin as [v Hv]. congruence.
Qed.

Lemma lookup_all_inl (kwargs : kwargs_t) (keys : list string) (e : exn) :
  wmimon.lookup_all kwargs keys = inl e →
  ∃ key, key ∈ keys ∧ (key ∉ kwargs.*1) ∧ e = KeyError key.
Proof.
  induction keys as [|key keys IH]; simpl; [done|].
  destruct (kwargs_get kwargs key) as [e'|v] eqn:Hget.
  - intros [= <-]. exists key. split; [by left|].
    split; [by eapply kwargs_get_inl_missing|by eapply kwargs_get_inl].
  - destruct (wmimon.lookup_all kwargs keys) as [e'|rest]; [|done].
    intros [= <-]. destruct IH as (key' & Hin & Hmiss & ->); [done|].
    exists key'. split; [by right|done].
Qed.

Lemma lookup_all_inr (kwargs : kwargs_t) (keys : list string)
    (where_clause : kwargs_t) :
  wmimon.lookup_all kwargs keys = inr where_clause →
  where_clause.*1 = keys ∧
  Forall (λ kv, kwargs_get kwargs kv.1 = inr kv.2) where_clause.
Proof.
  revert where_clause. induction keys as [|key keys IH]; simpl.
  - by intros ? [= <-].
  - intros where_clause.
    destruct (kwargs_get kwargs key) as [e'|v] eqn:Hget; [done|].
    destruct (wmimon.lookup_all kwargs keys) as [e'|rest]; [done|].
    intros [= <-]. destruct (IH rest) as [Hkeys Hall]; [done|].
    split; [by rewrite fmap_cons, Hkeys|]. by constructor.
Qed.

Lemma lookup_all_present (kwargs : kwargs_t) (keys : list string) :
  Forall (λ key, key ∈ kwargs.*1) keys →
  ∃ where_clause, wmimon.lookup_all kwargs keys = inr where_clause.
Proof.
  induction 1 as [|key keys Hkey _ IH]; simpl; [by eexists|].
  apply kwargs_get_present in Hkey as [v ->].
  destruct IH as [rest ->]. by eexists.
Qed.

(** Unfolding of the computations over the log of wmi calls. *)
Ltac wstep :=
  unfold wbind, wget_self, wmodify_self, wret, wraise, wlift, wcall,
    try_except_x_wmi, wmimon.call_watcher; simpl.

Ltac wrun_step :=
  match goal with
  | |- context [check_kwargs ?v ?k ?e] =>
      let H := fresh "Hcheck" in
      destruct (check_kwargs v k e) as [?|[]] eqn:H;
      [pose proof (check_kwargs_inl _ _ _ _ H) as ->|]
  | |- context [wmimon.lookup_all ?k ?l] =>
      let H := fresh "Hlookup" in
      destruct (wmimon.lookup_all k l) eqn:H;
      [let Hkey := fresh "Hkey" in
       pose proof (lookup_all_inl _ _ _ H) as (? & _ & _ & ->)|]
  | |- context [kwargs_get ?k ?key] =>
      let H := fresh "Hget" in
      destruct (kwargs_get k key) eqn:H;
      [pose proof (kwargs_get_inl _ _ _ H) as ->|]
  | |- context [answer_WMI ?t] => destruct (answer_WMI t) as [?|[]] eqn:?
  | |- context [answer_watch_for ?t] =>
      destruct (answer_watch_for t) as [?|[]] eqn:?
  | |- context [decide ?P] => destruct (decide P)
  end.
Ltac wrun := simpl; repeat (wrun_step; simpl).

Section wmi_monitors.
Context {wmi : Wmi}.
Import wmimon.

(** X20: the three constructors check their arguments before they touch
    the wmi package.  A keyword argument outside the allowed keys, a
    filter outside the allowed filters or, for the file monitor, an
    object outside [File] and [Directory] makes the constructor raise
    the error of its module with a message and with no call issued. *)
Theorem wmi_constructors_validate_first (notify_obj notify_filter : string)
    (kwargs : kwargs_t) (t : list WmiCall) :
  (¬ Forall (λ key, key ∈ filemon.valid_kwargs) kwargs.*1 ∨
   notify_filter ∉ FileMonitorWMI_valid_notify_filter ∨
   notify_obj ∉ FileMonitorWMI_valid_notify_obj →
   ∃ message,
     FileMonitorWMI__init__ notify_obj notify_filter kwargs ((), t)
       = (WRaise (Py (FileMonitorError (Some message))), ((), t))) ∧
  (¬ Forall (λ key, key ∈ regmon.valid_kwargs) kwargs.*1 ∨
   notify_filter ∉ RegistryMonitorWMI_valid_notify_filter →
   ∃ message,
     RegistryMonitorWMI__init__ notify_filter kwargs ((), t)
       = (WRaise (Py (RegistryMonitorError (Some message))), ((), t))) ∧
  (notify_filter ∉ ProcessMonitor_valid_notify_filter →
   ∃ message,
     ProcessMonitor__init__ notify_filter ((), t)
       = (WRaise (ProcMonitorError (Some message)), ((), t))).
Proof.
  split_and!.
  - intros Hbad. unfold FileMonitorWMI__init__, FileMonitor__init__. wstep.
    destruct (decide (Forall (λ key, key ∈ filemon.valid_kwargs) kwargs.*1))
      as [Hkeys|Hkeys];
      [|rewrite check_kwargs_invalid by done; by eexists].
    rewrite check_kwargs_valid by done. simpl.
    destruct (decide (notify_filter ∈ FileMonitorWMI_valid_notify_filter));
      [|by eexists].
    destruct (decide (notify_obj ∈ FileMonitorWMI_valid_notify_obj));
      [|by eexists].
    by destruct Hbad as [?|[?|?]].
  - intros Hbad.
    unfold RegistryMonitorWMI__init__, RegistryMonitor__init__. wstep.
    destruct (decide (Forall (λ key, key ∈ regmon.valid_kwargs) kwargs.*1))
      as [Hkeys|Hkeys];
      [|rewrite check_kwargs_invalid by done; by eexists].
    rewrite check_kwargs_valid by done. simpl.
    destruct (decide (notify_filter ∈ RegistryMonitorWMI_valid_notify_filter));
      [|by eexists].
    by destruct Hbad as [?|?].
  - intros Hbad. unfold ProcessMonitor__init__.
    destruct (decide (notify_filter ∈ ProcessMonitor_valid_notify_filter));
      [done|by eexists].
Qed.

(** A membership in an explicit list, by cases. *)
Ltac cases_of H :=
  unfold FileMonitorWMI_valid_notify_obj, FileMonitorWMI_valid_notify_filter,
    RegistryMonitorWMI_valid_notify_filter in H;
  rewrite ?elem_of_cons, ?elem_of_nil in H; destruct_or?; try done.

(** X21: the last branch of the two constructors, which raises the bare
    message [Watcher installation error.], is never taken: the object
    and the filter it dispatches on have passed the validation that
    precedes it. *)
Theorem wmi_constructors_last_branch_unreachable
    (notify_obj notify_filter : string) (kwargs : kwargs_t)
    (t : list WmiCall) :
  (∀ o σ',
     FileMonitorWMI__init__ notify_obj notify_filter kwargs ((), t)
       = (o, σ') →
     o ≠ WRaise (Py (FileMonitorError (Some "Watcher installation error.")))) ∧
  (∀ o σ',
     RegistryMonitorWMI__init__ notify_filter kwargs ((), t) = (o, σ') →
     o ≠ WRaise (Py (RegistryMonitorError
                       (Some "Watcher installation error.")))).
Proof.
  split; intros o σ'.
  - unfold FileMonitorWMI__init__, FileMonitor__init__,
      watcher_installation_message. wstep. wrun.
    all: try (intros [= <- <-]; discriminate).
    all: match goal with H : _ ∈ FileMonitorWMI_valid_notify_obj |- _ => cases_of H end.
  - unfold RegistryMonitorWMI__init__, RegistryMonitor__init__,
      watch_registry_event, watcher_installation_message. wstep. wrun.
    all: try (intros [= <- <-]; discriminate).
    all: match goal with
         | H : _ ∈ RegistryMonitorWMI_valid_notify_filter |- _ => cases_of H
         end.
Qed.

#[local] Opaque lookup_all.

(** X22: for each of its three filters the registry monitor asks the
    WMI class of that filter for a watcher with exactly the keyword
    arguments the filter needs, in the order of the call, each with the
    value the constructor was given; the other arguments of the
    constructor are not forwarded.  An [x_wmi] of that call becomes the
    error of the module with the code of the COM error. *)
Theorem registry_wmi_watch_request (notify_filter wmi_class : string)
    (keys : list string) (kwargs : kwargs_t) (t : list WmiCall) :
  (notify_filter, wmi_class, keys) ∈
    [("TreeChange", "RegistryTreeChangeEvent", ["Hive"; "RootPath"]);
     ("KeyChange", "RegistryKeyChangeEvent", ["Hive"; "KeyPath"]);
     ("ValueChange", "RegistryValueChangeEvent",
      ["Hive"; "KeyPath"; "ValueName"])] →
  Forall (λ key, key ∈ regmon.valid_kwargs) kwargs.*1 →
  answer_WMI (t ++ [WMI (Some "root/DEFAULT")]) = inr () →
  Forall (λ key, key ∈ kwargs.*1) keys →
  ∃ o where_clause,
    let t' := t ++ [WMI (Some "root/DEFAULT");
                    watch_for wmi_class None where_clause] in
    RegistryMonitorWMI__init__ notify_filter kwargs ((), t) = (o, ((), t')) ∧
    where_clause.*1 = keys ∧
    Forall (λ kv, kwargs_get kwargs kv.1 = inr kv.2) where_clause ∧
    match answer_watch_for t' with
    | inr _ =>
        ∃ self, o = WRet self ∧ _notify_filter self = notify_filter ∧
                _kwargs self = kwargs
    | inl hresult =>
        o = WRaise (Py (RegistryMonitorError
                          (Some (watcher_installation_message hresult))))
    end.
Proof.
  intros Hrow Hvalid Hwmi Hpresent.
  destruct (lookup_all_present _ _ Hpresent) as [where_clause Hwhere].
  destruct (lookup_all_inr _ _ _ Hwhere) as [Hkeys Hvalues].
  exists
    (match answer_watch_for
             (t ++ [WMI (Some "root/DEFAULT");
                    watch_for wmi_class None where_clause]) with
     | inr _ =>
         WRet {| _notify_filter := notify_filter; _kwargs := kwargs;
                 _event_properties :=
                   <["EventType" := WNone]> (<["Timestamp" := WNone]>
                   (<["ValueName" := WNone]> (<["KeyPath" := WNone]>
                   (<["RootPath" := WNone]> (<["Hive" := WNone]> ∅))))) |}
     | inl hresult =>
         WRaise (Py (RegistryMonitorError
                       (Some (watcher_installation_message hresult))))
     end), where_clause.
  rewrite !elem_of_cons, elem_of_nil in Hrow.
  unfold RegistryMonitorWMI__init__, RegistryMonitor__init__,
    watch_registry_event.
  rewrite check_kwargs_valid by done.
  destruct Hrow as [[= -> -> ->]|[[= -> -> ->]|[[= -> -> ->]|[]]]].
  all: wstep; rewrite Hwmi; simpl; rewrite Hwhere; simpl.
  all: rewrite <- !app_assoc; simpl.
  all: destruct (answer_watch_for _) as [hresult|[]]; simpl.
  all: split_and!; try done; by eexists.
Qed.

(** X23: a keyword argument that the chosen filter needs and the caller
    did not give is not detected by the validation.  The constructor
    connects to WMI first and then raises [KeyError] of such a key,
    with no watcher requested. *)
Theorem registry_wmi_missing_keyword (notify_filter wmi_class : string)
    (keys : list string) (kwargs : kwargs_t) (t : list WmiCall) :
  (notify_filter, wmi_class, keys) ∈
    [("TreeChange", "RegistryTreeChangeEvent", ["Hive"; "RootPath"]);
     ("KeyChange", "RegistryKeyChangeEvent", ["Hive"; "KeyPath"]);
     ("ValueChange", "RegistryValueChangeEvent",
      ["Hive"; "KeyPath"; "ValueName"])] →
  Forall (λ key, key ∈ regmon.valid_kwargs) kwargs.*1 →
  answer_WMI (t ++ [WMI (Some "root/DEFAULT")]) = inr () →
  ¬ Forall (λ key, key ∈ kwargs.*1) keys →
  ∃ key,
    key ∈ keys ∧ (key ∉ kwargs.*1) ∧
    RegistryMonitorWMI__init__ notify_filter kwargs ((), t)
      = (WRaise (Py (KeyError key)), ((), t ++ [WMI (Some "root/DEFAULT")])).
Proof.
  intros Hrow Hvalid Hwmi Hmissing.
  destruct (lookup_all kwargs keys) as [e|where_clause] eqn:Hwhere.
  2: { destruct Hmissing. apply lookup_all_inr in Hwhere as [<- Hvalues].
       apply Forall_fmap. eapply Forall_impl; [exact Hvalues|].
       intros [key v] Hget. simpl in *.
       destruct (decide (key ∈ kwargs.*1)) as [|Hnot]; [done|].
       apply kwargs_get_missing in Hnot. congruence. }
  destruct (lookup_all_inl _ _ _ Hwhere) as (key & Hin & Hnot & ->).
  exists key. split_and!; [done..|].
  rewrite !elem_of_cons, elem_of_nil in Hrow.
  unfold RegistryMonitorWMI__init__, RegistryMonitor__init__,
    watch_registry_event.
  rewrite check_kwargs_valid by done.
  destruct Hrow as [[= -> -> ->]|[[= -> -> ->]|[[= -> -> ->]|[]]]].
  all: wstep; rewrite Hwmi; simpl; by rewrite Hwhere.
Qed.

#[local] Transparent lookup_all.

(** X24: how the file monitor treats the errors of the wmi package.  An
    [x_wmi] of the connection [wmi.WMI(namespace='root/CIMv2')] is not
    caught and leaves the constructor as it is.  An [x_wmi] of
    [watch_for], which is called on [CIM_DataFile] for [File] and on
    [CIM_Directory] for [Directory] with the filter and all keyword
    arguments of the constructor, becomes [FileMonitorError] whose
    message carries the code of the COM error, or [unknown] for the
    code 0. *)
Theorem file_wmi_installation_errors (notify_obj notify_filter : string)
    (kwargs : kwargs_t) (t : list WmiCall) (hresult : Z) :
  Forall (λ key, key ∈ filemon.valid_kwargs) kwargs.*1 →
  notify_filter ∈ FileMonitorWMI_valid_notify_filter →
  notify_obj ∈ FileMonitorWMI_valid_notify_obj →
  let connect := t ++ [WMI (Some "root/CIMv2")] in
  let request :=
    connect ++
    [watch_for (if decide (notify_obj = "File") then "CIM_DataFile"
                else "CIM_Directory") (Some notify_filter) kwargs] in
  (answer_WMI connect = inl hresult →
   FileMonitorWMI__init__ notify_obj notify_filter kwargs ((), t)
     = (WRaise (x_wmi hresult), ((), connect))) ∧
  (answer_WMI connect = inr () → answer_watch_for request = inl hresult →
   FileMonitorWMI__init__ notify_obj notify_filter kwargs ((), t)
     = (WRaise (Py (FileMonitorError (Some
          ("Watcher installation error. Error code: " +:+
           (if decide (hresult = 0) then "unknown" else pretty hresult)
           +:+ ".")))), ((), request))).
Proof.
  intros Hvalid Hfilter Hobj connect request. subst connect request.
  unfold FileMonitorWMI__init__, FileMonitor__init__,
    watcher_installation_message.
  rewrite check_kwargs_valid by done. wstep.
  destruct (decide (notify_filter ∈ _)); [|done].
  destruct (decide (notify_obj ∈ _)); [|done].
  wstep. split.
  - by intros ->.
  - intros -> Hwatch. simpl. cases_of Hobj; subst notify_obj; simpl in *.
    all: rewrite <- ?app_assoc in *; simpl in *; by rewrite Hwatch.
Qed.

Lemma getattr_Some {S} (event : gmap string wmival) (name : string)
    (v : wmival) (σ : S * list WmiCall) :
  event !! name = Some v → getattr event name σ = (WRet v, σ).
Proof. unfold getattr. by intros ->. Qed.

Lemma getattr_None {S} (event : gmap string wmival) (name : string)
    (σ : S * list WmiCall) :
  event !! name = None →
  getattr event name σ = (WRaise (AttributeError name), σ).
Proof. unfold getattr. by intros ->. Qed.

Lemma copy_if_present_run (event : gmap string wmival) (name : string)
    (self : WmiMonitor) (t : list WmiCall) :
  copy_if_present event name (self, t)
  = (WRet (),
     (match event !! name with
      | Some v => set_event_property name v self
      | None => self
      end, t)).
Proof.
  unfold copy_if_present, hasattr, getattr.
  destruct (event !! name) as [v|]; [|done].
  rewrite bool_decide_eq_true_2 by done. done.
Qed.

Lemma copy_attribute_run (event : gmap string wmival)
    (key attribute : string) (v : wmival) (props : gmap string wmival)
    (t : list WmiCall) :
  event !! attribute = Some v →
  copy_attribute event key attribute (props, t)
  = (WRet (), (<[key := v]> props, t)).
Proof. unfold copy_attribute, getattr. by intros ->. Qed.

(** X25: an update of the file monitor waits for one event, overwrites
    [Timestamp] and [EventType] from it, and overwrites each of [Drive],
    [Path], [FileName] and [Extension] only when the event has that
    attribute: for an attribute the event lacks, the value of an earlier
    event stays in place.  No other property and no other attribute of
    the object changes. *)
Theorem file_wmi_update_keeps_absent_attributes (self : WmiMonitor)
    (t : list WmiCall) (event : gmap string wmival)
    (timestamp event_type : wmival) :
  answer_next_event (t ++ [next_event]) = Event event →
  event !! "timestamp" = Some timestamp →
  event !! "event_type" = Some event_type →
  ∃ self',
    FileMonitorWMI_update (self, t) = (WRet (), (self', t ++ [next_event])) ∧
    _notify_filter self' = _notify_filter self ∧
    _kwargs self' = _kwargs self ∧
    _event_properties self' !! "Timestamp" = Some timestamp ∧
    _event_properties self' !! "EventType" = Some event_type ∧
    (∀ name, name ∈ ["Drive"; "Path"; "FileName"; "Extension"] →
       _event_properties self' !! name
       = match event !! name with
         | Some v => Some v
         | None => _event_properties self !! name
         end) ∧
    (∀ key, key ∉ ["Timestamp"; "EventType"; "Drive"; "Path"; "FileName";
                   "Extension"] →
       _event_properties self' !! key = _event_properties self !! key).
Proof.
  intros Hevent Hts Het. eexists. split.
  { unfold FileMonitorWMI_update. wstep. rewrite Hevent. simpl.
    rewrite (getattr_Some _ _ _ _ Hts). simpl.
    rewrite (getattr_Some _ _ _ _ Het). simpl.
    repeat (rewrite copy_if_present_run; cbn beta iota). reflexivity. }
  split_and!.
  - by repeat case_match.
  - by repeat case_match.
  - repeat case_match; by simplify_map_eq.
  - repeat case_match; by simplify_map_eq.
  - intros name Hname. rewrite !elem_of_cons, elem_of_nil in Hname.
    destruct_or?; try done; subst name.
    all: repeat case_match; by simplify_map_eq.
  - intros key Hkey. rewrite !not_elem_of_cons in Hkey.
    destruct Hkey as (? & ? & ? & ? & ? & ? & _).
    repeat case_match; by simplify_map_eq.
Qed.

(** X26: an update of the registry monitor overwrites [Timestamp] with
    [wmi.from_1601] of the event's [TIME_CREATED], [EventType] with the
    filter the monitor was constructed with (not with anything of the
    event), [Hive] with the event's hive, and each of [RootPath],
    [KeyPath] and [ValueName] only when the event has that attribute. *)
Theorem registry_wmi_update_properties (self : WmiMonitor)
    (t : list WmiCall) (event : gmap string wmival)
    (time_created timestamp hive : wmival) :
  answer_next_event (t ++ [next_event]) = Event event →
  event !! "TIME_CREATED" = Some time_created →
  from_1601 time_created = inr timestamp →
  event !! "Hive" = Some hive →
  ∃ self',
    RegistryMonitorWMI_update (self, t)
      = (WRet (), (self', t ++ [next_event])) ∧
    _notify_filter self' = _notify_filter self ∧
    _kwargs self' = _kwargs self ∧
    _event_properties self' !! "Timestamp" = Some timestamp ∧
    _event_properties self' !! "EventType"
      = Some (WStr (_notify_filter self)) ∧
    _event_properties self' !! "Hive" = Some hive ∧
    (∀ name, name ∈ ["RootPath"; "KeyPath"; "ValueName"] →
       _event_properties self' !! name
       = match event !! name with
         | Some v => Some v
         | None => _event_properties self !! name
         end) ∧
    (∀ key, key ∉ ["Timestamp"; "EventType"; "Hive"; "RootPath"; "KeyPath";
                   "ValueName"] →
       _event_properties self' !! key = _event_properties self !! key).
Proof.
  intros Hevent Hcreated Hfrom Hhive. eexists. split.
  { unfold RegistryMonitorWMI_update. wstep. rewrite Hevent. simpl.
    rewrite (getattr_Some _ _ _ _ Hcreated). simpl. rewrite Hfrom. simpl.
    rewrite (getattr_Some _ _ _ _ Hhive). simpl.
    repeat (rewrite copy_if_present_run; cbn beta iota). reflexivity. }
  split_and!.
  - by repeat case_match.
  - by repeat case_match.
  - repeat case_match; by simplify_map_eq.
  - repeat case_match; by simplify_map_eq.
  - repeat case_match; by simplify_map_eq.
  - intros name Hname. rewrite !elem_of_cons, elem_of_nil in Hname.
    destruct_or?; try done; subst name.
    all: repeat case_match; by simplify_map_eq.
  - intros key Hkey. rewrite !not_elem_of_cons in Hkey.
    destruct Hkey as (? & ? & ? & ? & ? & ? & _).
    repeat case_match; by simplify_map_eq.
Qed.

(** X27: the update of the registry monitor reads [event.Hive] without
    asking whether the event has it.  For an event without that
    attribute the update raises [AttributeError] after [Timestamp] and
    [EventType] have been overwritten, so the properties then mix the
    new event with the previous one: [Hive] and the three paths keep
    their old values. *)
Theorem registry_wmi_update_without_hive (self : WmiMonitor)
    (t : list WmiCall) (event : gmap string wmival)
    (time_created timestamp : wmival) :
  answer_next_event (t ++ [next_event]) = Event event →
  event !! "TIME_CREATED" = Some time_created →
  from_1601 time_created = inr timestamp →
  event !! "Hive" = None →
  ∃ self',
    RegistryMonitorWMI_update (self, t)
      = (WRaise (AttributeError "Hive"), (self', t ++ [next_event])) ∧
    _event_properties self' !! "Timestamp" = Some timestamp ∧
    _event_properties self' !! "EventType"
      = Some (WStr (_notify_filter self)) ∧
    (∀ key, key ∉ ["Timestamp"; "EventType"] →
       _event_properties self' !! key = _event_properties self !! key).
Proof.
  intros Hevent Hcreated Hfrom Hhive. eexists. split.
  { unfold RegistryMonitorWMI_update. wstep. rewrite Hevent. simpl.
    rewrite (getattr_Some _ _ _ _ Hcreated). simpl. rewrite Hfrom. simpl.
    rewrite (getattr_None _ _ _ Hhive). reflexivity. }
  split_and!.
  - by simplify_map_eq.
  - by simplify_map_eq.
  - intros key Hkey. rewrite !not_elem_of_cons in Hkey.
    destruct Hkey as (? & ? & _). by simplify_map_eq.
Qed.

(** X28: all three [update] methods let an [x_wmi] of the watcher call,
    such as the one of a timeout, pass to the caller as it is, unlike
    the constructors, and leave the object as it was. *)
Theorem wmi_update_propagates_x_wmi (t : list WmiCall) (hresult : Z) :
  answer_next_event (t ++ [next_event]) = Fails hresult →
  (∀ self,
     FileMonitorWMI_update (self, t)
       = (WRaise (x_wmi hresult), (self, t ++ [next_event]))) ∧
  (∀ self,
     RegistryMonitorWMI_update (self, t)
       = (WRaise (x_wmi hresult), (self, t ++ [next_event]))) ∧
  (∀ props,
     ProcessMonitor_update (props, t)
       = (WRaise (x_wmi hresult), (props, t ++ [next_event]))).
Proof.
  intros Hfails. split_and!; intros self.
  - unfold FileMonitorWMI_update. wstep. by rewrite Hfails.
  - unfold RegistryMonitorWMI_update. wstep. by rewrite Hfails.
  - unfold ProcessMonitor_update. wstep. by rewrite Hfails.
Qed.

Lemma process_update_run (props : gmap string wmival) (t : list WmiCall)
    (event : gmap string wmival)
    (v1 v2 v3 v4 v5 v6 v7 v8 v9 v10 v11 v12 : wmival) :
  answer_next_event (t ++ [next_event]) = Event event →
  event !! "event_type" = Some v1 → event !! "Caption" = Some v2 →
  event !! "CommandLine" = Some v3 → event !! "CreationDate" = Some v4 →
  event !! "Description" = Some v5 → event !! "ExecutablePath" = Some v6 →
  event !! "HandleCount" = Some v7 → event !! "Name" = Some v8 →
  event !! "ParentProcessId" = Some v9 → event !! "ProcessID" = Some v10 →
  event !! "ThreadCount" = Some v11 → event !! "timestamp" = Some v12 →
  ProcessMonitor_update (props, t)
  = (WRet (),
     (<["TimeStamp" := v12]> (<["ThreadCount" := v11]>
      (<["ProcessID" := v10]> (<["ParentProcessId" := v9]>
      (<["Name" := v8]> (<["HandleCount" := v7]>
      (<["ExecutablePath" := v6]> (<["Description" := v5]>
      (<["CreationDate" := v4]> (<["CommandLine" := v3]>
      (<["Caption" := v2]> (<["EventType" := v1]> props))))))))))),
      t ++ [next_event])).
Proof.
  intros Hevent H1 H2 H3 H4 H5 H6 H7 H8 H9 H10 H11 H12.
  unfold ProcessMonitor_update. wstep. rewrite Hevent. cbn beta iota.
  rewrite (copy_attribute_run _ _ _ _ _ _ H1); cbn beta iota.
  rewrite (copy_attribute_run _ _ _ _ _ _ H2); cbn beta iota.
  rewrite (copy_attribute_run _ _ _ _ _ _ H3); cbn beta iota.
  rewrite (copy_attribute_run _ _ _ _ _ _ H4); cbn beta iota.
  rewrite (copy_attribute_run _ _ _ _ _ _ H5); cbn beta iota.
  rewrite (copy_attribute_run _ _ _ _ _ _ H6); cbn beta iota.
  rewrite (copy_attribute_run _ _ _ _ _ _ H7); cbn beta iota.
  rewrite (copy_attribute_run _ _ _ _ _ _ H8); cbn beta iota.
  rewrite (copy_attribute_run _ _ _ _ _ _ H9); cbn beta iota.
  rewrite (copy_attribute_run _ _ _ _ _ _ H10); cbn beta iota.
  rewrite (copy_attribute_run _ _ _ _ _ _ H11); cbn beta iota.
  by apply copy_attribute_run.
Qed.

Lemma process_update_complete (props : gmap string wmival)
    (t : list WmiCall) (event : gmap string wmival) :
  answer_next_event (t ++ [next_event]) = Event event →
  (∀ attribute, attribute ∈ process_event_attributes →
     is_Some (event !! attribute)) →
  ∃ v1 v2 v3 v4 v5 v6 v7 v8 v9 v10 v11 v12,
    event !! "event_type" = Some v1 ∧ event !! "Caption" = Some v2 ∧
    event !! "CommandLine" = Some v3 ∧ event !! "CreationDate" = Some v4 ∧
    event !! "Description" = Some v5 ∧ event !! "ExecutablePath" = Some v6 ∧
    event !! "HandleCount" = Some v7 ∧ event !! "Name" = Some v8 ∧
    event !! "ParentProcessId" = Some v9 ∧ event !! "ProcessID" = Some v10 ∧
    event !! "ThreadCount" = Some v11 ∧ event !! "timestamp" = Some v12 ∧
    ProcessMonitor_update (props, t)
    = (WRet (),
       (<["TimeStamp" := v12]> (<["ThreadCount" := v11]>
        (<["ProcessID" := v10]> (<["ParentProcessId" := v9]>
        (<["Name" := v8]> (<["HandleCount" := v7]>
        (<["ExecutablePath" := v6]> (<["Description" := v5]>
        (<["CreationDate" := v4]> (<["CommandLine" := v3]>
        (<["Caption" := v2]> (<["EventType" := v1]> props))))))))))),
        t ++ [next_event])).
Proof.
  intros Hevent Hall.
  destruct (Hall "event_type") as [v1 H1]; [by repeat constructor|].
  destruct (Hall "Caption") as [v2 H2]; [by repeat constructor|].
  destruct (Hall "CommandLine") as [v3 H3]; [by repeat constructor|].
  destruct (Hall "CreationDate") as [v4 H4]; [by repeat constructor|].
  destruct (Hall "Description") as [v5 H5]; [by repeat constructor|].
  destruct (Hall "ExecutablePath") as [v6 H6]; [by repeat constructor|].
  destruct (Hall "HandleCount") as [v7 H7]; [by repeat constructor|].
  destruct (Hall "Name") as [v8 H8]; [by repeat constructor|].
  destruct (Hall "ParentProcessId") as [v9 H9]; [by repeat constructor|].
  destruct (Hall "ProcessID") as [v10 H10]; [by repeat constructor|].
  destruct (Hall "ThreadCount") as [v11 H11]; [by repeat constructor|].
  destruct (Hall "timestamp") as [v12 H12]; [by repeat constructor|].
  exists v1, v2, v3, v4, v5, v6, v7, v8, v9, v10, v11, v12.
  split_and!; try done. by eapply process_update_run.
Qed.

(** X29: an update of the process monitor with an event that has the
    twelve attributes it reads replaces all twelve properties: the keys
    [EventType] and [TimeStamp] take the event's [event_type] and
    [timestamp], each other key takes the attribute of its own name, and
    nothing of the previous event remains under these keys. *)
Theorem process_update_replaces_all_properties
    (props : gmap string wmival) (t : list WmiCall)
    (event : gmap string wmival) :
  answer_next_event (t ++ [next_event]) = Event event →
  (∀ attribute, attribute ∈ process_event_attributes →
     is_Some (event !! attribute)) →
  ∃ props',
    ProcessMonitor_update (props, t)
      = (WRet (), (props', t ++ [next_event])) ∧
    props' !! "EventType" = event !! "event_type" ∧
    props' !! "TimeStamp" = event !! "timestamp" ∧
    (∀ key, key ∈ process_property_keys → key ≠ "EventType" →
       key ≠ "TimeStamp" → props' !! key = event !! key) ∧
    (∀ key, key ∉ process_property_keys → props' !! key = props !! key).
Proof.
  intros Hevent Hall.
  destruct (process_update_complete props t event Hevent Hall)
    as (v1 & v2 & v3 & v4 & v5 & v6 & v7 & v8 & v9 & v10 & v11 & v12 &
        H1 & H2 & H3 & H4 & H5 & H6 & H7 & H8 & H9 & H10 & H11 & H12 & ->).
  eexists. split; [reflexivity|]. split_and!.
  - by simplify_map_eq.
  - by simplify_map_eq.
  - intros key Hkey ? ?. unfold process_property_keys in Hkey.
    rewrite !elem_of_cons, elem_of_nil in Hkey.
    destruct_or?; try done; subst key; by simplify_map_eq.
  - intros key Hkey. unfold process_property_keys in Hkey.
    rewrite !not_elem_of_cons in Hkey.
    destruct Hkey as (? & ? & ? & ? & ? & ? & ? & ? & ? & ? & ? & ? & _).
    by simplify_map_eq.
Qed.

(** X30: the property [creation_date] formats what the last event left
    under [CreationDate].  Between the construction and the first update
    that value is [None], which cannot be sliced: [creation_date] raises
    [TypeError] where the eleven other properties return [None].  After
    an update it is [date_time_format] of the event's [CreationDate]. *)
Theorem process_creation_date (notify_filter : string)
    (t t' : list WmiCall) (props : gmap string wmival)
    (event : gmap string wmival) (date : wmival) :
  ProcessMonitor__init__ notify_filter ((), t) = (WRet props, ((), t')) →
  answer_next_event (t' ++ [next_event]) = Event event →
  (∀ attribute, attribute ∈ process_event_attributes →
     is_Some (event !! attribute)) →
  event !! "CreationDate" = Some date →
  ProcessMonitor.creation_date props = inl TypeError ∧
  Forall (λ property, property props = inr WNone)
    [ProcessMonitor.timestamp; ProcessMonitor.event_type;
     ProcessMonitor.caption; ProcessMonitor.command_line;
     ProcessMonitor.description; ProcessMonitor.executable_path;
     ProcessMonitor.handle_count; ProcessMonitor.name;
     ProcessMonitor.parent_process_id; ProcessMonitor.process_id;
     ProcessMonitor.thread_count] ∧
  ∃ props',
    ProcessMonitor_update (props, t')
      = (WRet (), (props', t' ++ [next_event])) ∧
    ProcessMonitor.creation_date props' = util.date_time_format date.
Proof.
  intros Hinit Hevent Hall Hdate.
  assert (props = initial_process_property) as ->.
  { revert Hinit. unfold ProcessMonitor__init__. wstep. wrun.
    all: congruence. }
  split; [done|]. split.
  { repeat constructor. }
  destruct (process_update_complete initial_process_property t' event
              Hevent Hall)
    as (v1 & v2 & v3 & v4 & v5 & v6 & v7 & v8 & v9 & v10 & v11 & v12 &
        H1 & H2 & H3 & H4 & H5 & H6 & H7 & H8 & H9 & H10 & H11 & H12 & ->).
  eexists. split; [reflexivity|].
  unfold ProcessMonitor.creation_date, event_property.
  simplify_map_eq. done.
Qed.

End wmi_monitors.

(** * The further properties on concrete runs *)

#[local] Transparent polls.

Lemma update_keeps_polling_while_quiet_witness :
  filemon.update (os := os_quiet_then_signaled) 1 (sample_file_monitor, [])
    = (Spin, (sample_file_monitor, [WaitForSingleObject 200 0])) ∧
  regmon.update (os := os_quiet_then_signaled) 1 (sample_registry_monitor, [])
    = (Spin, (sample_registry_monitor, [WaitForSingleObject 200 0])).
Proof.
  destruct (update_keeps_polling_while_quiet (os := os_quiet_then_signaled)
              1 [] sample_file_monitor sample_registry_monitor)
    as [Hfile Hreg].
  split.
  - apply Hfile. repeat constructor; discriminate.
  - apply Hreg. repeat constructor; discriminate.
Defined.

Lemma registry_failed_wait_closes_key_and_event_witness :
  regmon.update (os := os_quiet_then_failed) 5 (sample_registry_monitor, [])
    = (Raise (RegistryMonitorError None),
       (sample_registry_monitor,
        [WaitForSingleObject 200 0; WaitForSingleObject 200 0;
         RegCloseKey 300; CloseHandle (PyHANDLE 200)])).
Proof.
  apply (registry_failed_wait_closes_key_and_event
           (os := os_quiet_then_failed) sample_registry_monitor [] 1 5).
  - repeat constructor; discriminate.
  - reflexivity.
  - discriminate.
  - lia.
  - reflexivity.
  - reflexivity.
Defined.

Lemma update_propagates_a_raising_wait_witness :
  filemon.update (os := os_wait_raises) 5 (sample_file_monitor, [])
    = (Raise (pywintypes_error 6),
       (sample_file_monitor, [WaitForSingleObject 200 0])) ∧
  regmon.update (os := os_wait_raises) 5 (sample_registry_monitor, [])
    = (Raise (pywintypes_error 6),
       (sample_registry_monitor, [WaitForSingleObject 200 0])).
Proof.
  destruct (update_propagates_a_raising_wait (os := os_wait_raises)
              0 5 [] (api_error 6) sample_file_monitor
              sample_registry_monitor) as [Hfile Hreg]; [lia|].
  split.
  - apply Hfile; [constructor|reflexivity].
  - apply Hreg; [constructor|reflexivity].
Defined.

Lemma file_update_stores_first_record_witness :
  ∃ self',
    filemon.update (os := sample_os [0] 28 [(1, "x.txt"); (2, "y.txt")]) 5
      (sample_file_monitor, [])
    = (Ret (),
       (self',
        [WaitForSingleObject 200 0; GetOverlappedResult 100 200 true; utcnow;
         GetFinalPathNameByHandle 100 0; FILE_NOTIFY_INFORMATION 28;
         FILE_NOTIFY_INFORMATION 28;
         ReadDirectoryChangesW 100 true (Some 19) 200])) ∧
    filemon._num_bytes_returned self' = 28 ∧
    filemon._event_properties self' !! "Path" = Some (PStr "C:\watched") ∧
    filemon._event_properties self' !! "FileName" = Some (PStr "x.txt") ∧
    filemon._event_properties self' !! "EventType" = Some (PStr "Added") ∧
    filemon._event_properties self' !! "Timestamp"
      = Some (PDatetime 1700000003) ∧
    (∀ key, key ∉ ["Path"; "FileName"; "Timestamp"; "EventType"] →
       filemon._event_properties self' !! key
         = filemon._event_properties sample_file_monitor !! key).
Proof.
  apply (file_update_stores_first_record
           (os := sample_os [0] 28 [(1, "x.txt"); (2, "y.txt")])
           sample_file_monitor [] 0 5 28 1700000003 "C:\watched"
           1 1 "x.txt" "x.txt" [(2, "y.txt")] [(2, "y.txt")]).
  - constructor.
  - lia.
  - lia.
  - reflexivity.
  - reflexivity.
  - reflexivity.
  - reflexivity.
  - reflexivity.
  - reflexivity.
  - reflexivity.
Defined.

Lemma registry_update_stores_configuration_witness :
  ∃ self',
    regmon.update (os := os_quiet_then_signaled) 5
      (sample_registry_monitor, [])
    = (Ret (),
       (self',
        [WaitForSingleObject 200 0; WaitForSingleObject 200 0; utcnow;
         RegNotifyChangeKeyValue 300 true (Some 4) 200 true])) ∧
    regmon._event_properties self' !! "Hive"
      = Some (PStr "HKEY_CURRENT_USER") ∧
    regmon._event_properties self' !! "KeyPath"
      = Some (PStr "Software\TestApp") ∧
    regmon._event_properties self' !! "EventType"
      = Some (PStr "LastSetChange") ∧
    regmon._event_properties self' !! "Timestamp"
      = Some (PDatetime 1700000003).
Proof.
  apply (registry_update_stores_configuration (os := os_quiet_then_signaled)
           sample_registry_monitor [] 1 5 1700000003
           "HKEY_CURRENT_USER" "Software\TestApp").
  - repeat constructor; discriminate.
  - lia.
  - reflexivity.
  - reflexivity.
  - reflexivity.
  - reflexivity.
  - reflexivity.
Defined.

Lemma registry_update_refused_watch_request_witness :
  ∃ self',
    regmon.update (os := os_watch_refused) 5 (sample_registry_monitor, [])
    = (Raise (RegistryMonitorError (Some
         ("Watcher installation error.Invalid parameters. Error code: "
            +:+ pretty 5 +:+ "."))),
       (self',
        [WaitForSingleObject 200 0; WaitForSingleObject 200 0; utcnow;
         RegNotifyChangeKeyValue 300 true (Some 4) 200 true])) ∧
    regmon._event_properties self' !! "Hive"
      = Some (PStr "HKEY_CURRENT_USER") ∧
    regmon._event_properties self' !! "KeyPath"
      = Some (PStr "Software\TestApp") ∧
    regmon._event_properties self' !! "EventType"
      = Some (PStr "LastSetChange") ∧
    regmon._event_properties self' !! "Timestamp"
      = Some (PDatetime 1700000003).
Proof.
  apply (registry_update_refused_watch_request (os := os_watch_refused)
           sample_registry_monitor [] 1 5 1700000003 5
           "HKEY_CURRENT_USER" "Software\TestApp").
  - repeat constructor; discriminate.
  - lia.
  - reflexivity.
  - reflexivity.
  - reflexivity.
  - reflexivity.
  - reflexivity.
Defined.

Lemma file_update_exceptions_witness :
  filemon.update (os := os_quiet_then_failed) 5 (sample_file_monitor, [])
    = (Raise TypeError,
       (sample_file_monitor,
        [WaitForSingleObject 200 0; WaitForSingleObject 200 0;
         CloseHandle (PStr "C:\watched")])) ∧
  (TypeError = FileMonitorError None ∨ TypeError = KeyError "Path" ∨
   TypeError = IndexError ∨ ∃ e', TypeError = exn_of e').
Proof.
  split; [reflexivity|].
  apply (file_update_exceptions (os := os_quiet_then_failed) 5
           (sample_file_monitor, []) TypeError
           (sample_file_monitor,
            [WaitForSingleObject 200 0; WaitForSingleObject 200 0;
             CloseHandle (PStr "C:\watched")])).
  reflexivity.
Defined.

Lemma registry_update_exceptions_witness :
  regmon.update (os := os_watch_refused) 5 (sample_registry_monitor, [])
    = (Raise (RegistryMonitorError (Some
         "Watcher installation error.Invalid parameters. Error code: 5.")),
       (regmon.set_event_property "EventType" (PStr "LastSetChange")
          (regmon.set_event_property "Timestamp" (PDatetime 1700000003)
             (regmon.set_event_property "KeyPath" (PStr "Software\TestApp")
                (regmon.set_event_property "Hive" (PStr "HKEY_CURRENT_USER")
                   sample_registry_monitor))),
        [WaitForSingleObject 200 0; WaitForSingleObject 200 0; utcnow;
         RegNotifyChangeKeyValue 300 true (Some 4) 200 true])) ∧
  (RegistryMonitorError (Some
     "Watcher installation error.Invalid parameters. Error code: 5.")
     = RegistryMonitorError None ∨
   (∃ w : Z,
      RegistryMonitorError (Some
        "Watcher installation error.Invalid parameters. Error code: 5.")
      = RegistryMonitorError (Some
          ("Watcher installation error.Invalid parameters. Error code: "
             +:+ pretty w +:+ "."))) ∨
   RegistryMonitorError (Some
     "Watcher installation error.Invalid parameters. Error code: 5.")
     = KeyError "Hive" ∨
   RegistryMonitorError (Some
     "Watcher installation error.Invalid parameters. Error code: 5.")
     = KeyError "KeyPath" ∨
   ∃ e',
     RegistryMonitorError (Some
       "Watcher installation error.Invalid parameters. Error code: 5.")
     = exn_of e').
Proof.
  split; [vm_compute; reflexivity|].
  apply (registry_update_exceptions (os := os_watch_refused) 5
           (sample_registry_monitor, [])
           (RegistryMonitorError (Some
              "Watcher installation error.Invalid parameters. Error code: 5."))
           (regmon.set_event_property "EventType" (PStr "LastSetChange")
              (regmon.set_event_property "Timestamp" (PDatetime 1700000003)
                 (regmon.set_event_property "KeyPath" (PStr "Software\TestApp")
                    (regmon.set_event_property "Hive"
                       (PStr "HKEY_CURRENT_USER") sample_registry_monitor))),
            [WaitForSingleObject 200 0; WaitForSingleObject 200 0; utcnow;
             RegNotifyChangeKeyValue 300 true (Some 4) 200 true])).
  vm_compute. reflexivity.
Defined.

Lemma constructors_never_close_witness :
  Forall (λ c, is_close c = false)
    [CreateFile "C:\watched" 1 3 3 1107296256; CreateEvent false false;
     AllocateReadBuffer 1024; ReadDirectoryChangesW 100 true (Some 19) 200] ∧
  Forall (λ c, is_close c = false)
    [CreateEvent false false;
     RegOpenKeyEx (Some 2147483649) "Software\TestApp" 0 16;
     RegNotifyChangeKeyValue 300 true (Some 4) 200 true].
Proof.
  split.
  - destruct (constructors_never_close (os := os_quiet_then_signaled)
                "UnionChange" [("Path", "C:\watched")] []) as [Hfile _].
    exact (Hfile _ _ file_construction_run).
  - destruct (constructors_never_close (os := os_quiet_then_signaled)
                "LastSetChange"
                [("Hive", "HKEY_CURRENT_USER");
                 ("KeyPath", "Software\TestApp")] []) as [_ Hreg].
    exact (Hreg _ _ registry_construction_run).
Defined.

Lemma file_construction_failures_witness :
  filemon.FileMonitorAPI__init__ (os := os_open_refused)
    "UnionChange" [("Path", "C:\missing")] ((), [])
    = (Raise (FileMonitorError (Some
         ("Failed to open directory. Error code: " +:+ pretty 2 +:+ "."))),
       ((), [CreateFile "C:\missing" 1 3 3 1107296256])) ∧
  filemon.FileMonitorAPI__init__ (os := os_null_event)
    "UnionChange" [("Path", "C:\watched")] ((), [])
    = (Raise (FileMonitorError
                (Some "Failed to create event. Error code: 0.")),
       ((), [CreateFile "C:\watched" 1 3 3 1107296256;
             CreateEvent false false])) ∧
  filemon.FileMonitorAPI__init__ (os := os_watch_refused)
    "UnionChange" [("Path", "C:\watched")] ((), [])
    = (Raise (pywintypes_error 5),
       ((), [CreateFile "C:\watched" 1 3 3 1107296256;
             CreateEvent false false; AllocateReadBuffer 1024;
             ReadDirectoryChangesW 100 true (Some 19) 200])).
Proof.
  split_and!.
  - destruct (file_construction_failures (os := os_open_refused)
                "UnionChange" [("Path", "C:\missing")] [] "C:\missing"
                2 100 200) as (Hopen & _ & _);
      [by repeat constructor|by repeat constructor|reflexivity|].
    apply Hopen. reflexivity.
  - destruct (file_construction_failures (os := os_null_event)
                "UnionChange" [("Path", "C:\watched")] [] "C:\watched"
                2 100 200) as (_ & Hevent & _);
      [by repeat constructor|by repeat constructor|reflexivity|].
    apply Hevent; reflexivity.
  - destruct (file_construction_failures (os := os_watch_refused)
                "UnionChange" [("Path", "C:\watched")] [] "C:\watched"
                5 100 200) as (_ & _ & Hwatch);
      [by repeat constructor|by repeat constructor|reflexivity|].
    apply Hwatch; [reflexivity|reflexivity|discriminate|reflexivity|reflexivity].
Defined.

Lemma registry_construction_failures_witness :
  regmon.RegistryMonitorAPI__init__ (os := os_open_refused) "LastSetChange"
    [("Hive", "HKEY_CURRENT_USER"); ("KeyPath", "Software\Missing")] ((), [])
    = (Raise (RegistryMonitorError (Some
         ("Watcher installation error.Failed to open key. Error code: "
            +:+ pretty 2 +:+ "."))),
       ((), [CreateEvent false false;
             RegOpenKeyEx (Some 2147483649) "Software\Missing" 0 16])) ∧
  regmon.RegistryMonitorAPI__init__ (os := os_watch_refused) "LastSetChange"
    [("Hive", "HKEY_CURRENT_USER"); ("KeyPath", "Software\TestApp")] ((), [])
    = (Raise (RegistryMonitorError (Some
         ("Watcher installation error.Invalid parameters. Error code: "
            +:+ pretty 5 +:+ "."))),
       ((), [CreateEvent false false;
             RegOpenKeyEx (Some 2147483649) "Software\TestApp" 0 16;
             RegNotifyChangeKeyValue 300 true (Some 4) 200 true])).
Proof.
  split.
  - destruct (registry_construction_failures (os := os_open_refused)
                "LastSetChange"
                [("Hive", "HKEY_CURRENT_USER");
                 ("KeyPath", "Software\Missing")] []
                "HKEY_CURRENT_USER" "Software\Missing" 2 200 300)
      as (root & Hroot & Hopen & _);
      [by repeat constructor|by repeat constructor|reflexivity|reflexivity|
       reflexivity|discriminate|].
    injection Hroot as <-. apply Hopen. reflexivity.
  - destruct (registry_construction_failures (os := os_watch_refused)
                "LastSetChange"
                [("Hive", "HKEY_CURRENT_USER");
                 ("KeyPath", "Software\TestApp")] []
                "HKEY_CURRENT_USER" "Software\TestApp" 5 200 300)
      as (root & Hroot & _ & Hwatch);
      [by repeat constructor|by repeat constructor|reflexivity|reflexivity|
       reflexivity|discriminate|].
    injection Hroot as <-. apply Hwatch; reflexivity.
Defined.

Lemma unknown_hive_is_passed_as_None_witness :
  regmon.RegistryMonitorAPI__init__ (os := os_quiet_then_signaled)
    "LastSetChange" [("Hive", "HKCU"); ("KeyPath", "Software\TestApp")]
    ((), [])
    = (Raise TypeError,
       ((), [CreateEvent false false;
             RegOpenKeyEx None "Software\TestApp" 0 16])).
Proof.
  destruct (unknown_hive_is_passed_as_None (os := os_quiet_then_signaled)
              "LastSetChange"
              [("Hive", "HKCU"); ("KeyPath", "Software\TestApp")] []
              "HKCU" "Software\TestApp" 200)
    as (o & t' & rest & Hrun & Hissued & Hrefused);
    [by repeat constructor|by repeat constructor|reflexivity|reflexivity|
     not_in_trace|reflexivity|discriminate|].
  destruct (Hrefused eq_refl) as [-> ->].
  rewrite Hrun. unfold issued in Hissued. simpl in Hissued.
  rewrite drop_0 in Hissued. by rewrite Hissued.
Defined.

(** The file monitor on [C:\watched] right after its construction. *)
Lemma fresh_file_monitor_alive :
  file_alive (os := os_quiet_then_signaled) "UnionChange"
    [("Path", "C:\watched")] []
    (fresh_file_monitor,
     [CreateFile "C:\watched" 1 3 3 1107296256; CreateEvent false false;
      AllocateReadBuffer 1024; ReadDirectoryChangesW 100 true (Some 19) 200]).
Proof. apply file_alive_init, file_construction_run. Qed.

Lemma sample_registry_monitor_alive :
  alive (os := os_quiet_then_signaled) "LastSetChange"
    [("Hive", "HKEY_CURRENT_USER"); ("KeyPath", "Software\TestApp")] []
    (sample_registry_monitor,
     [CreateEvent false false;
      RegOpenKeyEx (Some 2147483649) "Software\TestApp" 0 16;
      RegNotifyChangeKeyValue 300 true (Some 4) 200 true]).
Proof. apply alive_init, registry_construction_run. Qed.

Lemma file_monitor_rearms_as_constructed_witness :
  ∃ self0 t1 c,
    filemon.FileMonitorAPI__init__ (os := os_quiet_then_signaled)
      "UnionChange" [("Path", "C:\watched")] ((), [])
      = (Ret self0, ((), t1)) ∧
    filemon._get_notify_filter_const (os := os_quiet_then_signaled)
      "UnionChange" = Some c ∧
    last (issued [] t1) =
      Some (ReadDirectoryChangesW (filemon._directory self0) true (Some c)
              (filemon._overlapped_hEvent self0)) ∧
    last
      [WaitForSingleObject 200 0; WaitForSingleObject 200 0;
       GetOverlappedResult 100 200 true; utcnow;
       ReadDirectoryChangesW 100 true (Some 19) 200] =
      Some (ReadDirectoryChangesW (filemon._directory self0) true (Some c)
              (filemon._overlapped_hEvent self0)).
Proof.
  apply (file_monitor_rearms_as_constructed (os := os_quiet_then_signaled)
           "UnionChange" [("Path", "C:\watched")] []
           (fresh_file_monitor,
            [CreateFile "C:\watched" 1 3 3 1107296256; CreateEvent false false;
             AllocateReadBuffer 1024;
             ReadDirectoryChangesW 100 true (Some 19) 200])
           5
           (filemon.update (os := os_quiet_then_signaled) 5
              (fresh_file_monitor,
               [CreateFile "C:\watched" 1 3 3 1107296256;
                CreateEvent false false; AllocateReadBuffer 1024;
                ReadDirectoryChangesW 100 true (Some 19) 200])).2).
  - apply fresh_file_monitor_alive.
  - reflexivity.
Defined.

Lemma registry_monitor_rearms_as_constructed_witness :
  ∃ self0 t1 c,
    regmon.RegistryMonitorAPI__init__ (os := os_quiet_then_signaled)
      "LastSetChange"
      [("Hive", "HKEY_CURRENT_USER"); ("KeyPath", "Software\TestApp")]
      ((), [])
      = (Ret self0, ((), t1)) ∧
    regmon._get_notify_filter_const (os := os_quiet_then_signaled)
      "LastSetChange" = Some c ∧
    last (issued [] t1) =
      Some (RegNotifyChangeKeyValue (regmon._key self0) true (Some c)
              (regmon._event self0) true) ∧
    last
      [WaitForSingleObject 200 0; WaitForSingleObject 200 0; utcnow;
       RegNotifyChangeKeyValue 300 true (Some 4) 200 true] =
      Some (RegNotifyChangeKeyValue (regmon._key self0) true (Some c)
              (regmon._event self0) true).
Proof.
  apply (registry_monitor_rearms_as_constructed
           (os := os_quiet_then_signaled) "LastSetChange"
           [("Hive", "HKEY_CURRENT_USER"); ("KeyPath", "Software\TestApp")] []
           (sample_registry_monitor,
            [CreateEvent false false;
             RegOpenKeyEx (Some 2147483649) "Software\TestApp" 0 16;
             RegNotifyChangeKeyValue 300 true (Some 4) 200 true])
           5
           (regmon.update (os := os_quiet_then_signaled) 5
              (sample_registry_monitor,
               [CreateEvent false false;
                RegOpenKeyEx (Some 2147483649) "Software\TestApp" 0 16;
                RegNotifyChangeKeyValue 300 true (Some 4) 200 true])).2).
  - apply sample_registry_monitor_alive.
  - reflexivity.
Defined.

Lemma constructed_monitor_update_no_KeyError_witness :
  (∀ key, TypeError ≠ KeyError key) ∧
  (∀ key, RegistryMonitorError None ≠ KeyError key).
Proof.
  destruct (constructed_monitor_update_no_KeyError
              (os := os_quiet_then_failed) "UnionChange"
              [("Path", "C:\watched")] [] 5) as [Hfile _].
  destruct (constructed_monitor_update_no_KeyError
              (os := os_quiet_then_failed) "LastSetChange"
              [("Hive", "HKEY_CURRENT_USER"); ("KeyPath", "Software\TestApp")]
              [] 5) as [_ Hreg].
  split.
  - apply (Hfile
             (fresh_file_monitor,
              [CreateFile "C:\watched" 1 3 3 1107296256;
               CreateEvent false false; AllocateReadBuffer 1024;
               ReadDirectoryChangesW 100 true (Some 19) 200])
             TypeError
             (filemon.update (os := os_quiet_then_failed) 5
                (fresh_file_monitor,
                 [CreateFile "C:\watched" 1 3 3 1107296256;
                  CreateEvent false false; AllocateReadBuffer 1024;
                  ReadDirectoryChangesW 100 true (Some 19) 200])).2).
    + apply file_alive_init. reflexivity.
    + reflexivity.
  - apply (Hreg
             (sample_registry_monitor,
              [CreateEvent false false;
               RegOpenKeyEx (Some 2147483649) "Software\TestApp" 0 16;
               RegNotifyChangeKeyValue 300 true (Some 4) 200 true])
             (RegistryMonitorError None)
             (regmon.update (os := os_quiet_then_failed) 5
                (sample_registry_monitor,
                 [CreateEvent false false;
                  RegOpenKeyEx (Some 2147483649) "Software\TestApp" 0 16;
                  RegNotifyChangeKeyValue 300 true (Some 4) 200 true])).2).
    + apply alive_init. reflexivity.
    + reflexivity.
Defined.

Lemma properties_are_None_after_construction_witness :
  Forall (λ property,
            property (filemon._event_properties fresh_file_monitor)
              = inr PNone)
    [FileMonitor.drive; FileMonitor.path; FileMonitor.file_name;
     FileMonitor.extension; FileMonitor.timestamp; FileMonitor.event_type] ∧
  Forall (λ property,
            property (regmon._event_properties sample_registry_monitor)
              = inr PNone)
    [RegistryMonitor.hive; RegistryMonitor.root_path;
     RegistryMonitor.key_path; RegistryMonitor.value_name;
     RegistryMonitor.timestamp; RegistryMonitor.event_type].
Proof.
  split.
  - destruct (properties_are_None_after_construction
                (os := os_quiet_then_signaled)
                "UnionChange" [("Path", "C:\watched")] []) as [Hfile _].
    exact (Hfile _ _ file_construction_run).
  - destruct (properties_are_None_after_construction
                (os := os_quiet_then_signaled) "LastSetChange"
                [("Hive", "HKEY_CURRENT_USER");
                 ("KeyPath", "Software\TestApp")] []) as [_ Hreg].
    exact (Hreg _ _ registry_construction_run).
Defined.

Lemma properties_never_raise_witness :
  Forall (λ property,
            ∃ v, property (filemon._event_properties fresh_file_monitor)
                   = inr v)
    [FileMonitor.drive; FileMonitor.path; FileMonitor.file_name;
     FileMonitor.extension; FileMonitor.timestamp; FileMonitor.event_type] ∧
  Forall (λ property,
            ∃ v, property (regmon._event_properties sample_registry_monitor)
                   = inr v)
    [RegistryMonitor.hive; RegistryMonitor.root_path;
     RegistryMonitor.key_path; RegistryMonitor.value_name;
     RegistryMonitor.timestamp; RegistryMonitor.event_type].
Proof.
  split.
  - destruct (properties_never_raise (os := os_quiet_then_signaled)
                "UnionChange" [("Path", "C:\watched")] []) as [Hfile _].
    exact (Hfile _ fresh_file_monitor_alive).
  - destruct (properties_never_raise (os := os_quiet_then_signaled)
                "LastSetChange"
                [("Hive", "HKEY_CURRENT_USER");
                 ("KeyPath", "Software\TestApp")] []) as [_ Hreg].
    exact (Hreg _ sample_registry_monitor_alive).
Defined.

Lemma date_time_format_fields_witness :
  util.date_time_format (WStr "20261104123045.500000+060")
    = inr "04/11/2026 12:30:45".
Proof.
  apply (date_time_format_fields "2026" "11" "04" "12" "30" "45"
           ".500000+060"); reflexivity.
Defined.

Lemma date_time_format_length_witness :
  (∃ formatted,
     util.date_time_format (WStr "2026") = inr formatted ∧
     String.length formatted = 9%nat ∧
     ("2026" = "" → formatted = "// ::")) ∧
  (∃ formatted,
     util.date_time_format (WStr "") = inr formatted ∧
     String.length formatted = 5%nat ∧
     formatted = "// ::").
Proof.
  split.
  - apply (date_time_format_length "2026"). by repeat constructor.
  - destruct (date_time_format_length "") as (formatted & Hrun & Hlen & Hempty);
      [constructor|].
    exists formatted. split_and!; [exact Hrun|exact Hlen|by apply Hempty].
Defined.

Lemma wmi_constructors_validate_first_witness :
  (∃ message,
     wmimon.FileMonitorWMI__init__
       (wmi := sample_wmi (inr ()) (inr ()) Never)
       "Folder" "Creation" [("Path", "\watched\")] ((), [])
     = (WRaise (Py (FileMonitorError (Some message))), ((), []))) ∧
  (∃ message,
     wmimon.RegistryMonitorWMI__init__
       (wmi := sample_wmi (inr ()) (inr ()) Never)
       "ValueChange" [("Hive", "HKEY_USERS"); ("Key", "Software")] ((), [])
     = (WRaise (Py (RegistryMonitorError (Some message))), ((), []))) ∧
  (∃ message,
     wmimon.ProcessMonitor__init__
       (wmi := sample_wmi (inr ()) (inr ()) Never) "Created" ((), [])
     = (WRaise (ProcMonitorError (Some message)), ((), []))).
Proof.
  split_and!.
  - destruct (wmi_constructors_validate_first
                (wmi := sample_wmi (inr ()) (inr ()) Never)
                "Folder" "Creation" [("Path", "\watched\")] [])
      as (Hfile & _ & _).
    apply Hfile. right. right.
    unfold wmimon.FileMonitorWMI_valid_notify_obj. not_in_trace.
  - destruct (wmi_constructors_validate_first
                (wmi := sample_wmi (inr ()) (inr ()) Never)
                "" "ValueChange" [("Hive", "HKEY_USERS"); ("Key", "Software")]
                [])
      as (_ & Hreg & _).
    apply Hreg. left. intros Hall.
    apply Forall_cons in Hall as [_ Hall].
    apply Forall_cons in Hall as [Hkey _].
    revert Hkey. not_in_trace.
  - destruct (wmi_constructors_validate_first
                (wmi := sample_wmi (inr ()) (inr ()) Never)
                "" "Created" [] [])
      as (_ & _ & Hproc).
    apply Hproc. unfold wmimon.ProcessMonitor_valid_notify_filter.
    not_in_trace.
Defined.

Lemma wmi_constructors_last_branch_unreachable_witness :
  (wmimon.FileMonitorWMI__init__
     (wmi := sample_wmi (inr ()) (inl 0) Never)
     "Directory" "Creation" [("Path", "\watched\")] ((), [])).1
    ≠ WRaise (Py (FileMonitorError (Some "Watcher installation error."))) ∧
  (wmimon.RegistryMonitorWMI__init__
     (wmi := sample_wmi (inr ()) (inl 0) Never)
     "TreeChange" [("Hive", "HKEY_USERS"); ("RootPath", "")] ((), [])).1
    ≠ WRaise (Py (RegistryMonitorError
                    (Some "Watcher installation error."))).
Proof.
  split.
  - destruct (wmi_constructors_last_branch_unreachable
                (wmi := sample_wmi (inr ()) (inl 0) Never)
                "Directory" "Creation" [("Path", "\watched\")] [])
      as [Hfile _].
    eapply Hfile. apply surjective_pairing.
  - destruct (wmi_constructors_last_branch_unreachable
                (wmi := sample_wmi (inr ()) (inl 0) Never)
                "" "TreeChange" [("Hive", "HKEY_USERS"); ("RootPath", "")] [])
      as [_ Hreg].
    eapply Hreg. apply surjective_pairing.
Defined.

Lemma registry_wmi_watch_request_witness :
  ∃ o where_clause,
    wmimon.RegistryMonitorWMI__init__
      (wmi := sample_wmi (inr ()) (inr ()) Never) "KeyChange"
      [("ValueName", "Version"); ("KeyPath", "Software\TestApp");
       ("Hive", "HKEY_LOCAL_MACHINE")] ((), [])
    = (o, ((), [WMI (Some "root/DEFAULT");
                watch_for "RegistryKeyChangeEvent" None where_clause])) ∧
    where_clause.*1 = ["Hive"; "KeyPath"] ∧
    Forall (λ kv,
              kwargs_get
                [("ValueName", "Version"); ("KeyPath", "Software\TestApp");
                 ("Hive", "HKEY_LOCAL_MACHINE")] kv.1 = inr kv.2)
      where_clause ∧
    ∃ self, o = WRet self ∧ wmimon._notify_filter self = "KeyChange" ∧
            wmimon._kwargs self =
              [("ValueName", "Version"); ("KeyPath", "Software\TestApp");
               ("Hive", "HKEY_LOCAL_MACHINE")].
Proof.
  apply (registry_wmi_watch_request
           (wmi := sample_wmi (inr ()) (inr ()) Never)
           "KeyChange" "RegistryKeyChangeEvent" ["Hive"; "KeyPath"]
           [("ValueName", "Version"); ("KeyPath", "Software\TestApp");
            ("Hive", "HKEY_LOCAL_MACHINE")] []).
  - by repeat constructor.
  - by repeat constructor.
  - reflexivity.
  - by repeat constructor.
Defined.

Lemma registry_wmi_missing_keyword_witness :
  ∃ key,
    key ∈ ["Hive"; "KeyPath"; "ValueName"] ∧
    (key ∉ ([("Hive", "HKEY_LOCAL_MACHINE");
             ("KeyPath", "Software\TestApp")] : kwargs_t).*1) ∧
    wmimon.RegistryMonitorWMI__init__
      (wmi := sample_wmi (inr ()) (inr ()) Never) "ValueChange"
      [("Hive", "HKEY_LOCAL_MACHINE"); ("KeyPath", "Software\TestApp")]
      ((), [])
    = (WRaise (Py (KeyError key)), ((), [WMI (Some "root/DEFAULT")])).
Proof.
  apply (registry_wmi_missing_keyword
           (wmi := sample_wmi (inr ()) (inr ()) Never)
           "ValueChange" "RegistryValueChangeEvent"
           ["Hive"; "KeyPath"; "ValueName"]
           [("Hive", "HKEY_LOCAL_MACHINE"); ("KeyPath", "Software\TestApp")]
           []).
  - by repeat constructor.
  - by repeat constructor.
  - reflexivity.
  - intros Hall.
    apply Forall_cons in Hall as [_ Hall].
    apply Forall_cons in Hall as [_ Hall].
    apply Forall_cons in Hall as [Hkey _].
    revert Hkey. not_in_trace.
Defined.

Lemma file_wmi_installation_errors_witness :
  wmimon.FileMonitorWMI__init__
    (wmi := sample_wmi (inl (-2147023174)) (inr ()) Never)
    "File" "Creation" [("Path", "\watched\")] ((), [])
    = (WRaise (x_wmi (-2147023174)), ((), [WMI (Some "root/CIMv2")])) ∧
  wmimon.FileMonitorWMI__init__
    (wmi := sample_wmi (inr ()) (inl (-2147217385)) Never)
    "Directory" "Creation" [("Path", "\watched\")] ((), [])
    = (WRaise (Py (FileMonitorError (Some
         ("Watcher installation error. Error code: " +:+
          pretty (-2147217385) +:+ ".")))),
       ((), [WMI (Some "root/CIMv2");
             watch_for "CIM_Directory" (Some "Creation")
               [("Path", "\watched\")]])) ∧
  wmimon.FileMonitorWMI__init__
    (wmi := sample_wmi (inr ()) (inl 0) Never)
    "File" "Creation" [("Path", "\watched\")] ((), [])
    = (WRaise (Py (FileMonitorError (Some
         "Watcher installation error. Error code: unknown."))),
       ((), [WMI (Some "root/CIMv2");
             watch_for "CIM_DataFile" (Some "Creation")
               [("Path", "\watched\")]])).
Proof.
  split_and!.
  - destruct (file_wmi_installation_errors
                (wmi := sample_wmi (inl (-2147023174)) (inr ()) Never)
                "File" "Creation" [("Path", "\watched\")] [] (-2147023174))
      as [Hconnect _];
      [by repeat constructor|by repeat constructor|by repeat constructor|].
    apply Hconnect. reflexivity.
  - destruct (file_wmi_installation_errors
                (wmi := sample_wmi (inr ()) (inl (-2147217385)) Never)
                "Directory" "Creation" [("Path", "\watched\")] []
                (-2147217385))
      as [_ Hwatch];
      [by repeat constructor|by repeat constructor|by repeat constructor|].
    apply Hwatch; reflexivity.
  - destruct (file_wmi_installation_errors
                (wmi := sample_wmi (inr ()) (inl 0) Never)
                "File" "Creation" [("Path", "\watched\")] [] 0)
      as [_ Hwatch];
      [by repeat constructor|by repeat constructor|by repeat constructor|].
    apply Hwatch; reflexivity.
Defined.

Lemma file_wmi_update_keeps_absent_attributes_witness :
  ∃ self',
    wmimon.FileMonitorWMI_update
      (wmi := sample_wmi (inr ()) (inr ()) (Event sample_directory_event))
      (sample_file_monitor_wmi, [])
    = (WRet (), (self', [next_event])) ∧
    wmimon._event_properties self' !! "Timestamp"
      = Some (WInt 133000000000000000) ∧
    wmimon._event_properties self' !! "Drive" = Some (WStr "c:") ∧
    wmimon._event_properties self' !! "FileName" = Some (WStr "note") ∧
    wmimon._event_properties self' !! "Extension" = Some (WStr "txt").
Proof.
  destruct (file_wmi_update_keeps_absent_attributes
              (wmi := sample_wmi (inr ()) (inr ()) (Event sample_directory_event))
              sample_file_monitor_wmi [] sample_directory_event
              (WInt 133000000000000000) (WStr "creation"))
    as (self' & Hrun & _ & _ & Hts & _ & Hopt & _);
    [reflexivity|reflexivity|reflexivity|].
  exists self'. split_and!.
  - exact Hrun.
  - exact Hts.
  - apply (Hopt "Drive"). by repeat constructor.
  - apply (Hopt "FileName"). by repeat constructor.
  - apply (Hopt "Extension"). by repeat constructor.
Defined.

Lemma registry_wmi_update_properties_witness :
  ∃ self',
    wmimon.RegistryMonitorWMI_update
      (wmi := sample_wmi (inr ()) (inr ()) (Event sample_value_event))
      (sample_registry_monitor_wmi, [])
    = (WRet (), (self', [next_event])) ∧
    wmimon._event_properties self' !! "Timestamp"
      = Some (WDatetime 13300000000000000) ∧
    wmimon._event_properties self' !! "EventType"
      = Some (WStr "ValueChange") ∧
    wmimon._event_properties self' !! "Hive"
      = Some (WStr "HKEY_LOCAL_MACHINE") ∧
    wmimon._event_properties self' !! "RootPath" = Some WNone ∧
    wmimon._event_properties self' !! "ValueName" = Some (WStr "Version").
Proof.
  destruct (registry_wmi_update_properties
              (wmi := sample_wmi (inr ()) (inr ()) (Event sample_value_event))
              sample_registry_monitor_wmi [] sample_value_event
              (WInt 133000000000000000) (WDatetime 13300000000000000)
              (WStr "HKEY_LOCAL_MACHINE"))
    as (self' & Hrun & _ & _ & Hts & Het & Hhive & Hopt & _);
    [reflexivity|reflexivity|reflexivity|reflexivity|].
  exists self'. split_and!.
  - exact Hrun.
  - exact Hts.
  - exact Het.
  - exact Hhive.
  - apply (Hopt "RootPath"). by repeat constructor.
  - apply (Hopt "ValueName"). by repeat constructor.
Defined.

Lemma registry_wmi_update_without_hive_witness :
  ∃ self',
    wmimon.RegistryMonitorWMI_update
      (wmi := sample_wmi (inr ()) (inr ())
                (Event (delete "Hive" sample_value_event)))
      (sample_registry_monitor_wmi, [])
    = (WRaise (AttributeError "Hive"), (self', [next_event])) ∧
    wmimon._event_properties self' !! "Timestamp"
      = Some (WDatetime 13300000000000000) ∧
    wmimon._event_properties self' !! "Hive" = Some (WStr "HKEY_USERS") ∧
    wmimon._event_properties self' !! "KeyPath"
      = Some (WStr "Software\Old").
Proof.
  destruct (registry_wmi_update_without_hive
              (wmi := sample_wmi (inr ()) (inr ())
                        (Event (delete "Hive" sample_value_event)))
              sample_registry_monitor_wmi []
              (delete "Hive" sample_value_event)
              (WInt 133000000000000000) (WDatetime 13300000000000000))
    as (self' & Hrun & Hts & _ & Hkept);
    [reflexivity|reflexivity|reflexivity|reflexivity|].
  exists self'. split_and!.
  - exact Hrun.
  - exact Hts.
  - rewrite (Hkept "Hive"); [reflexivity|not_in_trace].
  - rewrite (Hkept "KeyPath"); [reflexivity|not_in_trace].
Defined.

Lemma wmi_update_propagates_x_wmi_witness :
  wmimon.FileMonitorWMI_update
    (wmi := sample_wmi (inr ()) (inr ()) (Fails (-2147209215)))
    (sample_file_monitor_wmi, [])
    = (WRaise (x_wmi (-2147209215)), (sample_file_monitor_wmi, [next_event])) ∧
  wmimon.RegistryMonitorWMI_update
    (wmi := sample_wmi (inr ()) (inr ()) (Fails (-2147209215)))
    (sample_registry_monitor_wmi, [])
    = (WRaise (x_wmi (-2147209215)),
       (sample_registry_monitor_wmi, [next_event])) ∧
  wmimon.ProcessMonitor_update
    (wmi := sample_wmi (inr ()) (inr ()) (Fails (-2147209215)))
    (wmimon.initial_process_property, [])
    = (WRaise (x_wmi (-2147209215)),
       (wmimon.initial_process_property, [next_event])).
Proof.
  destruct (wmi_update_propagates_x_wmi
              (wmi := sample_wmi (inr ()) (inr ()) (Fails (-2147209215)))
              [] (-2147209215))
    as (Hfile & Hreg & Hproc); [reflexivity|].
  split_and!; [apply Hfile|apply Hreg|apply Hproc].
Defined.

(** Every attribute [update] reads is among those of the sample event. *)
Lemma sample_process_event_complete (attribute : string) :
  attribute ∈ wmimon.process_event_attributes →
  is_Some (sample_process_event !! attribute).
Proof.
  unfold wmimon.process_event_attributes.
  rewrite !elem_of_cons, elem_of_nil. intros Hin.
  destruct_or?; try done; subst attribute; by eexists.
Qed.

Lemma process_update_replaces_all_properties_witness :
  ∃ props',
    wmimon.ProcessMonitor_update
      (wmi := sample_wmi (inr ()) (inr ()) (Event sample_process_event))
      (wmimon.initial_process_property, [])
    = (WRet (), (props', [next_event])) ∧
    props' !! "EventType" = Some (WStr "creation") ∧
    props' !! "TimeStamp" = Some (WInt 133000000000000000) ∧
    props' !! "ProcessID" = Some (WInt 7744).
Proof.
  destruct (process_update_replaces_all_properties
              (wmi := sample_wmi (inr ()) (inr ()) (Event sample_process_event))
              wmimon.initial_process_property [] sample_process_event)
    as (props' & Hrun & Het & Hts & Hsame & _);
    [reflexivity|apply sample_process_event_complete|].
  exists props'. split_and!.
  - exact Hrun.
  - exact Het.
  - exact Hts.
  - apply (Hsame "ProcessID"); [by repeat constructor|done|done].
Defined.

Lemma process_creation_date_witness :
  ProcessMonitor.creation_date wmimon.initial_process_property
    = inl TypeError ∧
  ProcessMonitor.name wmimon.initial_process_property = inr WNone ∧
  ∃ props',
    wmimon.ProcessMonitor_update
      (wmi := sample_wmi (inr ()) (inr ()) (Event sample_process_event))
      (wmimon.initial_process_property,
       [WMI None; watch_for "Win32_Process" (Some "Creation") []])
    = (WRet (),
       (props',
        [WMI None; watch_for "Win32_Process" (Some "Creation") [];
         next_event])) ∧
    ProcessMonitor.creation_date props' = inr "04/11/2026 12:30:45".
Proof.
  destruct (process_creation_date
              (wmi := sample_wmi (inr ()) (inr ()) (Event sample_process_event))
              "Creation" []
              [WMI None; watch_for "Win32_Process" (Some "Creation") []]
              wmimon.initial_process_property sample_process_event
              (WStr "20261104123045.500000+060"))
    as (Hbefore & Hnone & Hafter);
    [reflexivity|reflexivity|apply sample_process_event_complete|
     reflexivity|].
  split; [exact Hbefore|]. split.
  - apply Forall_cons in Hnone as [_ Hnone].
    apply Forall_cons in Hnone as [_ Hnone].
    apply Forall_cons in Hnone as [_ Hnone].
    apply Forall_cons in Hnone as [_ Hnone].
    apply Forall_cons in Hnone as [_ Hnone].
    apply Forall_cons in Hnone as [_ Hnone].
    apply Forall_cons in Hnone as [_ Hnone].
    by apply Forall_cons in Hnone as [Hname _].
  - exact Hafter.
Defined.
